(** * Shadowserver api_utils: report synchronisation and event transformation

    A shallow embedding of the three report-synchronisation programs of the
    repository -- [report-manager.py], [cef/shadowserver_cef_logger.py] and
    [elasticsearch/shadowserver_ecs_logger.py] -- together with the
    properties their specification states about them.

    Modelling conventions.
    - Text is a string of bytes; a Python [str] is read in its UTF-8
      encoding, in which splitting, replacing and joining at ASCII
      characters are what they are in Python.
    - The filesystem is a finite map from path strings to regular files
      (content and modification time).  Directories are taken to exist:
      [os.mkdir] and [os.path.isdir] are not modelled, and a path names a
      regular file or nothing.
    - The network is an oracle.  Each place where the code calls
      [urlretrieve] or the listing API receives, as an input, what the remote
      side does at that moment.
    - What the interpreter's libraries decide is a parameter: the rows
      [csv.DictReader] makes of a text and the exception that may end its
      reading, whether [json.load] accepts a text, which characters the
      class [\d] of [re] holds, which keys [logging] refuses in a record.
    - The mapping tables map strings to strings, as the published
      documents do.
    - Output (syslog lines, log records, printed messages, API requests) is
      collected as a list of events, in program order; [syslog.syslog],
      [print] and the handlers of [logging] are taken to return.
    - An exception that the code does not catch ends the run: such code
      returns [Raise]; [sys.exit] through [die] returns [Fatal]. *)

From Stdlib Require Import ZArith String Ascii List Lia Bool DecimalString.
From stdpp Require Import base gmap strings list option fin_maps.
Import ListNotations.

Local Open Scope string_scope.
Local Open Scope list_scope.

(** ** Strings *)

Definition nonempty (s : string) : bool :=
  match s with "" => false | _ => true end.

Definition is_char (c : ascii) : ascii -> bool := Ascii.eqb c.
Definition not_char (c : ascii) (x : ascii) : bool := negb (Ascii.eqb c x).

Fixpoint take_while (p : ascii -> bool) (s : string) : string :=
  match s with
  | "" => ""
  | String c s' => if p c then String c (take_while p s') else ""
  end.

Fixpoint drop_while (p : ascii -> bool) (s : string) : string :=
  match s with
  | "" => ""
  | String c s' => if p c then drop_while p s' else s
  end.

(** [str.split(sep)] for a one-character separator, and [re.split] for a
    character class: the pieces between separators, empty pieces kept. *)
Fixpoint split_on (p : ascii -> bool) (s : string) : list string :=
  match s with
  | "" => [""]
  | String c s' =>
      if p c then "" :: split_on p s'
      else match split_on p s' with
           | [] => [String c ""]
           | w :: ws => String c w :: ws
           end
  end.

(** [s.replace(a, b)] for single characters. *)
Fixpoint replace_char (a b : ascii) (s : string) : string :=
  match s with
  | "" => ""
  | String c s' => String (if Ascii.eqb c a then b else c) (replace_char a b s')
  end.

Fixpoint count_char (p : ascii -> bool) (s : string) : nat :=
  match s with
  | "" => 0
  | String c s' => (if p c then 1 else 0) + count_char p s'
  end.

Fixpoint ends_with_char (c : ascii) (s : string) : bool :=
  match s with
  | "" => false
  | String x "" => Ascii.eqb x c
  | String _ s' => ends_with_char c s'
  end.

Definition starts_with_char (c : ascii) (s : string) : bool :=
  match s with
  | String x _ => Ascii.eqb x c
  | "" => false
  end.

(** [strip_prefix p s] is [Some r] when [s = p ++ r]. *)
Fixpoint strip_prefix (p s : string) : option string :=
  match p, s with
  | "", _ => Some s
  | String a p', String b s' => if Ascii.eqb a b then strip_prefix p' s' else None
  | String _ _, "" => None
  end.

(** [chomp s] is [Some r] when [s] is [r] followed by a newline. *)
Fixpoint chomp (s : string) : option string :=
  match s with
  | "" => None
  | String c "" => if Ascii.eqb c "010" then Some "" else None
  | String c s' => option_map (String c) (chomp s')
  end.

(** ** Paths ([posixpath]) *)

(** [os.path.join(a, b)]. *)
Definition path_join (a b : string) : string :=
  if starts_with_char "/" b then b
  else if negb (nonempty a) || ends_with_char "/" a then a +:+ b
  else a +:+ "/" +:+ b.

(** [os.path.basename(p)]: what follows the last slash. *)
Fixpoint basename (p : string) : string :=
  match p with
  | "" => ""
  | String c p' =>
      if Ascii.eqb c "/" then basename p'
      else if existsb (Ascii.eqb "/") (list_ascii_of_string p') then basename p'
      else p
  end.

(** ** Filesystem *)

Record file := File { content : string; mtime : Z }.

Definition exists_ (fs : gmap string file) (p : string) : bool :=
  bool_decide (is_Some (fs !! p)).

(** [os.path.getsize]; [None] stands for the [OSError] of a missing file. *)
Definition getsize (fs : gmap string file) (p : string) : option nat :=
  (fun f => String.length (content f)) <$> fs !! p.

(** Creating or overwriting a file at time [now]. *)
Definition write (p data : string) (now : Z) (fs : gmap string file)
  : gmap string file :=
  <[p := File data now]> fs.

(** [os.unlink]; [None] stands for [FileNotFoundError]. *)
Definition unlink (p : string) (fs : gmap string file)
  : option (gmap string file) :=
  if exists_ fs p then Some (delete p fs) else None.

(** [os.rename(src, dst)], replacing [dst]; [None] when [src] is missing. *)
Definition rename (src dst : string) (fs : gmap string file)
  : option (gmap string file) :=
  match fs !! src with
  | Some f => Some (<[dst := f]> (delete src fs))
  | None => None
  end.

(** [open(p, 'a')] followed by [truncate(0)]: the file is emptied (and
    created when missing). *)
Definition truncate (p : string) (now : Z) (fs : gmap string file)
  : gmap string file :=
  <[p := File "" now]> fs.

(** A directory entry of [dir]: [p] is [os.path.join(dir, name)] for a name
    without slash. *)
Definition in_dir (dir p : string) : bool :=
  let base := if negb (nonempty dir) || ends_with_char "/" dir
              then dir else dir +:+ "/" in
  match strip_prefix base p with
  | Some name =>
      nonempty name && negb (existsb (Ascii.eqb "/") (list_ascii_of_string name))
  | None => false
  end.

(** ** Results *)

Inductive result (A : Type) : Type :=
| Ret (a : A)
| Raise (exn : string).
Arguments Ret {A} a.
Arguments Raise {A} exn.

(** ** The remote side *)

(** What one call of [urlretrieve(url, target)] does. *)
Inductive fetch_outcome : Type :=
| FetchFailEarly                 (* raises before [target] is opened *)
| FetchFailLate (partial : string) (* [target] written, then raises *)
| FetchOk (data : string).       (* [target] written, returns *)

(** The filesystem after the call, and whether it returned ([true]) or
    raised ([false]). *)
Definition urlretrieve (o : fetch_outcome) (target : string) (now : Z)
    (fs : gmap string file) : gmap string file * bool :=
  match o with
  | FetchFailEarly => (fs, false)
  | FetchFailLate partial => (write target partial now fs, false)
  | FetchOk data => (write target data now fs, true)
  end.

(** One entry of the [reports/list] reply. *)
Record report := Report {
  r_id : string;
  r_file : string;
  r_type : string;
  r_timestamp : string
}.

Global Instance report_eq_dec : EqDecision report.
Proof. solve_decision. Defined.

(** ** Dates ([datetime.date]) *)

Module Dates.
Local Open Scope Z_scope.

Definition is_leap (y : Z) : bool :=
  (y mod 4 =? 0) && (negb (y mod 100 =? 0) || (y mod 400 =? 0)).

Definition days_before_year (year : Z) : Z :=
  let y := year - 1 in y * 365 + y / 4 - y / 100 + y / 400.

Definition DAYS_IN_MONTH : list Z :=
  [31; 28; 31; 30; 31; 30; 31; 31; 30; 31; 30; 31].

Definition days_in_month (year month : Z) : Z :=
  if (month =? 2) && is_leap year then 29
  else nth (Z.to_nat (month - 1)) DAYS_IN_MONTH 0.

Definition DAYS_BEFORE_MONTH : list Z :=
  [0; 31; 59; 90; 120; 151; 181; 212; 243; 273; 304; 334].

Definition days_before_month (leap : bool) (month : Z) : Z :=
  nth (Z.to_nat (month - 1)) DAYS_BEFORE_MONTH 0
  + (if (2 <? month) && leap then 1 else 0).

Definition DI400Y : Z := days_before_year 401.
Definition DI100Y : Z := days_before_year 101.
Definition DI4Y : Z := days_before_year 5.

(** [date.toordinal]: 1 is 0001-01-01. *)
Definition ymd2ord (year month day : Z) : Z :=
  days_before_year year + days_before_month (is_leap year) month + day.

(** [date.fromordinal], as [(year, month, day)]. *)
Definition ord2ymd (ord : Z) : Z * Z * Z :=
  let n := ord - 1 in
  let n400 := n / DI400Y in
  let n := n mod DI400Y in
  let year := n400 * 400 + 1 in
  let n100 := n / DI100Y in
  let n := n mod DI100Y in
  let n4 := n / DI4Y in
  let n := n mod DI4Y in
  let n1 := n / 365 in
  let n := n mod 365 in
  let year := year + n100 * 100 + n4 * 4 + n1 in
  if (n1 =? 4) || (n100 =? 4) then (year - 1, 12, 31)
  else
    let leapyear := (n1 =? 3) && (negb (n4 =? 24) || (n100 =? 3)) in
    let month := Z.shiftr (n + 50) 5 in
    let preceding := days_before_month leapyear month in
    if n <? preceding then
      let month' := month - 1 in
      let preceding' :=
        preceding
        - (nth (Z.to_nat (month' - 1)) DAYS_IN_MONTH 0
           + (if (month' =? 2) && leapyear then 1 else 0)) in
      (year, month', n - preceding' + 1)
    else (year, month, n - preceding + 1).

Definition decimal (n : Z) : string :=
  NilZero.string_of_uint (N.to_uint (Z.to_N n)).

(** ["%0<width>d" % n] for [0 <= n]. *)
Definition zero_pad (width : nat) (n : Z) : string :=
  let d := decimal n in
  string_of_list_ascii (repeat "0"%char (width - String.length d)) +:+ d.

(** [date.isoformat()] of the date with ordinal [ord]. *)
Definition isoformat (ord : Z) : string :=
  let '(y, m, d) := ord2ymd ord in
  zero_pad 4 y +:+ "-" +:+ zero_pad 2 m +:+ "-" +:+ zero_pad 2 d.
End Dates.

(** ** Events *)

(** One item of the dictionary that [csv.DictReader] makes of a line: a
    column of the header with the text of its cell, or with [None] where
    the line has fewer cells than the header ([restval]); and, where the
    line has more cells than the header, the key [None] holding the list of
    the surplus cells ([restkey]), which is added last. *)
Inductive entry : Type :=
| Column (field : string) (value : option string)
| Rest (cells : list string).

Definition row : Type := list entry.

(** [value != ""] for the value of a column. *)
Definition not_blank (value : option string) : bool :=
  match value with
  | Some s => nonempty s
  | None => true
  end.

(** A value stored in a structured event: the value of a column (a string
    or [None]), the list made by the [tags] directive, or the dictionary
    made by the [labels] directive. *)
Inductive val : Type :=
| VStr (s : string)
| VList (l : list string)
| VDict (d : gmap string (option string))
| VNone.

Definition of_cell (value : option string) : val :=
  match value with
  | Some s => VStr s
  | None => VNone
  end.

Inductive event : Type :=
| EvApiCall (method date : string) (reports : option (list string))
| EvFetch (r : report) (target : string)   (* urlretrieve(DLROOT + id, target) *)
| EvMapFetch (target : string)             (* urlretrieve(MAPURL, target) *)
| EvTransform (r : report) (path : string) (* _stream_events entered *)
| EvSyslog (line : string)
| EvRecord (e : gmap string val)         (* logger.info('', extra=e) *)
| EvWarnNoMapping (r : report)
| EvNotify (r : report) (filename : string)
| EvPrint (line : string).

(** The downloads and transformations of the listed report [r]. *)
Definition concerns (r : report) (e : event) : bool :=
  match e with
  | EvFetch r' _ => bool_decide (r' = r)
  | EvTransform r' _ => bool_decide (r' = r)
  | _ => false
  end.

Definition is_fetch (e : event) : bool :=
  match e with EvFetch _ _ => true | _ => false end.

Definition is_transform (e : event) : bool :=
  match e with EvTransform _ _ => true | _ => false end.

Definition is_listing_call (date : string) (e : event) : bool :=
  match e with
  | EvApiCall method d _ => String.eqb method "reports/list" && String.eqb d date
  | _ => true
  end.

(** The events of a trace that touch the final path [p]: a fetch written
    to it or a transformation reading it. *)
Definition touches (p : string) (e : event) : bool :=
  match e with
  | EvFetch _ t => String.eqb t p
  | EvTransform _ t => String.eqb t p
  | _ => false
  end.

(** ** report-manager.py *)

Module ReportManager.

Record config := Config {
  basedir : string;
  min_disk_free : option Z;   (* the [min_disk_free] setting, in MB *)
  notifier : bool             (* whether a notifier is configured *)
}.

(** [int(config.get('reports', 'min_disk_free', fallback=512)) * 1024 * 1024] *)
Definition threshold (cfg : config) : Z :=
  (default 512 (min_disk_free cfg) * 1024 * 1024)%Z.

Record state := State {
  st_fs : gmap string file;
  st_count : nat              (* [self.count] *)
}.

Inductive outcome : Type :=
| Done
| Fatal (msg : string).       (* [die]: syslog, then [sys.exit] *)

Definition tmp_path (directory : string) (r : report) : string :=
  path_join directory ("." +:+ r_file r).

Definition dst_path (directory : string) (r : report) : string :=
  path_join directory (r_file r).

Definition download_failed (r : report) : event :=
  EvSyslog ("Exception: unable to download " +:+ r_file r).

(** [ReportManager._download].  The notifier is an external collaborator
    and is taken to return. *)
Definition _download (cfg : config) (r : report) (directory : string)
    (o : fetch_outcome) (now : Z) (s : state) : state * list event :=
  let tmp := tmp_path directory r in
  let dst := dst_path directory r in
  if exists_ (st_fs s) dst then (s, [])
  else
    let '(fs1, returned) := urlretrieve o tmp now (st_fs s) in
    if returned then
      match getsize fs1 tmp with
      | Some n =>
          if (0 <? n)%nat then
            match rename tmp dst fs1 with
            | Some fs2 =>
                (State fs2 (S (st_count s)),
                 EvFetch r tmp :: (if notifier cfg then [EvNotify r dst] else []))
            | None => (State fs1 (st_count s), [EvFetch r tmp; download_failed r])
            end
          else (State fs1 (st_count s), [EvFetch r tmp])
      | None => (State fs1 (st_count s), [EvFetch r tmp; download_failed r])
      end
    else (State fs1 (st_count s), [EvFetch r tmp; download_failed r]).

(** What the environment does while one listed report is handled: the
    free space [shutil.disk_usage] reports, and the download. *)
Record step := Step {
  s_report : report;
  s_free : Z;
  s_net : fetch_outcome
}.

(** The reply to [reports/list] for one date. *)
Inductive listing : Type :=
| ApiRaises                   (* [api.api_call] raises *)
| ParseFails                  (* [json.loads] raises *)
| Reports (steps : list step).

Definition insufficient : string := "Exception: insufficient disk space".

(** The loop [for report in reports] of [_sync]. *)
Fixpoint download_loop (cfg : config) (directory : string) (now : Z)
    (steps : list step) (s : state) : state * list event * outcome :=
  match steps with
  | [] => (s, [], Done)
  | st :: rest =>
      if (s_free st <? threshold cfg)%Z
      then (s, [EvSyslog insufficient], Fatal insufficient)
      else
        let '(s1, ev1) := _download cfg (s_report st) directory (s_net st) now s in
        let '(s2, ev2, out) := download_loop cfg directory now rest s1 in
        (s2, ev1 ++ ev2, out)
  end.

(** The year/month/day tree below [basedir]. *)
Definition directory_of (cfg : config) (date : string) : string :=
  path_join (path_join (path_join (basedir cfg) (substring 0 4 date))
                       (substring 5 2 date))
            (substring 8 2 date).

(** [ReportManager._sync]. *)
Definition _sync (cfg : config) (date : string) (now : Z) (l : listing)
    (s : state) : state * list event * outcome :=
  let directory := directory_of cfg date in
  let call := EvApiCall "reports/list" date None in
  match l with
  | ApiRaises => (s, [call; EvSyslog "API Exception"], Fatal "API Exception")
  | ParseFails =>
      (s, [call; EvSyslog "Exception: unable to parse output for reports/list"],
       Fatal "Exception: unable to parse output for reports/list")
  | Reports steps =>
      let '(s', ev, out) := download_loop cfg directory now steps s in
      (s', call :: ev, out)
  end.

(** The dates of one run: [reversed(range(1, days+1))] days before today. *)
Definition offsets (days : nat) : list Z := map Z.of_nat (rev (seq 1 days)).

Fixpoint sync_days (cfg : config) (today now : Z) (env : Z -> listing)
    (offs : list Z) (s : state) : state * list event * outcome :=
  match offs with
  | [] => (s, [], Done)
  | i :: rest =>
      match _sync cfg (Dates.isoformat (today - i)) now (env i) s with
      | (s1, ev1, Done) =>
          let '(s2, ev2, out) := sync_days cfg today now env rest s1 in
          (s2, ev1 ++ ev2, out)
      | (s1, ev1, Fatal msg) => (s1, ev1, Fatal msg)
      end
  end.

(** [ReportManager.run]. *)
Definition run (cfg : config) (days : nat) (today now : Z) (env : Z -> listing)
    (s : state) : state * list event * outcome :=
  match sync_days cfg today now env (offsets days) s with
  | (s', ev, Done) => (s', ev ++ [EvSyslog "Completed"], Done)
  | r => r
  end.

End ReportManager.

(** ** Code shared by the two loggers

    [_download], [update] and the expiry loop have the same text in
    [shadowserver_cef_logger.py] and [shadowserver_ecs_logger.py]. *)

Module Logger.

Definition MAX_AGE : Z := 86400 * 7.

Definition map_filename : string := "map.json".

Definition failed : event := EvPrint "ERROR: Download failed".

(** [_download(report, path)]: the report is fetched straight to [path].
    The handler of a raising fetch unlinks [path]; when the fetch raised
    before creating it, [os.unlink] raises in turn and nothing catches
    that. *)
Definition _download (r : report) (path : string) (o : fetch_outcome)
    (now : Z) (fs : gmap string file)
  : gmap string file * list event * result bool :=
  let '(fs1, returned) := urlretrieve o path now fs in
  let handler :=
    match unlink path fs1 with
    | Some fs2 => (fs2, [EvFetch r path; failed], Ret false)
    | None => (fs1, [EvFetch r path; failed], Raise "FileNotFoundError")
    end in
  if returned then
    match getsize fs1 path with
    | Some n => (fs1, [EvFetch r path], Ret (0 <? n)%nat)
    | None => handler
    end
  else handler.

(** [update()].  [json_ok text] tells whether [json.load] accepts the
    text. *)
Definition update (json_ok : string -> bool) (state_directory : string)
    (o : fetch_outcome) (now : Z) (fs : gmap string file)
  : gmap string file * list event * result bool :=
  let map_tmp := path_join state_directory ("." +:+ map_filename) in
  let map_path := path_join state_directory map_filename in
  let '(fs1, returned) := urlretrieve o map_tmp now fs in
  let '(status, ev) :=
    if returned then
      match getsize fs1 map_tmp with
      | Some n =>
          if (0 <? n)%nat then
            match content <$> fs1 !! map_tmp with
            | Some text => if json_ok text then (true, []) else (false, [failed])
            | None => (false, [failed])
            end
          else (false, [])
      | None => (false, [failed])
      end
    else (false, [failed]) in
  if status then
    match rename map_tmp map_path fs1 with
    | Some fs2 =>
        (fs2, EvMapFetch map_tmp :: ev
              ++ [EvPrint "INFO: Mapping downloaded successfully"], Ret true)
    | None => (fs1, EvMapFetch map_tmp :: ev, Raise "FileNotFoundError")
    end
  else
    (if exists_ fs1 map_tmp then delete map_tmp fs1 else fs1,
     EvMapFetch map_tmp :: ev, Ret false).

Definition expired (now : Z) (f : file) : bool :=
  (MAX_AGE <? now - mtime f)%Z.

(** The expiry loop over [os.listdir(dst)]. *)
Definition sweep (dst : string) (now : Z) (fs : gmap string file)
  : gmap string file :=
  filter (fun pf => in_dir dst pf.1 && expired now pf.2 = false) fs.

(** The reply to the [reports/list] call of one input section, each
    listed report with what its download would do. *)
Inductive api_reply : Type :=
| ApiRaise
| ApiNull                     (* the reply parses to [None] *)
| ApiReports (items : list (report * fetch_outcome)).

Record section_env := SectionEnv {
  e_reply : api_reply;
  e_now : Z                   (* the clock while the section is handled *)
}.

(** [if types is not None: if report['type'] not in types: continue] *)
Definition filtered_out (types : option (list string)) (r : report) : bool :=
  match types with
  | Some ts => negb (bool_decide (r_type r ∈ ts))
  | None => false
  end.

(** [row[k]]: [None] stands for the [KeyError] of a missing column. *)
Fixpoint row_get (k : string) (r : row) : option (option string) :=
  match r with
  | [] => None
  | Column field value :: rest =>
      if String.eqb field k then Some value else row_get k rest
  | Rest _ :: rest => row_get k rest
  end.

End Logger.

(** ** cef/shadowserver_cef_logger.py *)

Module CEF.
Import Logger.

Definition facilities : list string :=
  ["kern"; "user"; "mail"; "daemon"; "auth"; "lpr"; "news"; "uucp"; "cron";
   "syslog"; "local0"; "local1"; "local2"; "local3"; "local4"; "local5";
   "local6"; "local7"].

Definition severities : list (string * string) :=
  [("info", "0"); ("low", "1"); ("medium", "5"); ("high", "8");
   ("critical", "10")].

(** [ref[v]] for the table of [cef_severity]. *)
Definition severity_code (v : string) : option string :=
  snd <$> find (fun kv => String.eqb (fst kv) v) severities.

Definition cef_severity (r : row) : string :=
  match row_get "severity" r with
  | Some (Some v) => default "0" (severity_code v)
  | _ => "0"
  end.

Definition cef_version : string := "0".
Definition device_version : string := "1.0".

Definition custom_prefixes : list string :=
  ["c6a"; "cfp"; "cn"; "cs"; "deviceCustomDate"; "flexDate"; "flexString"].

(** [str(value)] in ["%s=%s" % (cef, value)]. *)
Definition cell_text (value : option string) : string := default "None" value.

Section Lines.
(** [\d] on one character: whether the text is a single character that is
    a decimal digit of Unicode.  Which characters are depends on the tables
    of the interpreter; the ten digits of ASCII are among them, and so are
    the digits of other scripts. *)
Variable digit : string -> bool.

(** [\d$]: one digit, then the end of the string or its final newline. *)
Definition digit_then_end (s : string) : bool :=
  digit s || match chomp s with Some d => digit d | None => false end.

(** [re.match('^(c6a|cfp|cn|cs|deviceCustomDate|flexDate|flexString)\d$', cef)] *)
Definition is_custom_key (cef : string) : bool :=
  existsb (fun p => match strip_prefix p cef with
                    | Some rest => digit_then_end rest
                    | None => false
                    end) custom_prefixes.

(** The body of [for field in row]: what is appended to [parts].  The key
    [None] of a line with surplus cells is in no mapping. *)
Definition field_parts (mapping : gmap string string) (e : entry)
  : list string :=
  match e with
  | Rest _ => []
  | Column field value =>
      if not_blank value then
        match mapping !! field with
        | Some cef =>
            (cef +:+ "=" +:+ cell_text value)
              :: (if is_custom_key cef then [cef +:+ "Label:" +:+ field] else [])
        | None => []
        end
      else []
  end.

(** The line made of one row.  [row['timestamp']] raises [KeyError] when
    the column is missing, and [None.replace] raises [AttributeError] when
    the line ends before that column. *)
Definition row_line (mapping : gmap string string) (device_id rtype : string)
    (r : row) : result string :=
  match row_get "timestamp" r with
  | None => Raise "KeyError"
  | Some None => Raise "AttributeError"
  | Some (Some ts) =>
      Ret (String.concat " "
             (("CEF:" +:+ cef_version +:+ "|Shadowserver|Reports|"
               +:+ device_version +:+ "|" +:+ device_id +:+ "|" +:+ rtype
               +:+ "|" +:+ cef_severity r +:+ "|start="
               +:+ replace_char " " "T" ts)
                :: flat_map (field_parts mapping) r))
  end.

(** The loop [for row in reader]: the rows the reader yields and, when
    reading the file fails after them, the exception it raises then. *)
Fixpoint rows_loop (mapping : gmap string string) (device_id rtype : string)
    (rows : list row) (stop : option string) : list event * result unit :=
  match rows with
  | [] => ([], match stop with Some e => Raise e | None => Ret () end)
  | r :: rest =>
      match row_line mapping device_id rtype r with
      | Raise e => ([], Raise e)
      | Ret line =>
          let '(ev, res) := rows_loop mapping device_id rtype rest stop in
          (EvSyslog line :: ev, res)
      end
  end.
End Lines.

Section Run.
Variable digit : string -> bool.
(** [csv.DictReader] on the text of a file: the rows it yields, each a
    dictionary in column order, and the exception that ends the reading
    after them when the text cannot be decoded or parsed to its end. *)
Variable csv : string -> list row * option string.
Variable state_directory : string.
(** [self.mapping]: report type to the [map] member of its entry. *)
Variable mapping : gmap string (gmap string string).

Definition _stream_events (r : report) (path device_id : string)
    (fs : gmap string file) : list event * result unit :=
  match fs !! path with
  | None => ([EvTransform r path], Raise "FileNotFoundError")
  | Some f =>
      match mapping !! r_type r with
      | None => ([EvTransform r path], Raise "KeyError")
      | Some m =>
          let '(ev, res) :=
            rows_loop digit m device_id (r_type r)
              (csv (content f)).1 (csv (content f)).2 in
          match res with
          | Ret _ => (EvTransform r path :: ev ++ [EvPrint "INFO: Processed"], Ret ())
          | Raise e => (EvTransform r path :: ev, Raise e)
          end
      end
  end.

(** The body of [for report in reports]. *)
Definition report_step (types : option (list string)) (dst device_id : string)
    (now : Z) (r : report) (o : fetch_outcome) (fs : gmap string file)
  : gmap string file * list event * result unit :=
  if filtered_out types r then (fs, [], Ret ())
  else
    let path := path_join dst (r_file r) in
    if exists_ fs path then (fs, [], Ret ())
    else if negb (bool_decide (is_Some (mapping !! r_type r)))
    then (fs, [EvWarnNoMapping r], Ret ())
    else
      match _download r path o now fs with
      | (fs1, ev1, Ret true) =>
          match _stream_events r path device_id fs1 with
          | (ev2, Ret _) => (truncate path now fs1, ev1 ++ ev2, Ret ())
          | (ev2, Raise e) => (fs1, ev1 ++ ev2, Raise e)
          end
      | (fs1, ev1, Ret false) => (fs1, ev1, Ret ())
      | (fs1, ev1, Raise e) => (fs1, ev1, Raise e)
      end.

Fixpoint reports_loop (types : option (list string)) (dst device_id : string)
    (now : Z) (items : list (report * fetch_outcome)) (fs : gmap string file)
  : gmap string file * list event * result unit :=
  match items with
  | [] => (fs, [], Ret ())
  | (r, o) :: rest =>
      match report_step types dst device_id now r o fs with
      | (fs1, ev1, Ret _) =>
          let '(fs2, ev2, res) := reports_loop types dst device_id now rest fs1 in
          (fs2, ev1 ++ ev2, res)
      | (fs1, ev1, Raise e) => (fs1, ev1, Raise e)
      end
  end.

Definition date_str (today : Z) : string :=
  Dates.isoformat (today - 2) +:+ ":" +:+ Dates.isoformat (today + 1).

(** The body of [for input_name in self.config]. *)
Definition section_run (today : Z) (input_name : string)
    (input_item : gmap string string) (env : section_env)
    (fs : gmap string file) : gmap string file * list event * result unit :=
  match input_item !! "facility" with
  | None => (fs, [], Ret ())
  | Some facility =>
      if negb (bool_decide (facility ∈ facilities)) then (fs, [], Raise "NameError")
      else
        let types := split_on (is_char ",") <$> input_item !! "types" in
        let reports := split_on (is_char ",") <$> input_item !! "reports" in
        let device_id := default "100" (input_item !! "device_event_class_id") in
        let dst := path_join state_directory (basename input_name) in
        let call := EvApiCall "reports/list" (date_str today) reports in
        match e_reply env with
        | ApiRaise => (fs, [call], Raise "NameError")
        | ApiNull => (sweep dst (e_now env) fs, [call], Ret ())
        | ApiReports items =>
            match reports_loop types dst device_id (e_now env) items fs with
            | (fs1, ev, Ret _) => (sweep dst (e_now env) fs1, call :: ev, Ret ())
            | (fs1, ev, Raise e) => (fs1, call :: ev, Raise e)
            end
        end
  end.

Fixpoint sections_loop (today : Z) (config : list (string * gmap string string))
    (env : string -> section_env) (fs : gmap string file)
  : gmap string file * list event * result unit :=
  match config with
  | [] => (fs, [], Ret ())
  | (input_name, input_item) :: rest =>
      match section_run today input_name input_item (env input_name) fs with
      | (fs1, ev1, Ret _) =>
          let '(fs2, ev2, res) := sections_loop today rest env fs1 in
          (fs2, ev1 ++ ev2, res)
      | (fs1, ev1, Raise e) => (fs1, ev1, Raise e)
      end
  end.

(** [ShadowserverCEFLogger.run]. *)
Definition run (mode : string) (today : Z)
    (config : list (string * gmap string string))
    (env : string -> section_env) (fs : gmap string file)
  : gmap string file * list event * result unit :=
  if String.eqb mode "run" then sections_loop today config env fs
  else (fs, [], Ret ()).
(** Successive invocations (one per scheduled start), each with its own
    date and environment; a run that raises leaves the filesystem as it
    is for the next one. *)
Fixpoint runs (mode : string) (config : list (string * gmap string string))
    (schedule : list (Z * (string -> section_env))) (fs : gmap string file)
  : gmap string file * list event :=
  match schedule with
  | [] => (fs, [])
  | (today, env) :: rest =>
      let '(fs1, ev1, _) := run mode today config env fs in
      let '(fs2, ev2) := runs mode config rest fs1 in
      (fs2, ev1 ++ ev2)
  end.
End Run.

End CEF.

(** ** elasticsearch/shadowserver_ecs_logger.py *)

Module ECS.
Import Logger.

(** [event['timestamp'] = value.replace(' ', 'T')+'Z']; [None] has no
    [replace]. *)
Definition set_timestamp (event : gmap string val) (field : string)
    (value : option string) : result (gmap string val) :=
  match value with
  | Some v => Ret (<["timestamp" := VStr (replace_char " " "T" v +:+ "Z")]> event)
  | None => Raise "AttributeError"
  end.

Definition is_tag_separator (c : ascii) : bool :=
  is_char "," c || is_char ";" c.

(** [event['tags'] = re.split('[,;]', value)]; [re.split] refuses [None]. *)
Definition set_tags (event : gmap string val) (field : string)
    (value : option string) : result (gmap string val) :=
  match value with
  | Some v => Ret (<["tags" := VList (split_on is_tag_separator v)]> event)
  | None => Raise "TypeError"
  end.

(** [set_labels]: whatever the item assignment raises (no first argument,
    or a [labels] entry that is not a dictionary) is swallowed. *)
Definition set_labels (event : gmap string val) (field : string)
    (value : option string) (args : list string) : gmap string val :=
  let event1 :=
    if bool_decide (is_Some (event !! "labels")) then event
    else <["labels" := VDict ∅]> event in
  match args with
  | [] => event1
  | key :: _ =>
      match event1 !! "labels" with
      | Some (VDict d) => <["labels" := VDict (<[key := value]> d)]> event1
      | _ => event1
      end
  end.

Inductive func : Type := FTimestamp | FLabels | FTags.

(** The registry [ShadowserverECSLogger.functions]. *)
Definition functions : gmap string func :=
  list_to_map [("timestamp", FTimestamp); ("labels", FLabels); ("tags", FTags)].

(** [self.functions[func](event, field, value, args)]: only [set_labels]
    takes four arguments. *)
Definition call_with_args (f : func) (event : gmap string val)
    (field : string) (value : option string) (args : list string)
  : result (gmap string val) :=
  match f with
  | FLabels => Ret (set_labels event field value args)
  | FTimestamp | FTags => Raise "TypeError"
  end.

(** [self.functions[func](event, field, value)]: [set_labels] lacks its
    fourth argument. *)
Definition call_plain (f : func) (event : gmap string val)
    (field : string) (value : option string) : result (gmap string val) :=
  match f with
  | FTimestamp => set_timestamp event field value
  | FTags => set_tags event field value
  | FLabels => Raise "TypeError"
  end.

(** [re.match("^\&([^\(]+)\(([^\)]+)\)", mapped)]: the two groups. *)
Definition match_call (mapped : string) : option (string * string) :=
  match mapped with
  | String "&" rest =>
      let name := take_while (not_char "(") rest in
      match drop_while (not_char "(") rest with
      | String _ rest' =>       (* the character dropped is the parenthesis *)
          let args := take_while (not_char ")") rest' in
          match drop_while (not_char ")") rest' with
          | String _ _ =>
              if nonempty name && nonempty args then Some (name, args) else None
          | "" => None
          end
      | "" => None
      end
  | _ => None
  end.

(** [re.match("^\&([^\(]+)", mapped)]: the group. *)
Definition match_bare (mapped : string) : option string :=
  match mapped with
  | String "&" rest =>
      let name := take_while (not_char "(") rest in
      if nonempty name then Some name else None
  | _ => None
  end.

(** The function name a target carries, by either pattern. *)
Definition directive_name (mapped : string) : option string :=
  match match_call mapped with
  | Some (func, _) => Some func
  | None => match_bare mapped
  end.

Section Transform.
(** Whether [Logger.makeRecord] refuses the key in [extra]: the keys
    [message] and [asctime], and the attributes a log record has when it is
    made ([name], [msg], [args], ...; the list depends on the version of
    [logging]). *)
Variable reserved : string -> bool.
(** [self.mapping['map']]. *)
Variable mapping : gmap string string.

(** The target of a field with a value: the default, overwritten by the
    [type.field] entry, overwritten by the [field] entry. *)
Definition resolve (rtype field : string) : string :=
  let mapped := "extra" +:+ "." +:+ field in
  let name := rtype +:+ "." +:+ field in
  let mapped := match mapping !! name with Some t => t | None => mapped end in
  let mapped := match mapping !! field with Some t => t | None => mapped end in
  mapped.

(** The body of [for field in row].  At the key [None] of a line with
    surplus cells, [".".join(['extra', field])] raises. *)
Definition field_step (rtype : string) (event : gmap string val) (e : entry)
  : result (gmap string val) :=
  match e with
  | Rest _ => Raise "TypeError"
  | Column field value =>
      if not_blank value then
        let mapped := resolve rtype field in
        match match_call mapped with
        | Some (func, args) =>
            match functions !! func with
            | Some f =>
                call_with_args f event field value (split_on (is_char ",") args)
            | None => Ret event
            end
        | None =>
            match match_bare mapped with
            | Some func =>
                match functions !! func with
                | Some f => call_plain f event field value
                | None => Ret event
                end
            | None => Ret (<[mapped := of_cell value]> event)
            end
        end
      else Ret event
  end.

Fixpoint fields_loop (rtype : string) (r : row) (event : gmap string val)
  : result (gmap string val) :=
  match r with
  | [] => Ret event
  | e :: rest =>
      match field_step rtype event e with
      | Ret event' => fields_loop rtype rest event'
      | Raise exn => Raise exn
      end
  end.

(** One row: the event that is handed to the logger. *)
Definition row_event (rtype : string) (r : row) : result (gmap string val) :=
  match fields_loop rtype r ∅ with
  | Ret event => Ret (<["data_stream.dataset" := VStr rtype]> event)
  | Raise exn => Raise exn
  end.

(** Whether [logger.info('', extra=event)] raises [KeyError]. *)
Definition refused (event : gmap string val) : bool :=
  existsb (fun kv => reserved kv.1) (map_to_list event).

(** The loop [for row in reader]: the rows the reader yields and, when
    reading the file fails after them, the exception it raises then. *)
Fixpoint rows_loop (rtype : string) (rows : list row) (stop : option string)
  : list event * result unit :=
  match rows with
  | [] => ([], match stop with Some e => Raise e | None => Ret () end)
  | r :: rest =>
      match row_event rtype r with
      | Raise e => ([], Raise e)
      | Ret event =>
          if refused event then ([], Raise "KeyError")
          else
            let '(ev, res) := rows_loop rtype rest stop in
            (EvRecord event :: ev, res)
      end
  end.
End Transform.

Section Run.
Variable reserved : string -> bool.
Variable csv : string -> list row * option string.
Variable state_directory : string.
Variable mapping : gmap string string.

Definition _stream_events (r : report) (path : string)
    (fs : gmap string file) : list event * result unit :=
  match fs !! path with
  | None => ([EvTransform r path], Raise "FileNotFoundError")
  | Some f =>
      let '(ev, res) :=
        rows_loop reserved mapping (r_type r)
          (csv (content f)).1 (csv (content f)).2 in
      match res with
      | Ret _ => (EvTransform r path :: ev ++ [EvPrint "INFO: Processed"], Ret ())
      | Raise e => (EvTransform r path :: ev, Raise e)
      end
  end.

(** The body of [for report in reports]. *)
Definition report_step (types : option (list string)) (dst : string)
    (now : Z) (r : report) (o : fetch_outcome) (fs : gmap string file)
  : gmap string file * list event * result unit :=
  if filtered_out types r then (fs, [], Ret ())
  else
    let path := path_join dst (r_file r) in
    if exists_ fs path then (fs, [], Ret ())
    else
      match _download r path o now fs with
      | (fs1, ev1, Ret true) =>
          match _stream_events r path fs1 with
          | (ev2, Ret _) => (truncate path now fs1, ev1 ++ ev2, Ret ())
          | (ev2, Raise e) => (fs1, ev1 ++ ev2, Raise e)
          end
      | (fs1, ev1, Ret false) => (fs1, ev1, Ret ())
      | (fs1, ev1, Raise e) => (fs1, ev1, Raise e)
      end.

Fixpoint reports_loop (types : option (list string)) (dst : string)
    (now : Z) (items : list (report * fetch_outcome)) (fs : gmap string file)
  : gmap string file * list event * result unit :=
  match items with
  | [] => (fs, [], Ret ())
  | (r, o) :: rest =>
      match report_step types dst now r o fs with
      | (fs1, ev1, Ret _) =>
          let '(fs2, ev2, res) := reports_loop types dst now rest fs1 in
          (fs2, ev1 ++ ev2, res)
      | (fs1, ev1, Raise e) => (fs1, ev1, Raise e)
      end
  end.

Definition date_str (today : Z) : string :=
  Dates.isoformat (today - 2) +:+ ":" +:+ Dates.isoformat today.

(** The body of [for input_name in self.config]. *)
Definition section_run (today : Z) (input_name : string)
    (input_item : gmap string string) (env : section_env)
    (fs : gmap string file) : gmap string file * list event * result unit :=
  match input_item !! "log" with
  | None => (fs, [], Ret ())
  | Some _ =>
      let types := split_on (is_char ",") <$> input_item !! "types" in
      let reports := split_on (is_char ",") <$> input_item !! "reports" in
      let dst := path_join state_directory (basename input_name) in
      let call := EvApiCall "reports/list" (date_str today) reports in
      match e_reply env with
      | ApiRaise => (fs, [call], Raise "NameError")
      | ApiNull => (sweep dst (e_now env) fs, [call], Ret ())
      | ApiReports items =>
          match reports_loop types dst (e_now env) items fs with
          | (fs1, ev, Ret _) => (sweep dst (e_now env) fs1, call :: ev, Ret ())
          | (fs1, ev, Raise e) => (fs1, call :: ev, Raise e)
          end
      end
  end.

Fixpoint sections_loop (today : Z) (config : list (string * gmap string string))
    (env : string -> section_env) (fs : gmap string file)
  : gmap string file * list event * result unit :=
  match config with
  | [] => (fs, [], Ret ())
  | (input_name, input_item) :: rest =>
      match section_run today input_name input_item (env input_name) fs with
      | (fs1, ev1, Ret _) =>
          let '(fs2, ev2, res) := sections_loop today rest env fs1 in
          (fs2, ev1 ++ ev2, res)
      | (fs1, ev1, Raise e) => (fs1, ev1, Raise e)
      end
  end.

(** [ShadowserverECSLogger.run]. *)
Definition run (mode : string) (today : Z)
    (config : list (string * gmap string string))
    (env : string -> section_env) (fs : gmap string file)
  : gmap string file * list event * result unit :=
  if String.eqb mode "run" then sections_loop today config env fs
  else (fs, [], Ret ()).
(** Successive invocations (one per scheduled start), each with its own
    date and environment; a run that raises leaves the filesystem as it
    is for the next one. *)
Fixpoint runs (mode : string) (config : list (string * gmap string string))
    (schedule : list (Z * (string -> section_env))) (fs : gmap string file)
  : gmap string file * list event :=
  match schedule with
  | [] => (fs, [])
  | (today, env) :: rest =>
      let '(fs1, ev1, _) := run mode today config env fs in
      let '(fs2, ev2) := runs mode config rest fs1 in
      (fs2, ev1 ++ ev2)
  end.
End Run.

End ECS.

(** * Start-up of the loggers *)

Module Startup.
Import Logger.

(** [configparser]: the options of a section, then one of them. *)
Definition config_get (config : list (string * gmap string string))
    (section option : string) : result string :=
  match find (fun kv => String.eqb (fst kv) section) config with
  | None => Raise "NoSectionError"
  | Some (_, item) =>
      match item !! option with
      | Some v => Ret v
      | None => Raise "NoOptionError"
      end
  end.

Definition lower_char (c : ascii) : ascii :=
  let n := nat_of_ascii c in
  if (65 <=? n)%nat && (n <=? 90)%nat then ascii_of_nat (n + 32) else c.

Fixpoint lower (s : string) : string :=
  match s with
  | "" => ""
  | String c s' => String (lower_char c) (lower s')
  end.

(** [RawConfigParser._convert_to_boolean]. *)
Definition convert_to_boolean (v : string) : result bool :=
  let l := lower v in
  if bool_decide (l ∈ ["1"; "yes"; "true"; "on"]) then Ret true
  else if bool_decide (l ∈ ["0"; "no"; "false"; "off"]) then Ret false
  else Raise "ValueError".

(** What [__init__] leaves in [self]. *)
Record logger (M : Type) := Logger_ {
  l_mode : string;
  l_state_directory : string;
  l_apikey : string;
  l_secret : string;
  l_mapping : M
}.
Arguments Logger_ {M} _ _ _ _ _.
Arguments l_mode {M} _.
Arguments l_state_directory {M} _.
Arguments l_mapping {M} _.

Section Init.
(** [json.load] on the text of the mapping file. *)
Context {M : Type} (json_load : string -> option M).

Definition json_ok (text : string) : bool :=
  match json_load text with Some _ => true | None => false end.

(** [with open(map_path) as fh: self.mapping = json.load(fh)] *)
Definition load_mapping (state_directory : string) (fs : gmap string file)
  : result M :=
  match fs !! path_join state_directory map_filename with
  | None => Raise "FileNotFoundError"
  | Some f =>
      match json_load (content f) with
      | Some m => Ret m
      | None => Raise "JSONDecodeError"
      end
  end.

(** The part of [__init__] after the credentials are read: the optional
    refresh, then the load of the mapping file. *)
Definition finish (mode state_directory apikey secret auto_update : string)
    (o : fetch_outcome) (now : Z) (fs : gmap string file)
  : gmap string file * list event * result (logger M) :=
  match convert_to_boolean auto_update with
  | Raise e => (fs, [], Raise e)
  | Ret refresh =>
      let '(fs1, ev, res) :=
        if refresh then update json_ok state_directory o now fs
        else (fs, [], Ret false) in
      match res with
      | Raise e => (fs1, ev, Raise e)
      | Ret _ =>
          match load_mapping state_directory fs1 with
          | Ret m => (fs1, ev, Ret (Logger_ mode state_directory apikey secret m))
          | Raise e => (fs1, ev, Raise e)
          end
      end
  end.

(** [ShadowserverCEFLogger.__init__(args)]; [config] is what
    [config.read(args[1])] finds. *)
Definition cef_init (args : list string)
    (config : list (string * gmap string string)) (o : fetch_outcome) (now : Z)
    (fs : gmap string file)
  : gmap string file * list event * result (logger M) :=
  match args with
  | [] => (fs, [], Raise "IndexError")
  | [_] => (fs, [], Raise "ValueError")
  | _ :: _ :: rest =>
      let mode := match rest with m :: _ => m | [] => "run" end in
      match config_get config "general" "state_directory" with
      | Raise e => (fs, [], Raise e)
      | Ret state_directory =>
          match config_get config "general" "apikey" with
          | Raise e => (fs, [], Raise e)
          | Ret apikey =>
              match config_get config "general" "secret" with
              | Raise e => (fs, [], Raise e)
              | Ret secret =>
                  match config_get config "general" "auto_update" with
                  | Raise e => (fs, [], Raise e)
                  | Ret auto_update =>
                      finish mode state_directory apikey secret auto_update o now fs
                  end
              end
          end
      end
  end.

(** [ShadowserverECSLogger.__init__(args)]; [isdir] tells whether the state
    directory exists. *)
Definition ecs_init (isdir : bool) (args : list string)
    (config : list (string * gmap string string)) (o : fetch_outcome) (now : Z)
    (fs : gmap string file)
  : gmap string file * list event * result (logger M) :=
  match args with
  | [] => (fs, [], Raise "IndexError")
  | [_] => (fs, [], Raise "ValueError")
  | _ :: _ :: rest =>
      let mode := match rest with m :: _ => m | [] => "run" end in
      match config_get config "general" "state_directory" with
      | Raise e => (fs, [], Raise e)
      | Ret state_directory =>
          match config_get config "general" "apikey" with
          | Raise e => (fs, [], Raise e)
          | Ret apikey =>
              match config_get config "general" "secret" with
              | Raise e => (fs, [], Raise e)
              | Ret secret =>
                  if negb isdir then (fs, [], Raise "ValueError")
                  else
                    match config_get config "general" "auto_update" with
                    | Raise e => (fs, [], Raise e)
                    | Ret auto_update =>
                        finish mode state_directory apikey secret auto_update o now fs
                    end
              end
          end
      end
  end.
End Init.

End Startup.

(** * call-api.py and call-api-json.py *)

Module CallApi.

(** How a command ends. *)
Inductive outcome : Type :=
| Exit (msg : string)           (* [exit(msg)] *)
| Printed (text : string)       (* [print(text)], then the normal end *)
| Wrote (raw : string)          (* [os.write(1, raw)] *)
| Uncaught (exn : string).      (* an exception nothing catches *)

Definition usage : string := "Usage: call-api.py method json [pretty|binary]".
Definition no_config : string := "Exception: ~/.shadowserver.api could not be found. Exiting.".

Section Commands.
(** [json.loads], whether its result is a dictionary, and
    [json.dumps(_, indent=4)]. *)
Context {J : Type} (json_loads : string -> option J) (is_dict : J -> bool)
        (json_dumps : J -> string).

(** [api_call(method, request)]: the URLs requested, and the reply read or
    the exception.  [api] holds the options of the [api] section, when the
    file has one; [reply] is what the server answers, [None] when
    [urlopen] raises. *)
Definition api_call (api : option (gmap string string)) (method : string)
    (request : J) (reply : option string) : list string * result string :=
  match api with
  | None => ([], Raise "NoSectionError")
  | Some options =>
      match options !! "uri" with
      | None => ([], Raise "NoOptionError")
      | Some uri =>
          match options !! "key" with
          | None => ([], Raise "NoOptionError")
          | Some _ =>
              if negb (is_dict request) then ([], Raise "TypeError")
              else
                match options !! "secret" with
                | None => ([], Raise "NoOptionError")
                | Some _ =>
                    match reply with
                    | Some body => ([uri +:+ method], Ret body)
                    | None => ([uri +:+ method], Raise "URLError")
                    end
                end
          end
      end
  end.

(** The [__main__] block of [call-api.py]. *)
Definition main (argv : list string) (api : option (gmap string string))
    (reply : option string) : list string * outcome :=
  match argv with
  | _ :: method :: request :: rest =>
      match json_loads request with
      | None => ([], Exit "JSON Exception")
      | Some api_request =>
          match api with
          | None => ([], Exit no_config)
          | Some options =>
              match options !! "key" with
              | None => ([], Uncaught "NoOptionError")
              | Some _ =>
                  match api_call api method api_request reply with
                  | (sent, Raise _) => (sent, Exit "API Exception")
                  | (sent, Ret res) =>
                      match rest with
                      | [] => (sent, Printed res)
                      | option :: _ =>
                          if String.eqb option "pretty" then
                            (sent, Printed (match json_loads res with
                                            | Some j => json_dumps j
                                            | None => res
                                            end))
                          else if String.eqb option "binary" then (sent, Wrote res)
                          else (sent, Exit ("Unknown option " +:+ option))
                      end
                  end
              end
          end
      end
  | _ => ([], Exit usage)
  end.

End Commands.

End CallApi.

(** * Shapes of traces *)

(** What one pass of a logger's report loop over the directory [dst] can
    emit, given the files present when the loop starts: fetches and
    transformations go to the path of the listed report, which was absent,
    and (in the CEF logger) only for a mapped type. *)
Definition loop_event (mapped : report -> bool) (dst : string)
    (fs0 : gmap string file) (e : event) : Prop :=
  match e with
  | EvFetch r p | EvTransform r p =>
      p = path_join dst (r_file r) /\ fs0 !! p = None /\ mapped r = true
  | EvWarnNoMapping r => mapped r = false
  | EvSyslog _ | EvRecord _ | EvPrint _ => True
  | EvApiCall _ _ _ | EvMapFetch _ | EvNotify _ _ => False
  end.

(** Output that is neither a request nor a file operation. *)
Definition passive (e : event) : Prop :=
  match e with
  | EvSyslog _ | EvRecord _ | EvPrint _ => True
  | _ => False
  end.

Definition cef_mapped (mapping : gmap string (gmap string string)) (r : report)
  : bool :=
  bool_decide (is_Some (mapping !! r_type r)).

Definition ecs_mapped (r : report) : bool := true.

(** What a section of a run emits: its listing request, then the events of
    its report loop. *)
Definition section_event (mapped : report -> bool) (date dst : string)
    (fs : gmap string file) (e : event) : Prop :=
  (exists reports, e = EvApiCall "reports/list" date reports)
  \/ loop_event mapped dst fs e.

(** The file [f] is within the retention window at every expiry loop of
    every run of the schedule. *)
Definition fresh_throughout (f : file)
    (schedule : list (Z * (string -> Logger.section_env))) : Prop :=
  Forall (fun run => forall name,
            Logger.expired (Logger.e_now (run.2 name)) f = false) schedule.

(** No temporary name used for a listed report is the final name of a
    listed report (report file names do not start with a dot). *)
Definition distinct_names (directory : string) (reports : list report) : Prop :=
  forall a b, In a reports -> In b reports ->
    ReportManager.tmp_path directory a <> ReportManager.dst_path directory b.

(** The download delivers a non-empty file. *)
Definition delivers (o : fetch_outcome) : Prop :=
  exists data, o = FetchOk data /\ nonempty data = true.

(** * Example inputs *)

Module Examples.

Definition scan : report :=
  Report "2023-03-15/1001" "2023-03-15-scan_http-example.csv" "scan_http"
         "2023-03-15".

Definition blocklist : report :=
  Report "2023-03-15/1002" "2023-03-15-blocklist-example.csv" "blocklist"
         "2023-03-15".

(** The table of the specification's resolution example. *)
Definition both_entries : gmap string string :=
  list_to_map [("mytype.ip", "source.ip"); ("ip", "other.ip")].

Definition typed_entry_only : gmap string string :=
  {[ "mytype.ip" := "source.ip" ]}.

Definition directives : gmap string string :=
  list_to_map [("family", "&labels(category)"); ("tag", "&tags");
               ("naics", "&sector"); ("asn", "&lookup(asn,name)")].

(** A table that sends one column to the literal key [labels] and another
    to the [labels] directive. *)
Definition label_clash : gmap string string :=
  list_to_map [("note", "labels"); ("family", "&labels(category)")].

(** The dictionary of a line: the columns paired with the cells, [None]
    for the columns the line does not reach, the surplus cells under the
    key [None]. *)
Fixpoint dict_row (header cells : list string) : row :=
  match header, cells with
  | [], [] => []
  | [], _ => [Rest cells]
  | h :: hs, [] => Column h None :: dict_row hs []
  | h :: hs, c :: cs => Column h (Some c) :: dict_row hs cs
  end.

(** [csv.DictReader] on text without quoting or carriage returns: the
    first line names the columns, every later non-empty line is a row, and
    the reading does not fail. *)
Definition plain_csv (text : string) : list row * option string :=
  match split_on (is_char "010") text with
  | [] => ([], None)
  | header :: lines =>
      let names := if nonempty header then split_on (is_char ",") header else [] in
      (map (fun l => dict_row names (split_on (is_char ",") l))
           (List.filter nonempty lines), None)
  end.

(** The ten digits of ASCII, which [\d] matches in every version. *)
Definition ascii_digit (s : string) : bool :=
  match s with
  | String c "" => (48 <=? nat_of_ascii c)%nat && (nat_of_ascii c <=? 57)%nat
  | _ => false
  end.

(** The keys that [logging] refuses in [extra] (CPython 3.12). *)
Definition record_attributes : list string :=
  ["message"; "asctime"; "name"; "msg"; "args"; "levelname"; "levelno";
   "pathname"; "filename"; "module"; "exc_info"; "exc_text"; "stack_info";
   "lineno"; "funcName"; "created"; "msecs"; "relativeCreated"; "thread";
   "threadName"; "processName"; "process"; "taskName"].

Definition reserved (key : string) : bool :=
  bool_decide (key ∈ record_attributes).

Definition nl : string := String "010" "".

Definition two_rows : string :=
  "ip,tag" +:+ nl +:+ "192.0.2.7,a" +:+ nl +:+ "192.0.2.8,b" +:+ nl.

(** 2023-03-15, and noon of that day in seconds. *)
Definition today : Z := Dates.ymd2ord 2023 3 15.
Definition noon : Z := 1678881600.

Definition feed : list (string * gmap string string) :=
  [("DEFAULT", ∅); ("general", {[ "state_directory" := "/state" ]});
   ("feed", list_to_map [("log", "/var/log/feed.json"); ("facility", "user")])].

Definition feed_path (r : report) : string :=
  path_join (path_join "/state" "feed") (r_file r).

(** The listing holds one report, whose download behaves as [o]. *)
Definition serves (r : report) (o : fetch_outcome) (now : Z)
  : string -> Logger.section_env :=
  fun _ => Logger.SectionEnv (Logger.ApiReports [(r, o)]) now.

Definition nothing_listed (now : Z) : string -> Logger.section_env :=
  fun _ => Logger.SectionEnv Logger.ApiNull now.

(** A CEF table that knows [scan_http] only. *)
Definition cef_table_scan : gmap string string :=
  list_to_map [("ip", "src"); ("tag", "cs1")].

Definition cef_table : gmap string (gmap string string) :=
  {[ "scan_http" := cef_table_scan ]}.

(** Two later runs, one and two days on, in which the report is listed
    again and the server would deliver it in full. *)
Definition retries : list (Z * (string -> Logger.section_env)) :=
  [((today + 1)%Z, serves scan (FetchOk two_rows) (noon + 86400)%Z);
   ((today + 2)%Z, serves scan (FetchOk two_rows) (noon + 2 * 86400)%Z)].

(** A report manager with the default settings. *)
Definition manager : ReportManager.config :=
  ReportManager.Config "/var/tmp/reports" None false.

Definition MiB : Z := (1024 * 1024)%Z.

Definition day : string := "2023-03-14".

Definition day_dir : string := ReportManager.directory_of manager day.

Definition fresh_start : ReportManager.state := ReportManager.State ∅ 0.

(** Room for the first report, none for the second. *)
Definition disk_fills : list ReportManager.step :=
  [ReportManager.Step scan (600 * MiB)%Z (FetchOk two_rows);
   ReportManager.Step blocklist (100 * MiB)%Z (FetchOk two_rows)].

Definition full_disk : list ReportManager.step :=
  [ReportManager.Step scan (100 * MiB)%Z (FetchOk two_rows);
   ReportManager.Step blocklist (100 * MiB)%Z (FetchOk two_rows)].

Definition server_down : list ReportManager.step :=
  [ReportManager.Step scan (600 * MiB)%Z FetchFailEarly].

Definition server_empty : list ReportManager.step :=
  [ReportManager.Step scan (600 * MiB)%Z (FetchOk "")].

Definition server_up : list ReportManager.step :=
  [ReportManager.Step scan (600 * MiB)%Z (FetchOk two_rows)].

(** Two reports of which the first is named as the temporary file of the
    second. *)
Definition dotted : report :=
  Report "2023-03-15/1003" ".a.csv" "scan_http" "2023-03-15".

Definition undotted : report :=
  Report "2023-03-15/1004" "a.csv" "scan_http" "2023-03-15".

Definition clashing_names : list ReportManager.step :=
  [ReportManager.Step dotted (600 * MiB)%Z (FetchOk two_rows);
   ReportManager.Step undotted (600 * MiB)%Z (FetchOk two_rows)].

End Examples.

(** * Further shapes and inputs *)

(** A registered function reached through the call form that does not fit
    its parameters: [set_timestamp] and [set_tags] take three arguments,
    [set_labels] four. *)
Definition wrong_form (mapped : string) (f : ECS.func) : bool :=
  match ECS.match_call mapped, f with
  | Some _, ECS.FLabels => false
  | Some _, _ => true
  | None, ECS.FLabels => true
  | None, _ => false
  end.

(** What calling the registered function [f] for the target [mapped]
    raises, if anything: a call form that does not fit the function, or a
    value [None] that [set_timestamp] or [set_tags] cannot handle. *)
Definition misuse (mapped : string) (f : ECS.func) (value : option string)
  : option string :=
  if wrong_form mapped f then Some "TypeError"
  else match f, value with
       | ECS.FTimestamp, None => Some "AttributeError"
       | ECS.FTags, None => Some "TypeError"
       | _, _ => None
       end.

(** A column whose cell is the empty string. *)
Definition blank (e : entry) : bool :=
  match e with
  | Column _ value => negb (not_blank value)
  | Rest _ => false
  end.

Definition result_map {A B : Type} (f : A -> B) (r : result A) : result B :=
  match r with
  | Ret a => Ret (f a)
  | Raise e => Raise e
  end.

(** The dates of the listing requests of a trace, in order. *)
Fixpoint api_dates (ev : list event) : list string :=
  match ev with
  | [] => []
  | EvApiCall _ date _ :: rest => date :: api_dates rest
  | _ :: rest => api_dates rest
  end.

Definition is_notify (e : event) : bool :=
  match e with EvNotify _ _ => true | _ => false end.

(** The report an event is about is listed and passes the type filter. *)
Definition allowed (types : option (list string))
    (items : list (report * fetch_outcome)) (e : event) : Prop :=
  match e with
  | EvFetch r _ | EvTransform r _ | EvWarnNoMapping r =>
      In r (map fst items) /\ Logger.filtered_out types r = false
  | _ => True
  end.

(** An event of an input section of [config] (a section with the option
    [key]) that found the file [f] at [p] when it started. *)
Definition from_section (key : string) (mapped : report -> bool)
    (date state_directory : string) (config : list (string * gmap string string))
    (p : string) (f : file) (e : event) : Prop :=
  exists name item fs,
    In (name, item) config /\ is_Some (item !! key) /\ fs !! p = Some f
    /\ section_event mapped date (path_join state_directory (basename name)) fs e.

(** Every input section of the configuration (every section with the
    option [key]) keeps its checkpoint files in the directory [dst]. *)
Definition single_directory (key state_directory dst : string)
    (config : list (string * gmap string string)) : Prop :=
  forall name item, In (name, item) config -> is_Some (item !! key) ->
    path_join state_directory (basename name) = dst.

(** A section that a logger handles: it has the option [key]. *)
Definition has_option (key : string) (section : string * gmap string string)
  : bool :=
  bool_decide (is_Some (section.2 !! key)).

Module MoreExamples.

Definition csv_without_timestamp : string :=
  "ip,severity" +:+ Examples.nl +:+ "192.0.2.7,high" +:+ Examples.nl.

(** A table whose [tag] entry calls [tags] with an argument list. *)
Definition tags_with_arguments : gmap string string :=
  list_to_map [("tag", "&tags(x)"); ("ip", "source.ip")].

Definition general (auto_update : string) : list (string * gmap string string) :=
  [("general", list_to_map [("state_directory", "/state"); ("apikey", "k");
                            ("secret", "s"); ("auto_update", auto_update)]);
   ("feed", list_to_map [("log", "/var/log/feed.json"); ("facility", "user")])].

(** A parser that accepts exactly the text ["{}"]. *)
Definition only_empty_object (text : string) : option unit :=
  if String.eqb text "{}" then Some tt else None.



Definition api_section : gmap string string :=
  list_to_map [("uri", "https://transform.shadowserver.org/api2/");
               ("key", "k"); ("secret", "s")].

End MoreExamples.

(** * Properties *)

(** ** The model on concrete inputs *)

Example isoformat_day : Dates.isoformat (Dates.ymd2ord 2023 3 15) = "2023-03-15".
Proof. vm_compute. reflexivity. Qed.

Example isoformat_leap_day : Dates.isoformat (Dates.ymd2ord 2024 2 29 + 1) = "2024-03-01".
Proof. vm_compute. reflexivity. Qed.

Example isoformat_new_year : Dates.isoformat (Dates.ymd2ord 2023 12 31 + 1) = "2024-01-01".
Proof. vm_compute. reflexivity. Qed.

Example isoformat_two_days_back : Dates.isoformat (Dates.ymd2ord 2023 1 1 - 2) = "2022-12-30".
Proof. vm_compute. reflexivity. Qed.

Example path_join_plain : path_join "/var/state" "x.csv" = "/var/state/x.csv".
Proof. reflexivity. Qed.

Example path_join_slash : path_join "/var/state/" "x.csv" = "/var/state/x.csv".
Proof. reflexivity. Qed.

Example path_join_absolute : path_join "/var/state" "/x.csv" = "/x.csv".
Proof. reflexivity. Qed.

Example basename_nested : basename "a/b/c" = "c".
Proof. reflexivity. Qed.

Example split_keeps_empty_pieces : split_on (is_char ",") ",a,," = [""; "a"; ""; ""].
Proof. reflexivity. Qed.

Example in_dir_entry : in_dir "/s/in" "/s/in/x.csv" = true.
Proof. reflexivity. Qed.

Example in_dir_deeper : in_dir "/s/in" "/s/in/d/x.csv" = false.
Proof. reflexivity. Qed.

Example match_call_labels : ECS.match_call "&labels(category)" = Some ("labels", "category").
Proof. reflexivity. Qed.

Example match_call_unclosed : ECS.match_call "&labels(category" = None.
Proof. reflexivity. Qed.

Example match_bare_tags : ECS.match_bare "&tags" = Some "tags".
Proof. reflexivity. Qed.

Example match_bare_ampersand : ECS.match_bare "&" = None.
Proof. reflexivity. Qed.

Example plain_csv_rows :
  Examples.plain_csv Examples.two_rows
  = ([[Column "ip" (Some "192.0.2.7"); Column "tag" (Some "a")];
      [Column "ip" (Some "192.0.2.8"); Column "tag" (Some "b")]], None).
Proof. reflexivity. Qed.

Example plain_csv_ragged :
  Examples.plain_csv ("a,b" +:+ Examples.nl +:+ "1" +:+ Examples.nl +:+ "1,2,3,4")
  = ([[Column "a" (Some "1"); Column "b" None];
      [Column "a" (Some "1"); Column "b" (Some "2"); Rest ["3"; "4"]]], None).
Proof. reflexivity. Qed.

Example cef_line :
  CEF.row_line Examples.ascii_digit
    (list_to_map [("ip", "src"); ("tag", "cs1"); ("n", "cn12")]) "100" "scan_http"
    [Column "timestamp" (Some "2023-03-15 00:00:01"); Column "ip" (Some "192.0.2.7");
     Column "tag" (Some "x"); Column "n" (Some "5"); Column "severity" (Some "high")]
  = Ret "CEF:0|Shadowserver|Reports|1.0|100|scan_http|8|start=2023-03-15T00:00:01 src=192.0.2.7 cs1=x cs1Label:tag cn12=5".
Proof. vm_compute. reflexivity. Qed.

Example cef_line_short :
  CEF.row_line Examples.ascii_digit (list_to_map [("ip", "src"); ("tag", "cs1")])
    "100" "scan_http"
    [Column "timestamp" (Some "2023-03-15 00:00:01"); Column "ip" (Some "192.0.2.7");
     Column "tag" None; Rest ["x"]]
  = Ret "CEF:0|Shadowserver|Reports|1.0|100|scan_http|0|start=2023-03-15T00:00:01 src=192.0.2.7 cs1=None cs1Label:tag".
Proof. vm_compute. reflexivity. Qed.

Example reserved_key_is_refused :
  ECS.rows_loop Examples.reserved {[ "ip" := "message" ]} "scan_http"
    (Examples.plain_csv Examples.two_rows).1 None
  = ([], Raise "KeyError").
Proof. vm_compute. reflexivity. Qed.

Example surplus_cell_stops_the_row :
  ECS.rows_loop Examples.reserved ∅ "scan_http"
    (Examples.plain_csv ("ip" +:+ Examples.nl +:+ "192.0.2.7,x")).1 None
  = ([], Raise "TypeError").
Proof. vm_compute. reflexivity. Qed.

Example short_line_gives_none :
  ECS.row_event ∅ "scan_http" [Column "ip" (Some "192.0.2.7"); Column "tag" None]
  = Ret (<["data_stream.dataset" := VStr "scan_http"]>
           (<["extra.tag" := VNone]> (<["extra.ip" := VStr "192.0.2.7"]> ∅))).
Proof. vm_compute. reflexivity. Qed.

Example manager_two_days :
  (ReportManager.run Examples.manager 2 Examples.today Examples.noon
     (fun _ => ReportManager.Reports Examples.server_up) Examples.fresh_start).1.2
  = [EvApiCall "reports/list" "2023-03-13" None;
     EvFetch Examples.scan
       "/var/tmp/reports/2023/03/13/.2023-03-15-scan_http-example.csv";
     EvApiCall "reports/list" "2023-03-14" None;
     EvFetch Examples.scan
       "/var/tmp/reports/2023/03/14/.2023-03-15-scan_http-example.csv";
     EvSyslog "Completed"].
Proof. vm_compute. reflexivity. Qed.

(** ** Strings *)

Lemma split_on_length (p : ascii -> bool) (s : string) :
  length (split_on p s) = S (count_char p s).
Proof.
  induction s as [|c s IH]; simpl; [reflexivity|].
  destruct (p c); simpl; [now rewrite IH|].
  destruct (split_on p s) as [|w ws] eqn:E; simpl in *; lia.
Qed.

Lemma split_on_pieces (p : ascii -> bool) (s : string) :
  Forall (fun piece => count_char p piece = 0) (split_on p s).
Proof.
  induction s as [|c s IH]; simpl.
  - repeat constructor.
  - destruct (p c) eqn:Hc.
    + constructor; [reflexivity|exact IH].
    + destruct (split_on p s) as [|w ws]; [repeat constructor; simpl; now rewrite Hc|].
      inversion IH; subst. constructor; [simpl; now rewrite Hc|assumption].
Qed.

(** ** The event transformer of the ECS logger *)

Section Transformer.
Context (mapping : gmap string string).

Lemma resolve_eq (rtype field : string) :
  ECS.resolve mapping rtype field =
    match mapping !! field with
    | Some target => target
    | None => default ("extra." +:+ field) (mapping !! (rtype +:+ "." +:+ field))
    end.
Proof.
  unfold ECS.resolve. destruct (mapping !! field); [reflexivity|].
  destruct (mapping !! (rtype +:+ "." +:+ field)); reflexivity.
Qed.

Lemma field_step_plain rtype event field value :
  not_blank value = true ->
  ECS.directive_name (ECS.resolve mapping rtype field) = None ->
  ECS.field_step mapping rtype event (Column field value)
  = Ret (<[ECS.resolve mapping rtype field := of_cell value]> event).
Proof.
  intros Hv Hd. unfold ECS.field_step. rewrite Hv.
  unfold ECS.directive_name in Hd.
  destruct (ECS.match_call _) as [[f a]|]; [discriminate|].
  now rewrite Hd.
Qed.

Lemma field_step_unknown rtype event field value name :
  not_blank value = true ->
  ECS.directive_name (ECS.resolve mapping rtype field) = Some name ->
  ECS.functions !! name = None ->
  ECS.field_step mapping rtype event (Column field value) = Ret event.
Proof.
  intros Hv Hd Hf. unfold ECS.field_step. rewrite Hv.
  unfold ECS.directive_name in Hd.
  destruct (ECS.match_call _) as [[f a]|].
  - injection Hd as ->. now rewrite Hf.
  - rewrite Hd. now rewrite Hf.
Qed.
End Transformer.

(** C2, as amended.  For a field with a value other than the empty string
    the target is the bare [field] entry of the table when there is one,
    otherwise the [type.field] entry when there is one, otherwise
    [extra.<field>]; a target that is not a directive receives the value as
    a literal key. *)
Theorem C2_bare_entry_overrides_typed_entry
    (mapping : gmap string string) (rtype field : string) (value : option string)
    (event : gmap string val) :
  not_blank value = true ->
  ECS.resolve mapping rtype field =
    match mapping !! field with
    | Some target => target
    | None => default ("extra." +:+ field) (mapping !! (rtype +:+ "." +:+ field))
    end
  /\ (ECS.directive_name (ECS.resolve mapping rtype field) = None ->
      ECS.field_step mapping rtype event (Column field value)
      = Ret (<[ECS.resolve mapping rtype field := of_cell value]> event)).
Proof.
  intros Hv. split; [apply resolve_eq|]. intros Hd. now apply field_step_plain.
Qed.

Lemma C2_witness :
  not_blank (Some "192.0.2.1") = true
  /\ ECS.resolve Examples.typed_entry_only "mytype" "ip" = "source.ip"
  /\ ECS.resolve Examples.typed_entry_only "other" "ip" = "extra.ip"
  /\ ECS.field_step Examples.both_entries "other" ∅ (Column "ip" (Some "192.0.2.1"))
     = Ret (<["other.ip" := VStr "192.0.2.1"]> ∅).
Proof.
  split; [reflexivity|].
  split; [exact (proj1 (C2_bare_entry_overrides_typed_entry
                          Examples.typed_entry_only "mytype" "ip" (Some "192.0.2.1") ∅
                          eq_refl))|].
  split; [exact (proj1 (C2_bare_entry_overrides_typed_entry
                          Examples.typed_entry_only "other" "ip" (Some "192.0.2.1") ∅
                          eq_refl))|].
  exact (proj2 (C2_bare_entry_overrides_typed_entry
                  Examples.both_entries "other" "ip" (Some "192.0.2.1") ∅ eq_refl)
               eq_refl).
Defined.

(** C2 as stated fails: with both a [mytype.ip] and an [ip] entry, a row of
    type [mytype] is sent to the target of the [ip] entry, not to the
    target of [mytype.ip]. *)
Lemma C2_counterexample :
  Examples.both_entries !! "mytype.ip" = Some "source.ip"
  /\ Examples.both_entries !! "ip" = Some "other.ip"
  /\ ECS.resolve Examples.both_entries "mytype" "ip" = "other.ip"
  /\ ECS.row_event Examples.both_entries "mytype" [Column "ip" (Some "192.0.2.1")]
     = Ret (<["data_stream.dataset" := VStr "mytype"]>
              (<["other.ip" := VStr "192.0.2.1"]> ∅))
  /\ ECS.resolve Examples.both_entries "mytype" "ip" <> "source.ip".
Proof. repeat split; try reflexivity. discriminate. Qed.

(** C6, as amended.  A target with directive syntax whose function name is
    not in the registry makes the transformer drop the field: the event is
    left as it was, no literal key is written, and nothing is raised. *)
Theorem C6_unknown_directive_drops_field
    (mapping : gmap string string) (rtype field : string) (value : option string)
    (name : string) (event : gmap string val) :
  not_blank value = true ->
  ECS.directive_name (ECS.resolve mapping rtype field) = Some name ->
  ECS.functions !! name = None ->
  ECS.field_step mapping rtype event (Column field value) = Ret event.
Proof. apply field_step_unknown. Qed.

Lemma C6_witness :
  ECS.field_step Examples.directives "scan_http" ∅ (Column "naics" (Some "541512"))
  = Ret ∅
  /\ ECS.field_step Examples.directives "scan_http" ∅ (Column "asn" (Some "64496"))
     = Ret ∅.
Proof.
  split.
  - apply (C6_unknown_directive_drops_field Examples.directives "scan_http"
             "naics" (Some "541512") "sector" ∅); reflexivity.
  - apply (C6_unknown_directive_drops_field Examples.directives "scan_http"
             "asn" (Some "64496") "lookup" ∅); reflexivity.
Defined.

(** C6 as stated fails: the value mapped to the unregistered [&sector] is
    not emitted under a literal key [&sector]; the logged event holds the
    dataset tag only. *)
Lemma C6_counterexample :
  ECS.directive_name "&sector" = Some "sector"
  /\ ECS.functions !! "sector" = None
  /\ ECS.row_event Examples.directives "scan_http" [Column "naics" (Some "541512")]
     = Ret (<["data_stream.dataset" := VStr "scan_http"]> ∅)
  /\ (<["data_stream.dataset" := VStr "scan_http"]> ∅ : gmap string val)
       !! "&sector" = None.
Proof. repeat split; reflexivity. Qed.

Lemma set_labels_fresh (event : gmap string val) (field : string)
    (value : option string) (key : string) (rest : list string) :
  event !! "labels" = None ->
  ECS.set_labels event field value (key :: rest)
  = <["labels" := VDict {[key := value]}]> event.
Proof.
  intros H. unfold ECS.set_labels.
  rewrite bool_decide_eq_false_2 by (rewrite H; intros [? ?]; discriminate).
  rewrite lookup_insert_eq, insert_insert_eq. reflexivity.
Qed.

Lemma set_labels_more (event : gmap string val) (field : string)
    (value : option string) (key : string) (rest : list string)
    (d : gmap string (option string)) :
  event !! "labels" = Some (VDict d) ->
  ECS.set_labels event field value (key :: rest)
  = <["labels" := VDict (<[key := value]> d)]> event.
Proof.
  intros H. unfold ECS.set_labels.
  rewrite bool_decide_eq_true_2 by (rewrite H; eauto).
  now rewrite H.
Qed.

(** An entry under [labels] that is no dictionary stays as it is. *)
Lemma set_labels_other (event : gmap string val) (field : string)
    (value : option string) (args : list string) (v : val) :
  event !! "labels" = Some v -> (forall d, v <> VDict d) ->
  ECS.set_labels event field value args = event.
Proof.
  intros H Hv. unfold ECS.set_labels.
  rewrite bool_decide_eq_true_2 by (rewrite H; eauto).
  destruct args as [|key rest]; [reflexivity|]. rewrite H.
  destruct v as [s|l|d| ]; try reflexivity. now contradiction (Hv d).
Qed.

Lemma field_step_labels (mapping : gmap string string) (rtype field : string)
    (value : option string) (event : gmap string val) :
  not_blank value = true ->
  ECS.resolve mapping rtype field = "&labels(category)" ->
  ECS.field_step mapping rtype event (Column field value)
  = Ret (ECS.set_labels event field value ["category"]).
Proof. intros Hv H. unfold ECS.field_step. rewrite Hv, H. reflexivity. Qed.

(** C7, as amended.  A field with a non-empty value whose target is
    [&labels(category)] changes the event at the key [labels] only: with
    no [labels] entry yet it stores a dictionary holding [category] with
    the value, with a dictionary there it adds that entry to it, and with
    anything else there (an earlier field of the row written to the literal
    key [labels]) it changes nothing and raises nothing.  A field whose
    target is [&tags] sets the key [tags] to the pieces of the value
    between commas and semicolons, in order, so that the value [a,b;c]
    gives the list [a], [b], [c]. *)
Theorem C7_labels_and_tags_directives
    (mapping : gmap string string) (rtype field value : string)
    (event : gmap string val) :
  nonempty value = true ->
  (ECS.resolve mapping rtype field = "&labels(category)" ->
   (event !! "labels" = None ->
    ECS.field_step mapping rtype event (Column field (Some value))
    = Ret (<["labels" := VDict {["category" := Some value]}]> event))
   /\ (forall d, event !! "labels" = Some (VDict d) ->
       ECS.field_step mapping rtype event (Column field (Some value))
       = Ret (<["labels" := VDict (<["category" := Some value]> d)]> event))
   /\ (forall v, event !! "labels" = Some v -> (forall d, v <> VDict d) ->
       ECS.field_step mapping rtype event (Column field (Some value)) = Ret event)
   /\ (exists event',
         ECS.field_step mapping rtype event (Column field (Some value)) = Ret event'
         /\ forall k, k <> "labels" -> event' !! k = event !! k))
  /\ (ECS.resolve mapping rtype field = "&tags" ->
      ECS.field_step mapping rtype event (Column field (Some value))
      = Ret (<["tags" := VList (split_on ECS.is_tag_separator value)]> event))
  /\ split_on ECS.is_tag_separator "a,b;c" = ["a"; "b"; "c"]
  /\ length (split_on ECS.is_tag_separator value)
     = S (count_char ECS.is_tag_separator value)
  /\ Forall (fun piece => count_char ECS.is_tag_separator piece = 0)
            (split_on ECS.is_tag_separator value).
Proof.
  intros Hv.
  assert (Hnb : not_blank (Some value) = true) by exact Hv.
  split; [|split; [|split; [reflexivity|split; [apply split_on_length
                                               |apply split_on_pieces]]]].
  - intros H. rewrite (field_step_labels _ _ _ _ _ Hnb H).
    split; [|split; [|split]].
    + intros Hnone. now rewrite set_labels_fresh.
    + intros d Hd. now rewrite (set_labels_more _ _ _ _ _ d).
    + intros v Hsome Hother. now rewrite (set_labels_other _ _ _ _ v).
    + eexists. split; [reflexivity|]. intros k Hk.
      destruct (event !! "labels") as [v|] eqn:E.
      * destruct v as [s|l|d| ].
        -- now rewrite (set_labels_other _ _ _ _ (VStr s)).
        -- now rewrite (set_labels_other _ _ _ _ (VList l)).
        -- rewrite (set_labels_more _ _ _ _ _ d E).
           now rewrite lookup_insert_ne by congruence.
        -- now rewrite (set_labels_other _ _ _ _ VNone).
      * rewrite (set_labels_fresh _ _ _ _ _ E).
        now rewrite lookup_insert_ne by congruence.
  - intros H. unfold ECS.field_step. simpl. rewrite Hv, H. reflexivity.
Qed.

Lemma C7_witness :
  ECS.field_step Examples.directives "scan_http" ∅ (Column "family" (Some "malware"))
  = Ret (<["labels" := VDict {["category" := Some "malware"]}]> ∅)
  /\ ECS.field_step Examples.directives "scan_http" ∅ (Column "tag" (Some "a,b;c"))
     = Ret (<["tags" := VList ["a"; "b"; "c"]]> ∅).
Proof.
  split.
  - exact (proj1 (proj1 (C7_labels_and_tags_directives Examples.directives
                           "scan_http" "family" "malware" ∅ eq_refl) eq_refl)
                 eq_refl).
  - exact (proj1 (proj2 (C7_labels_and_tags_directives Examples.directives
                           "scan_http" "tag" "a,b;c" ∅ eq_refl)) eq_refl).
Defined.

(** C7 as stated fails: when an earlier column of the row is mapped to the
    literal key [labels], the event holds a string there, and the field
    whose target is [&labels(category)] adds no [labels.category]: the
    event stays as it was. *)
Lemma C7_counterexample :
  ECS.resolve Examples.label_clash "scan_http" "family" = "&labels(category)"
  /\ ECS.field_step Examples.label_clash "scan_http" ∅ (Column "note" (Some "seen"))
     = Ret (<["labels" := VStr "seen"]> ∅)
  /\ ECS.field_step Examples.label_clash "scan_http" (<["labels" := VStr "seen"]> ∅)
       (Column "family" (Some "malware"))
     = Ret (<["labels" := VStr "seen"]> ∅)
  /\ ECS.row_event Examples.label_clash "scan_http"
       [Column "note" (Some "seen"); Column "family" (Some "malware")]
     = Ret (<["data_stream.dataset" := VStr "scan_http"]>
              (<["labels" := VStr "seen"]> ∅)).
Proof. repeat split; vm_compute; reflexivity. Qed.

(** ** Paths and files *)

Lemma length_append (a b : string) :
  String.length (a +:+ b) = String.length a + String.length b.
Proof. induction a as [|c a IH]; simpl; [reflexivity|now rewrite IH]. Qed.

(** The dot-prefixed sibling of a name is a different path. *)
Lemma path_join_dot_ne (dir name : string) :
  path_join dir ("." +:+ name) <> path_join dir name.
Proof.
  intros H. apply (f_equal String.length) in H. revert H.
  unfold path_join. simpl.
  destruct (starts_with_char "/" name);
    destruct (negb (nonempty dir) || ends_with_char "/" dir);
    rewrite ?length_append; simpl; rewrite ?length_append; simpl; lia.
Qed.

Lemma exists_true (fs : gmap string file) (p : string) :
  exists_ fs p = true <-> is_Some (fs !! p).
Proof. unfold exists_. apply bool_decide_eq_true. Qed.

Lemma exists_false (fs : gmap string file) (p : string) :
  exists_ fs p = false <-> fs !! p = None.
Proof.
  unfold exists_. rewrite bool_decide_eq_false.
  rewrite <- eq_None_not_Some. reflexivity.
Qed.

Lemma size_positive (data : string) :
  (0 <? String.length data)%nat = nonempty data.
Proof. destruct data; reflexivity. Qed.

Lemma getsize_write (p data : string) (now : Z) (fs : gmap string file) :
  getsize (write p data now fs) p = Some (String.length data).
Proof. unfold getsize, write. now rewrite lookup_insert_eq. Qed.

(** ** Mapping refresh *)

(** C8.  [update] makes one fetch, to the dot-prefixed sibling of the
    mapping file, a different path: the fetch leaves the mapping file as it
    was.  It reports success exactly when the fetch returned a non-empty
    document that parses, and then the result is the rename of the fetched
    file over the mapping file; in every other case (the fetch raised, the
    document is empty, or it does not parse) the result is the removal of
    the temporary file, with the mapping file what it was.  In all cases
    the temporary file is gone afterwards and no other file has changed. *)
Theorem C8_mapping_refresh_is_atomic
    (json_ok : string -> bool) (state_directory : string) (o : fetch_outcome)
    (now : Z) (fs : gmap string file) :
  let map_tmp := path_join state_directory ("." +:+ Logger.map_filename) in
  let map_path := path_join state_directory Logger.map_filename in
  let accepted :=
    match o with
    | FetchOk data => nonempty data && json_ok data
    | _ => false
    end in
  let fetched := (urlretrieve o map_tmp now fs).1 in
  let '(fs', ev, status) := Logger.update json_ok state_directory o now fs in
  map_tmp <> map_path
  /\ (exists rest, ev = EvMapFetch map_tmp :: rest /\ Forall passive rest)
  /\ fetched !! map_path = fs !! map_path
  /\ status = Ret accepted
  /\ (accepted = true -> rename map_tmp map_path fetched = Some fs')
  /\ (accepted = false -> fs' = delete map_tmp fetched)
  /\ fs' !! map_tmp = None
  /\ fs' !! map_path =
       match o with
       | FetchOk data => if accepted then Some (File data now) else fs !! map_path
       | _ => fs !! map_path
       end
  /\ (forall p, p <> map_tmp -> p <> map_path -> fs' !! p = fs !! p).
Proof.
  intros map_tmp map_path accepted fetched.
  assert (Hne : map_tmp <> map_path) by apply path_join_dot_ne.
  assert (Hgone : forall g : gmap string file,
            (if exists_ g map_tmp then delete map_tmp g else g) = delete map_tmp g).
  { intros g. destruct (exists_ g map_tmp) eqn:E; [reflexivity|].
    apply exists_false in E. symmetry. now apply delete_id. }
  assert (Hrefused : forall (g : gmap string file) ev0,
            g !! map_path = fs !! map_path ->
            (forall p, p <> map_tmp -> g !! p = fs !! p) ->
            Forall passive ev0 ->
            map_tmp <> map_path
            /\ (exists rest, EvMapFetch map_tmp :: ev0 = EvMapFetch map_tmp :: rest
                             /\ Forall passive rest)
            /\ g !! map_path = fs !! map_path
            /\ Ret false = Ret false
            /\ (false = true -> rename map_tmp map_path g = Some (delete map_tmp g))
            /\ (false = false -> delete map_tmp g = delete map_tmp g)
            /\ delete map_tmp g !! map_tmp = None
            /\ delete map_tmp g !! map_path = fs !! map_path
            /\ (forall p, p <> map_tmp -> p <> map_path ->
                delete map_tmp g !! p = fs !! p)).
  { intros g ev0 Hpath Hother Hev.
    split; [exact Hne|]. split; [eauto|]. split; [exact Hpath|].
    split; [reflexivity|]. split; [discriminate|]. split; [reflexivity|].
    split; [apply lookup_delete_eq|].
    split; [now rewrite lookup_delete_ne by exact Hne|].
    intros p Hp _. rewrite lookup_delete_ne by congruence. now apply Hother. }
  assert (Hwrite : forall text (p : string), p <> map_tmp ->
            write map_tmp text now fs !! p = fs !! p).
  { intros text p Hp. unfold write. now rewrite lookup_insert_ne by congruence. }
  unfold Logger.update. fold map_tmp. fold map_path.
  destruct o as [|partial|data]; simpl in *.
  - rewrite Hgone. apply (Hrefused fs [Logger.failed]); auto.
    repeat constructor.
  - rewrite Hgone. subst fetched.
    apply (Hrefused (write map_tmp partial now fs) [Logger.failed]); auto.
    repeat constructor.
  - rewrite getsize_write, size_positive. subst accepted fetched.
    destruct (nonempty data) eqn:Hd; simpl.
    + unfold write at 1. rewrite lookup_insert_eq. simpl.
      destruct (json_ok data) eqn:Hj.
      * unfold rename, write. rewrite lookup_insert_eq.
        split; [exact Hne|].
        split; [eexists; split; [reflexivity|repeat constructor]|].
        split; [now rewrite lookup_insert_ne by exact Hne|].
        split; [reflexivity|]. split; [reflexivity|]. split; [discriminate|].
        split; [now rewrite lookup_insert_ne, lookup_delete_eq by auto|].
        split; [apply lookup_insert_eq|].
        intros p Hp Hp'. rewrite lookup_insert_ne by congruence.
        now rewrite lookup_delete_ne, lookup_insert_ne by congruence.
      * rewrite Hgone.
        apply (Hrefused (write map_tmp data now fs) [Logger.failed]); auto.
        repeat constructor.
    + rewrite Hgone. apply (Hrefused (write map_tmp data now fs) []); auto.
Qed.

(** ** The report loop of the loggers *)

Lemma loop_event_earlier (mapped : report -> bool) (dst : string)
    (fs fs1 : gmap string file) (e : event) :
  (forall q, is_Some (fs !! q) -> fs1 !! q = fs !! q) ->
  loop_event mapped dst fs1 e -> loop_event mapped dst fs e.
Proof.
  intros Hkeep. destruct e; simpl; auto; intros (-> & Hnone & Hm);
    (repeat split; auto);
    destruct (fs !! path_join dst (r_file r)) eqn:E; auto;
    rewrite Hkeep in Hnone by (rewrite E; eauto); congruence.
Qed.

Lemma passive_loop_event (mapped : report -> bool) (dst : string)
    (fs : gmap string file) (e : event) :
  passive e -> loop_event mapped dst fs e.
Proof. destruct e; simpl; tauto. Qed.

Ltac each_event :=
  repeat first
    [ apply List.Forall_nil
    | apply List.Forall_cons; [first [left; reflexivity | right; exact I]|] ].

Lemma download_spec (r : report) (path : string) (o : fetch_outcome) (now : Z)
    (fs : gmap string file) :
  let '(fs1, ev, res) := Logger._download r path o now fs in
  Forall (fun e => e = EvFetch r path \/ passive e) ev
  /\ (forall q, q <> path -> fs1 !! q = fs !! q)
  /\ (res = Ret true -> is_Some (fs1 !! path)).
Proof.
  unfold Logger._download, Logger.failed.
  destruct o as [|partial|data]; simpl.
  - unfold unlink. destruct (exists_ fs path); simpl;
      (split; [each_event|]);
      (split; [intros q Hq; now rewrite ?lookup_delete_ne by congruence|]);
      discriminate.
  - unfold unlink.
    rewrite (proj2 (exists_true _ _)) by (unfold write; rewrite lookup_insert_eq; eauto).
    split; [each_event|].
    split; [|discriminate].
    intros q Hq. unfold write.
    now rewrite lookup_delete_ne, lookup_insert_ne by congruence.
  - rewrite getsize_write.
    split; [each_event|].
    split; [intros q Hq; unfold write; now rewrite lookup_insert_ne by congruence|].
    intros _. unfold write. rewrite lookup_insert_eq. eauto.
Qed.

Lemma cef_rows_passive digit (m : gmap string string) (device_id rtype : string)
    (rows : list row) (stop : option string) :
  Forall passive (CEF.rows_loop digit m device_id rtype rows stop).1.
Proof.
  induction rows as [|r rows IH]; simpl; [constructor|].
  destruct (CEF.row_line digit m device_id rtype r); simpl; [|constructor].
  destruct (CEF.rows_loop digit m device_id rtype rows stop) as [ev res]; simpl in *.
  constructor; simpl; auto.
Qed.

Lemma ecs_rows_passive reserved (m : gmap string string) (rtype : string)
    (rows : list row) (stop : option string) :
  Forall passive (ECS.rows_loop reserved m rtype rows stop).1.
Proof.
  induction rows as [|r rows IH]; simpl; [constructor|].
  destruct (ECS.row_event m rtype r) as [event|e]; simpl; [|constructor].
  destruct (ECS.refused reserved event); simpl; [constructor|].
  destruct (ECS.rows_loop reserved m rtype rows stop) as [ev res]; simpl in *.
  constructor; simpl; auto.
Qed.

Lemma cef_stream_spec digit csv mapping (r : report) (path device_id : string)
    (fs : gmap string file) :
  Forall (fun e => e = EvTransform r path \/ passive e)
         (CEF._stream_events digit csv mapping r path device_id fs).1.
Proof.
  unfold CEF._stream_events.
  destruct (fs !! path) as [f|]; simpl; [|repeat constructor; auto].
  destruct (mapping !! r_type r) as [m|]; simpl; [|repeat constructor; auto].
  pose proof (cef_rows_passive digit m device_id (r_type r)
                (csv (content f)).1 (csv (content f)).2) as Hp.
  destruct (CEF.rows_loop digit m device_id (r_type r) _ _) as [ev res].
  simpl in Hp.
  assert (Forall (fun e => e = EvTransform r path \/ passive e) ev)
    by (eapply Forall_impl; [exact Hp|auto]).
  destruct res; simpl; constructor; auto.
  apply Forall_app; split; auto. each_event.
Qed.

Lemma ecs_stream_spec reserved csv mapping (r : report) (path : string)
    (fs : gmap string file) :
  Forall (fun e => e = EvTransform r path \/ passive e)
         (ECS._stream_events reserved csv mapping r path fs).1.
Proof.
  unfold ECS._stream_events.
  destruct (fs !! path) as [f|]; simpl; [|repeat constructor; auto].
  pose proof (ecs_rows_passive reserved mapping (r_type r)
                (csv (content f)).1 (csv (content f)).2) as Hp.
  destruct (ECS.rows_loop reserved mapping (r_type r) _ _) as [ev res].
  simpl in Hp.
  assert (Forall (fun e => e = EvTransform r path \/ passive e) ev)
    by (eapply Forall_impl; [exact Hp|auto]).
  destruct res; simpl; constructor; auto.
  apply Forall_app; split; auto. each_event.
Qed.

Lemma own_events (mapped : report -> bool) (dst : string) (fs : gmap string file)
    (r : report) (ev : list event) :
  fs !! path_join dst (r_file r) = None ->
  mapped r = true ->
  Forall (fun e => (e = EvFetch r (path_join dst (r_file r))
                    \/ e = EvTransform r (path_join dst (r_file r)))
                   \/ passive e) ev ->
  Forall (loop_event mapped dst fs) ev.
Proof.
  intros Hnone Hm H. eapply Forall_impl; [exact H|].
  intros e [[-> | ->] | Hp]; simpl; auto. now apply passive_loop_event.
Qed.

Ltac widen H :=
  eapply Forall_impl; [exact H|]; simpl; intros ? [?|?]; auto.

Lemma cef_report_step_spec digit csv mapping (types : option (list string))
    (dst device_id : string) (now : Z) (r : report) (o : fetch_outcome)
    (fs : gmap string file) :
  let '(fs1, ev, _) := CEF.report_step digit csv mapping types dst device_id now r o fs in
  Forall (loop_event (cef_mapped mapping) dst fs) ev
  /\ (forall q, is_Some (fs !! q) -> fs1 !! q = fs !! q).
Proof.
  unfold CEF.report_step.
  destruct (Logger.filtered_out types r); [split; [constructor|auto]|].
  destruct (exists_ fs (path_join dst (r_file r))) eqn:E; [split; [constructor|auto]|].
  apply exists_false in E.
  destruct (bool_decide (is_Some (mapping !! r_type r))) eqn:M; simpl.
  2:{ split; [|auto]. constructor; [exact M|constructor]. }
  pose proof (download_spec r (path_join dst (r_file r)) o now fs) as D.
  destruct (Logger._download r (path_join dst (r_file r)) o now fs) as [[fs1 ev1] res].
  destruct D as (Dev & Dkeep & Dok).
  assert (Hq : forall q, is_Some (fs !! q) -> q <> path_join dst (r_file r)).
  { intros q [x Hx] ->. congruence. }
  assert (Hev1 : Forall (loop_event (cef_mapped mapping) dst fs) ev1).
  { apply (own_events _ _ _ r); auto. widen Dev. }
  destruct res as [[|]|e]; [|split; auto..].
  pose proof (cef_stream_spec digit csv mapping r (path_join dst (r_file r)) device_id fs1) as S.
  destruct (CEF._stream_events digit csv mapping r (path_join dst (r_file r)) device_id fs1)
    as [ev2 res2]. simpl in S.
  assert (Hev2 : Forall (loop_event (cef_mapped mapping) dst fs) ev2).
  { apply (own_events _ _ _ r); auto. widen S. }
  destruct res2; (split; [apply Forall_app; auto|]); intros q Hs.
  - unfold truncate. rewrite lookup_insert_ne by (apply not_eq_sym; auto). auto.
  - auto.
Qed.

Lemma ecs_report_step_spec reserved csv mapping (types : option (list string))
    (dst : string) (now : Z) (r : report) (o : fetch_outcome)
    (fs : gmap string file) :
  let '(fs1, ev, _) := ECS.report_step reserved csv mapping types dst now r o fs in
  Forall (loop_event ecs_mapped dst fs) ev
  /\ (forall q, is_Some (fs !! q) -> fs1 !! q = fs !! q).
Proof.
  unfold ECS.report_step.
  destruct (Logger.filtered_out types r); [split; [constructor|auto]|].
  destruct (exists_ fs (path_join dst (r_file r))) eqn:E; [split; [constructor|auto]|].
  apply exists_false in E.
  pose proof (download_spec r (path_join dst (r_file r)) o now fs) as D.
  destruct (Logger._download r (path_join dst (r_file r)) o now fs) as [[fs1 ev1] res].
  destruct D as (Dev & Dkeep & Dok).
  assert (Hq : forall q, is_Some (fs !! q) -> q <> path_join dst (r_file r)).
  { intros q [x Hx] ->. congruence. }
  assert (Hev1 : Forall (loop_event ecs_mapped dst fs) ev1).
  { apply (own_events _ _ _ r); auto. widen Dev. }
  destruct res as [[|]|e]; [|split; auto..].
  pose proof (ecs_stream_spec reserved csv mapping r (path_join dst (r_file r)) fs1) as S.
  destruct (ECS._stream_events reserved csv mapping r (path_join dst (r_file r)) fs1)
    as [ev2 res2]. simpl in S.
  assert (Hev2 : Forall (loop_event ecs_mapped dst fs) ev2).
  { apply (own_events _ _ _ r); auto. widen S. }
  destruct res2; (split; [apply Forall_app; auto|]); intros q Hs.
  - unfold truncate. rewrite lookup_insert_ne by (apply not_eq_sym; auto). auto.
  - auto.
Qed.

Lemma cef_reports_loop_spec digit csv mapping (types : option (list string))
    (dst device_id : string) (now : Z) (items : list (report * fetch_outcome))
    (fs : gmap string file) :
  let '(fs1, ev, _) := CEF.reports_loop digit csv mapping types dst device_id now items fs in
  Forall (loop_event (cef_mapped mapping) dst fs) ev
  /\ (forall q, is_Some (fs !! q) -> fs1 !! q = fs !! q).
Proof.
  revert fs. induction items as [|[r o] rest IH]; intros fs; simpl.
  - split; [constructor|auto].
  - pose proof (cef_report_step_spec digit csv mapping types dst device_id now r o fs) as S.
    destruct (CEF.report_step digit csv mapping types dst device_id now r o fs)
      as [[fs1 ev1] res1].
    destruct S as [Sev Skeep].
    destruct res1; [|split; auto].
    specialize (IH fs1).
    destruct (CEF.reports_loop digit csv mapping types dst device_id now rest fs1)
      as [[fs2 ev2] res2].
    destruct IH as [Iev Ikeep]. split.
    + apply Forall_app; split; auto.
      eapply Forall_impl; [exact Iev|]. intros e. now apply loop_event_earlier.
    + intros q Hs. rewrite Ikeep by (rewrite Skeep; auto). auto.
Qed.

Lemma ecs_reports_loop_spec reserved csv mapping (types : option (list string))
    (dst : string) (now : Z) (items : list (report * fetch_outcome))
    (fs : gmap string file) :
  let '(fs1, ev, _) := ECS.reports_loop reserved csv mapping types dst now items fs in
  Forall (loop_event ecs_mapped dst fs) ev
  /\ (forall q, is_Some (fs !! q) -> fs1 !! q = fs !! q).
Proof.
  revert fs. induction items as [|[r o] rest IH]; intros fs; simpl.
  - split; [constructor|auto].
  - pose proof (ecs_report_step_spec reserved csv mapping types dst now r o fs) as S.
    destruct (ECS.report_step reserved csv mapping types dst now r o fs)
      as [[fs1 ev1] res1].
    destruct S as [Sev Skeep].
    destruct res1; [|split; auto].
    specialize (IH fs1).
    destruct (ECS.reports_loop reserved csv mapping types dst now rest fs1)
      as [[fs2 ev2] res2].
    destruct IH as [Iev Ikeep]. split.
    + apply Forall_app; split; auto.
      eapply Forall_impl; [exact Iev|]. intros e. now apply loop_event_earlier.
    + intros q Hs. rewrite Ikeep by (rewrite Skeep; auto). auto.
Qed.

Lemma loop_event_untouched (mapped : report -> bool) (dst : string)
    (fs : gmap string file) (e : event) (p : string) :
  loop_event mapped dst fs e -> is_Some (fs !! p) -> touches p e = false.
Proof.
  intros He [f Hf]. destruct e; simpl in *; auto;
    destruct He as (-> & Hnone & _); apply String.eqb_neq; congruence.
Qed.

Lemma loop_event_unmapped (mapped : report -> bool) (dst : string)
    (fs : gmap string file) (e : event) (r : report) :
  loop_event mapped dst fs e -> mapped r = false -> concerns r e = false.
Proof.
  intros He Hr. destruct e; simpl in *; auto;
    destruct He as (_ & _ & Hm); apply bool_decide_eq_false; congruence.
Qed.

Lemma loop_event_not_call (mapped : report -> bool) (dst : string)
    (fs : gmap string file) (e : event) (date : string) :
  loop_event mapped dst fs e -> is_listing_call date e = true.
Proof. destruct e; simpl; tauto. Qed.

Lemma sweep_keeps (dst : string) (now : Z) (fs : gmap string file)
    (q : string) (f : file) :
  fs !! q = Some f -> Logger.expired now f = false ->
  Logger.sweep dst now fs !! q = Some f.
Proof.
  intros Hq He. unfold Logger.sweep. apply map_lookup_filter_Some_2; [exact Hq|].
  simpl. rewrite He. apply andb_false_r.
Qed.

Lemma sweep_only_removes (dst : string) (now : Z) (fs : gmap string file)
    (q : string) (f : file) :
  Logger.sweep dst now fs !! q = Some f -> fs !! q = Some f.
Proof. unfold Logger.sweep. apply map_lookup_filter_Some_1_1. Qed.

Lemma cef_section_run_spec digit csv (state_directory : string) mapping (today : Z)
    (input_name : string) (input_item : gmap string string)
    (env : Logger.section_env) (fs : gmap string file) :
  let '(fs1, ev, _) :=
    CEF.section_run digit csv state_directory mapping today input_name input_item env fs in
  Forall (section_event (cef_mapped mapping) (CEF.date_str today)
            (path_join state_directory (basename input_name)) fs) ev
  /\ (forall q f, fs !! q = Some f -> Logger.expired (Logger.e_now env) f = false ->
      fs1 !! q = Some f).
Proof.
  unfold CEF.section_run.
  destruct (input_item !! "facility") as [facility|]; [|split; [constructor|auto]].
  destruct (bool_decide (facility ∈ CEF.facilities)); simpl; [|split; [constructor|auto]].
  set (dst := path_join state_directory (basename input_name)).
  set (call := EvApiCall _ _ _).
  assert (Hcall : section_event (cef_mapped mapping) (CEF.date_str today) dst fs call)
    by (left; eexists; reflexivity).
  destruct (Logger.e_reply env) as [| |items].
  - split; [constructor; [exact Hcall|constructor]|auto].
  - split; [constructor; [exact Hcall|constructor]|].
    intros q f Hq He. now apply sweep_keeps.
  - pose proof (cef_reports_loop_spec digit csv mapping
                  (split_on (is_char ",") <$> input_item !! "types") dst
                  (default "100" (input_item !! "device_event_class_id"))
                  (Logger.e_now env) items fs) as L.
    destruct (CEF.reports_loop _ _ _ _ _ _ _ _ _) as [[fs1 ev] res].
    destruct L as [Lev Lkeep].
    assert (Forall (section_event (cef_mapped mapping) (CEF.date_str today) dst fs)
              (call :: ev)).
    { constructor; [auto|]. eapply Forall_impl; [exact Lev|]. intros e He. now right. }
    destruct res; (split; [auto|]); intros q f Hq He.
    + apply sweep_keeps; [|exact He]. rewrite Lkeep by (rewrite Hq; eauto). exact Hq.
    + rewrite Lkeep by (rewrite Hq; eauto). exact Hq.
Qed.

Lemma ecs_section_run_spec reserved csv (state_directory : string) mapping (today : Z)
    (input_name : string) (input_item : gmap string string)
    (env : Logger.section_env) (fs : gmap string file) :
  let '(fs1, ev, _) :=
    ECS.section_run reserved csv state_directory mapping today input_name input_item env fs in
  Forall (section_event ecs_mapped (ECS.date_str today)
            (path_join state_directory (basename input_name)) fs) ev
  /\ (forall q f, fs !! q = Some f -> Logger.expired (Logger.e_now env) f = false ->
      fs1 !! q = Some f).
Proof.
  unfold ECS.section_run.
  destruct (input_item !! "log") as [log|]; [|split; [constructor|auto]].
  set (dst := path_join state_directory (basename input_name)).
  set (call := EvApiCall _ _ _).
  assert (Hcall : section_event ecs_mapped (ECS.date_str today) dst fs call)
    by (left; eexists; reflexivity).
  destruct (Logger.e_reply env) as [| |items].
  - split; [constructor; [exact Hcall|constructor]|auto].
  - split; [constructor; [exact Hcall|constructor]|].
    intros q f Hq He. now apply sweep_keeps.
  - pose proof (ecs_reports_loop_spec reserved csv mapping
                  (split_on (is_char ",") <$> input_item !! "types") dst
                  (Logger.e_now env) items fs) as L.
    destruct (ECS.reports_loop _ _ _ _ _ _ _ _) as [[fs1 ev] res].
    destruct L as [Lev Lkeep].
    assert (Forall (section_event ecs_mapped (ECS.date_str today) dst fs)
              (call :: ev)).
    { constructor; [auto|]. eapply Forall_impl; [exact Lev|]. intros e He. now right. }
    destruct res; (split; [auto|]); intros q f Hq He.
    + apply sweep_keeps; [|exact He]. rewrite Lkeep by (rewrite Hq; eauto). exact Hq.
    + rewrite Lkeep by (rewrite Hq; eauto). exact Hq.
Qed.

Lemma section_event_untouched (mapped : report -> bool) (date dst : string)
    (fs : gmap string file) (e : event) (p : string) :
  section_event mapped date dst fs e -> is_Some (fs !! p) -> touches p e = false.
Proof.
  intros [[reports ->]|He] Hp; [reflexivity|].
  now apply (loop_event_untouched mapped dst fs).
Qed.

Lemma section_event_unmapped (mapped : report -> bool) (date dst : string)
    (fs : gmap string file) (e : event) (r : report) :
  section_event mapped date dst fs e -> mapped r = false -> concerns r e = false.
Proof.
  intros [[reports ->]|He] Hr; [reflexivity|].
  now apply (loop_event_unmapped mapped dst fs).
Qed.

Lemma section_event_call (mapped : report -> bool) (date dst : string)
    (fs : gmap string file) (e : event) :
  section_event mapped date dst fs e -> is_listing_call date e = true.
Proof.
  intros [[reports ->]|He]; [|now apply (loop_event_not_call mapped dst fs)].
  simpl. now rewrite String.eqb_refl.
Qed.

(** Every event of a run is an event of one of its sections. *)
Lemma cef_run_shape digit csv (state_directory : string) mapping (mode : string)
    (today : Z) (config : list (string * gmap string string))
    (env : string -> Logger.section_env) (fs : gmap string file) :
  Forall (fun e => exists dst fs',
            section_event (cef_mapped mapping) (CEF.date_str today) dst fs' e)
         (CEF.run digit csv state_directory mapping mode today config env fs).1.2.
Proof.
  unfold CEF.run. destruct (String.eqb mode "run"); [|constructor].
  revert fs. induction config as [|[name item] rest IH]; intros fs; simpl;
    [constructor|].
  pose proof (cef_section_run_spec digit csv state_directory mapping today name item
                (env name) fs) as S.
  destruct (CEF.section_run _ _ _ _ _ _ _ _ _) as [[fs1 ev1] res1].
  destruct S as [Sev _].
  assert (Forall (fun e => exists dst fs',
                    section_event (cef_mapped mapping) (CEF.date_str today) dst fs' e)
            ev1) by (eapply Forall_impl; [exact Sev|]; eauto).
  destruct res1; [|assumption].
  specialize (IH fs1). destruct (CEF.sections_loop _ _ _ _ _ _ _ _) as [[fs2 ev2] res2].
  simpl in *. apply Forall_app; auto.
Qed.

Lemma ecs_run_shape reserved csv (state_directory : string) mapping (mode : string)
    (today : Z) (config : list (string * gmap string string))
    (env : string -> Logger.section_env) (fs : gmap string file) :
  Forall (fun e => exists dst fs',
            section_event ecs_mapped (ECS.date_str today) dst fs' e)
         (ECS.run reserved csv state_directory mapping mode today config env fs).1.2.
Proof.
  unfold ECS.run. destruct (String.eqb mode "run"); [|constructor].
  revert fs. induction config as [|[name item] rest IH]; intros fs; simpl;
    [constructor|].
  pose proof (ecs_section_run_spec reserved csv state_directory mapping today name item
                (env name) fs) as S.
  destruct (ECS.section_run _ _ _ _ _ _ _ _ _) as [[fs1 ev1] res1].
  destruct S as [Sev _].
  assert (Forall (fun e => exists dst fs',
                    section_event ecs_mapped (ECS.date_str today) dst fs' e)
            ev1) by (eapply Forall_impl; [exact Sev|]; eauto).
  destruct res1; [|assumption].
  specialize (IH fs1). destruct (ECS.sections_loop _ _ _ _ _ _ _ _) as [[fs2 ev2] res2].
  simpl in *. apply Forall_app; auto.
Qed.


Lemma ecs_run_keeps reserved csv (state_directory : string) mapping (mode : string)
    (today : Z) (config : list (string * gmap string string))
    (env : string -> Logger.section_env) (fs : gmap string file)
    (p : string) (f : file) :
  fs !! p = Some f ->
  (forall name, Logger.expired (Logger.e_now (env name)) f = false) ->
  let '(fs1, ev, _) := ECS.run reserved csv state_directory mapping mode today config env fs in
  fs1 !! p = Some f /\ Forall (fun e => touches p e = false) ev.
Proof.
  intros Hp Hfresh. unfold ECS.run.
  destruct (String.eqb mode "run"); [|split; [auto|constructor]].
  revert fs Hp. induction config as [|[name item] rest IH]; intros fs Hp; simpl;
    [split; [auto|constructor]|].
  pose proof (ecs_section_run_spec reserved csv state_directory mapping today name item
                (env name) fs) as S.
  destruct (ECS.section_run _ _ _ _ _ _ _ _ _) as [[fs1 ev1] res1].
  destruct S as [Sev Skeep].
  assert (Hev1 : Forall (fun e => touches p e = false) ev1).
  { eapply Forall_impl; [exact Sev|]. intros e He.
    eapply section_event_untouched; [exact He|]. rewrite Hp; eauto. }
  assert (Hp1 : fs1 !! p = Some f) by (apply Skeep; auto).
  destruct res1; [|split; auto].
  specialize (IH fs1 Hp1).
  destruct (ECS.sections_loop _ _ _ _ _ _ _ _) as [[fs2 ev2] res2].
  destruct IH as [IHp IHev]. split; [auto|]. apply Forall_app; auto.
Qed.


Lemma ecs_runs_keep reserved csv (state_directory : string) mapping (mode : string)
    (config : list (string * gmap string string))
    (schedule : list (Z * (string -> Logger.section_env)))
    (fs : gmap string file) (p : string) (f : file) :
  fs !! p = Some f ->
  fresh_throughout f schedule ->
  let '(fs1, ev) := ECS.runs reserved csv state_directory mapping mode config schedule fs in
  fs1 !! p = Some f /\ Forall (fun e => touches p e = false) ev.
Proof.
  intros Hp Hfresh. revert fs Hp.
  induction Hfresh as [|[today env] rest Hrun Hrest IH]; intros fs Hp; simpl;
    [split; [auto|constructor]|].
  pose proof (ecs_run_keeps reserved csv state_directory mapping mode today config env fs p f
                Hp Hrun) as R.
  destruct (ECS.run _ _ _ _ _ _ _ _ _) as [[fs1 ev1] res1]. destruct R as [Rp Rev].
  specialize (IH fs1 Rp). destruct (ECS.runs _ _ _ _ _ _ _ _) as [fs2 ev2].
  destruct IH as [IHp IHev]. split; [auto|]. apply Forall_app; auto.
Qed.

(** ** Which reports a run downloads *)

Lemma download_first_event (r : report) (path : string) (o : fetch_outcome)
    (now : Z) (fs : gmap string file) :
  exists rest, (Logger._download r path o now fs).1.2 = EvFetch r path :: rest.
Proof.
  unfold Logger._download.
  destruct (urlretrieve o path now fs) as [fs1 returned].
  destruct returned; [destruct (getsize fs1 path)|];
    try destruct (unlink path fs1); simpl; eauto.
Qed.

(** C4, as amended.  In the CEF logger a listed report whose type has no
    entry in the mapping table is neither downloaded nor transformed by a
    run; when the report passes the type filter and no file is at its path,
    the loop prints the warning for it and goes on, with the filesystem as
    it was.  The ECS logger has no such test: when its loop comes to a
    listed report that passes the type filter and has no file at its path,
    it fetches the report whatever its table holds, and goes on to
    transform it when the fetch delivers a non-empty file. *)
Theorem C4_cef_skips_unmapped_types
    (digit reserved : string -> bool) (csv : string -> list row * option string)
    (state_directory : string) (mapping : gmap string (gmap string string))
    (ecs_mapping : gmap string string) (mode : string) (today : Z)
    (config : list (string * gmap string string))
    (env : string -> Logger.section_env) (fs : gmap string file) (r : report) :
  mapping !! r_type r = None ->
  Forall (fun e => concerns r e = false)
         (CEF.run digit csv state_directory mapping mode today config env fs).1.2
  /\ (forall types dst device_id now o (fs' : gmap string file),
      Logger.filtered_out types r = false ->
      fs' !! path_join dst (r_file r) = None ->
      CEF.report_step digit csv mapping types dst device_id now r o fs'
      = (fs', [EvWarnNoMapping r], Ret ()))
  /\ (forall types dst now o (fs' : gmap string file),
      Logger.filtered_out types r = false ->
      fs' !! path_join dst (r_file r) = None ->
      exists rest,
        (ECS.report_step reserved csv ecs_mapping types dst now r o fs').1.2
        = EvFetch r (path_join dst (r_file r)) :: rest)
  /\ (forall types dst now data (fs' : gmap string file),
      Logger.filtered_out types r = false ->
      fs' !! path_join dst (r_file r) = None ->
      nonempty data = true ->
      exists rest,
        (ECS.report_step reserved csv ecs_mapping types dst now r (FetchOk data) fs').1.2
        = EvFetch r (path_join dst (r_file r))
            :: EvTransform r (path_join dst (r_file r)) :: rest).
Proof.
  intros Hr.
  assert (Hm : cef_mapped mapping r = false).
  { unfold cef_mapped. apply bool_decide_eq_false. rewrite Hr. intros [? ?]. discriminate. }
  split; [|split; [|split]].
  - eapply Forall_impl; [apply cef_run_shape|].
    intros e (dst & fs' & He). eapply section_event_unmapped; eauto.
  - intros types dst device_id now o fs' Hf Hp. unfold CEF.report_step.
    rewrite Hf, (proj2 (exists_false _ _) Hp). fold (cef_mapped mapping r).
    now rewrite Hm.
  - intros types dst now o fs' Hf Hp. unfold ECS.report_step.
    rewrite Hf, (proj2 (exists_false _ _) Hp).
    destruct (download_first_event r (path_join dst (r_file r)) o now fs') as [rest Hd].
    destruct (Logger._download r (path_join dst (r_file r)) o now fs')
      as [[fs1 ev1] res]. simpl in Hd. subst ev1.
    destruct res as [[|]|e]; simpl; eauto.
    destruct (ECS._stream_events reserved csv ecs_mapping r _ fs1) as [ev2 [u|e]];
      simpl; eauto.
  - intros types dst now data fs' Hf Hp Hd. unfold ECS.report_step.
    rewrite Hf, (proj2 (exists_false _ _) Hp).
    unfold Logger._download. simpl. rewrite getsize_write, size_positive, Hd.
    unfold ECS._stream_events. unfold write at 1. rewrite lookup_insert_eq. simpl.
    destruct (ECS.rows_loop reserved ecs_mapping (r_type r) _ _) as [ev [u|e]];
      simpl; eauto.
Qed.

Lemma C4_witness :
  Forall (fun e => concerns Examples.blocklist e = false)
         (CEF.run Examples.ascii_digit Examples.plain_csv "/state" Examples.cef_table
            "run" Examples.today Examples.feed
            (Examples.serves Examples.blocklist (FetchOk Examples.two_rows)
               Examples.noon) ∅).1.2.
Proof.
  exact (proj1 (C4_cef_skips_unmapped_types Examples.ascii_digit Examples.reserved
                  Examples.plain_csv "/state" Examples.cef_table ∅ "run"
                  Examples.today Examples.feed
                  (Examples.serves Examples.blocklist (FetchOk Examples.two_rows)
                     Examples.noon) ∅ Examples.blocklist eq_refl)).
Defined.

(** C4 as stated fails for the ECS logger: with a table that has no entry
    at all, the listed report is downloaded and transformed. *)
Lemma C4_counterexample :
  (ECS.run Examples.reserved Examples.plain_csv "/state" ∅ "run" Examples.today Examples.feed
     (Examples.serves Examples.blocklist (FetchOk Examples.two_rows)
        Examples.noon) ∅).1.2
  = [EvApiCall "reports/list" "2023-03-13:2023-03-15" None;
     EvFetch Examples.blocklist (Examples.feed_path Examples.blocklist);
     EvTransform Examples.blocklist (Examples.feed_path Examples.blocklist);
     EvRecord (<["data_stream.dataset" := VStr "blocklist"]>
                 (<["extra.tag" := VStr "a"]>
                    (<["extra.ip" := VStr "192.0.2.7"]> ∅)));
     EvRecord (<["data_stream.dataset" := VStr "blocklist"]>
                 (<["extra.tag" := VStr "b"]>
                    (<["extra.ip" := VStr "192.0.2.8"]> ∅)));
     EvPrint "INFO: Processed"].
Proof. vm_compute. reflexivity. Qed.

(** ** The listing request *)

(** C9, as amended.  Every request a CEF run makes is a [reports/list]
    call whose date is the single string "start:end" running from two days
    before today to one day after today; every request an ECS run makes is
    a [reports/list] call whose date string runs from two days before today
    to today.  Each input section that is handled (a [facility] naming a
    known syslog facility, respectively a [log] entry) starts with that
    request. *)
Theorem C9_listing_window
    (digit reserved : string -> bool) (csv : string -> list row * option string)
    (state_directory : string)
    (cef_mapping : gmap string (gmap string string))
    (ecs_mapping : gmap string string) (mode : string) (today : Z)
    (config : list (string * gmap string string))
    (env : string -> Logger.section_env) (fs : gmap string file) :
  CEF.date_str today
  = Dates.isoformat (today - 2) +:+ ":" +:+ Dates.isoformat (today + 1)
  /\ Forall (fun e => is_listing_call (CEF.date_str today) e = true)
       (CEF.run digit csv state_directory cef_mapping mode today config env fs).1.2
  /\ ECS.date_str today
     = Dates.isoformat (today - 2) +:+ ":" +:+ Dates.isoformat today
  /\ Forall (fun e => is_listing_call (ECS.date_str today) e = true)
       (ECS.run reserved csv state_directory ecs_mapping mode today config env fs).1.2
  /\ (forall name item senv facility,
      item !! "facility" = Some facility -> facility ∈ CEF.facilities ->
      exists reports rest,
        (CEF.section_run digit csv state_directory cef_mapping today name item senv fs).1.2
        = EvApiCall "reports/list" (CEF.date_str today) reports :: rest)
  /\ (forall name item senv log,
      item !! "log" = Some log ->
      exists reports rest,
        (ECS.section_run reserved csv state_directory ecs_mapping today name item senv fs).1.2
        = EvApiCall "reports/list" (ECS.date_str today) reports :: rest).
Proof.
  split; [reflexivity|]. split.
  { eapply Forall_impl; [apply cef_run_shape|].
    intros e (dst & fs' & He). eapply section_event_call; eauto. }
  split; [reflexivity|]. split.
  { eapply Forall_impl; [apply ecs_run_shape|].
    intros e (dst & fs' & He). eapply section_event_call; eauto. }
  split.
  - intros name item senv facility Hf Hin. unfold CEF.section_run.
    rewrite Hf, (bool_decide_eq_true_2 _ Hin). simpl.
    destruct (Logger.e_reply senv) as [| |items]; simpl; eauto.
    destruct (CEF.reports_loop _ _ _ _ _ _ _ _ _) as [[fs1 ev] res].
    destruct res; simpl; eauto.
  - intros name item senv log Hl. unfold ECS.section_run. rewrite Hl.
    destruct (Logger.e_reply senv) as [| |items]; simpl; eauto.
    destruct (ECS.reports_loop _ _ _ _ _ _ _ _) as [[fs1 ev] res].
    destruct res; simpl; eauto.
Qed.

Lemma C9_witness :
  exists reports rest,
    (CEF.section_run Examples.ascii_digit Examples.plain_csv "/state"
       Examples.cef_table Examples.today
       "feed" (list_to_map [("facility", "user")])
       (Examples.nothing_listed Examples.noon "feed") ∅).1.2
    = EvApiCall "reports/list" "2023-03-13:2023-03-16" reports :: rest.
Proof.
  refine (proj1 (proj2 (proj2 (proj2 (proj2
            (C9_listing_window Examples.ascii_digit Examples.reserved
               Examples.plain_csv "/state" Examples.cef_table ∅
               "run" Examples.today Examples.feed
               (Examples.nothing_listed Examples.noon) ∅)))))
            "feed" (list_to_map [("facility", "user")])
            (Examples.nothing_listed Examples.noon "feed") "user" eq_refl _).
  apply (bool_decide_unpack ("user" ∈ CEF.facilities)). vm_compute. exact I.
Defined.

(** C9 as stated fails for the ECS logger: on 2023-03-15 it asks for the
    range that ends on 2023-03-15, not on the day after. *)
Lemma C9_counterexample :
  (ECS.run Examples.reserved Examples.plain_csv "/state" ∅ "run" Examples.today Examples.feed
     (Examples.nothing_listed Examples.noon) ∅).1.2
  = [EvApiCall "reports/list" "2023-03-13:2023-03-15" None]
  /\ Dates.isoformat (Examples.today - 2) +:+ ":"
     +:+ Dates.isoformat (Examples.today + 1)
     = "2023-03-13:2023-03-16".
Proof. split; vm_compute; reflexivity. Qed.

(** ** Files that input sections find in place *)

Lemma loop_event_skips (mapped : report -> bool) (dst : string)
    (fs : gmap string file) (e : event) (r : report) :
  loop_event mapped dst fs e -> is_Some (fs !! path_join dst (r_file r)) ->
  concerns r e = false.
Proof.
  intros He [f Hf]. destruct e; simpl in *; auto;
    destruct He as (-> & Hnone & _); apply bool_decide_eq_false; intros ->;
    congruence.
Qed.

Lemma from_section_skips (key : string) (mapped : report -> bool)
    (date state_directory dst : string) (config : list (string * gmap string string))
    (f : file) (e : event) (r : report) :
  single_directory key state_directory dst config ->
  from_section key mapped date state_directory config (path_join dst (r_file r)) f e ->
  concerns r e = false.
Proof.
  intros Hone (name & item & fs & Hin & Hkey & Hp & [[reports ->]|He]); [reflexivity|].
  rewrite (Hone name item Hin Hkey) in He.
  eapply loop_event_skips; [exact He|]. rewrite Hp; eauto.
Qed.


Lemma ecs_sections_from reserved csv (state_directory : string) mapping (today : Z)
    (config0 config : list (string * gmap string string))
    (env : string -> Logger.section_env) (fs : gmap string file)
    (p : string) (f : file) :
  (forall x, In x config -> In x config0) ->
  fs !! p = Some f ->
  (forall name, Logger.expired (Logger.e_now (env name)) f = false) ->
  let '(fs1, ev, _) :=
    ECS.sections_loop reserved csv state_directory mapping today config env fs in
  fs1 !! p = Some f
  /\ Forall (from_section "log" ecs_mapped (ECS.date_str today)
               state_directory config0 p f) ev.
Proof.
  intros Hincl Hp Hfresh. revert fs Hp.
  induction config as [|[name item] rest IH]; intros fs Hp; simpl;
    [split; [auto|constructor]|].
  pose proof (ecs_section_run_spec reserved csv state_directory mapping today name item
                (env name) fs) as S.
  destruct (ECS.section_run reserved csv state_directory mapping today name item
              (env name) fs) as [[fs1 ev1] res1] eqn:R.
  destruct S as [Sev Skeep].
  assert (Hev1 : Forall (from_section "log" ecs_mapped (ECS.date_str today)
                           state_directory config0 p f) ev1).
  { destruct (item !! "log") as [log|] eqn:E.
    - eapply Forall_impl; [exact Sev|]. intros e He. exists name, item, fs.
      split; [apply Hincl; now left|]. split; [rewrite E; eauto|]. auto.
    - unfold ECS.section_run in R. rewrite E in R. injection R as <- <- <-.
      constructor. }
  assert (Hp1 : fs1 !! p = Some f) by (apply Skeep; auto).
  destruct res1; [|split; auto].
  assert (Hincl' : forall x, In x rest -> In x config0)
    by (intros x Hx; apply Hincl; now right).
  specialize (IH Hincl' fs1 Hp1).
  destruct (ECS.sections_loop _ _ _ _ _ _ _ _) as [[fs2 ev2] res2].
  destruct IH as [IHp IHev]. split; [auto|]. apply Forall_app; auto.
Qed.


Lemma ecs_runs_skip reserved csv (state_directory : string) mapping (mode : string)
    (config : list (string * gmap string string))
    (schedule : list (Z * (string -> Logger.section_env)))
    (fs : gmap string file) (dst : string) (r : report) (f : file) :
  single_directory "log" state_directory dst config ->
  fs !! path_join dst (r_file r) = Some f ->
  fresh_throughout f schedule ->
  Forall (fun e => concerns r e = false)
         (ECS.runs reserved csv state_directory mapping mode config schedule fs).2.
Proof.
  intros Hone Hp Hfresh. revert fs Hp.
  induction Hfresh as [|[today env] rest Hrun Hrest IH]; intros fs Hp; simpl;
    [constructor|].
  pose proof (ecs_sections_from reserved csv state_directory mapping today config config
                env fs _ f (fun x H => H) Hp Hrun) as S.
  unfold ECS.run. destruct (String.eqb mode "run").
  - destruct (ECS.sections_loop _ _ _ _ _ _ _ _) as [[fs1 ev1] res1].
    destruct S as [Sp Sev]. specialize (IH fs1 Sp).
    destruct (ECS.runs _ _ _ _ _ _ _ _) as [fs2 ev2]. simpl in *.
    apply Forall_app. split; [|exact IH].
    eapply Forall_impl; [exact Sev|]. intros e He.
    eapply from_section_skips; eauto.
  - specialize (IH fs Hp). destruct (ECS.runs _ _ _ _ _ _ _ _) as [fs2 ev2].
    exact IH.
Qed.

Lemma feed_single_directory :
  single_directory "log" "/state" "/state/feed" Examples.feed.
Proof.
  intros name item [H|[H|[H|[]]]] [v Hv]; injection H as <- <-;
    [rewrite lookup_empty in Hv; discriminate Hv| |reflexivity].
  now rewrite lookup_singleton_ne in Hv by discriminate.
Qed.

(** ** An empty download in the loggers *)






(** ** The report manager *)

Section Manager.
Import ReportManager.
Context (cfg : config) (directory : string).

Lemma tmp_dst_ne (r : report) : tmp_path directory r <> dst_path directory r.
Proof. apply path_join_dot_ne. Qed.

(** A report whose file is present is skipped, whatever the file holds. *)
Lemma rm_download_present (r : report) (o : fetch_outcome) (now : Z) (s : state) :
  is_Some (st_fs s !! dst_path directory r) ->
  _download cfg r directory o now s = (s, []).
Proof.
  intros H. unfold _download. now rewrite (proj2 (exists_true _ _) H).
Qed.

(** What a download does when the final path is free. *)
Lemma rm_download_absent (r : report) (o : fetch_outcome) (now : Z) (s : state) :
  st_fs s !! dst_path directory r = None ->
  _download cfg r directory o now s =
    let tmp := tmp_path directory r in
    let dst := dst_path directory r in
    match o with
    | FetchFailEarly => (State (st_fs s) (st_count s), [EvFetch r tmp; download_failed r])
    | FetchFailLate partial =>
        (State (write tmp partial now (st_fs s)) (st_count s),
         [EvFetch r tmp; download_failed r])
    | FetchOk data =>
        if nonempty data then
          (State (<[dst := File data now]> (delete tmp (write tmp data now (st_fs s))))
                 (S (st_count s)),
           EvFetch r tmp :: (if notifier cfg then [EvNotify r dst] else []))
        else (State (write tmp data now (st_fs s)) (st_count s), [EvFetch r tmp])
    end.
Proof.
  intros H. unfold _download. rewrite (proj2 (exists_false _ _) H).
  destruct o as [|partial|data]; simpl; try reflexivity.
  rewrite getsize_write, size_positive. destruct (nonempty data); [|reflexivity].
  unfold rename, write. now rewrite lookup_insert_eq.
Qed.

Lemma rm_download_spec (r : report) (o : fetch_outcome) (now : Z) (s : state) :
  let '(s', ev) := _download cfg r directory o now s in
  (forall r' t, In (EvFetch r' t) ev ->
     r' = r /\ t = tmp_path directory r /\ st_fs s !! dst_path directory r = None)
  /\ (forall q, q <> tmp_path directory r -> is_Some (st_fs s !! q) ->
      st_fs s' !! q = st_fs s !! q)
  /\ (delivers o -> is_Some (st_fs s' !! dst_path directory r))
  /\ (st_fs s !! dst_path directory r = None -> exists rest,
      ev = EvFetch r (tmp_path directory r) :: rest).
Proof.
  destruct (st_fs s !! dst_path directory r) as [f|] eqn:E.
  - rewrite rm_download_present by (rewrite E; eauto).
    repeat split; try (intros; contradiction); auto. discriminate.
  - rewrite (rm_download_absent r o now s E).
    assert (Hin : forall ev r' t,
               In (EvFetch r' t) (EvFetch r (tmp_path directory r) :: ev) ->
               (forall e, In e ev -> is_fetch e = false) ->
               r' = r /\ t = tmp_path directory r /\ @None file = None).
    { intros ev r' t [Heq|Hin] Hev; [injection Heq as <- <-; auto|].
      apply Hev in Hin. discriminate. }
    assert (Hq : forall q, is_Some (st_fs s !! q) -> q <> dst_path directory r).
    { intros q [x Hx] ->. congruence. }
    destruct o as [|partial|data]; simpl.
    + split; [|split; [|split]]; auto.
      * intros r' t H. apply (Hin [download_failed r] _ _ H).
        intros e [<-|[]]. reflexivity.
      * intros (data & Hd & _). discriminate.
      * eauto.
    + split; [|split; [|split]].
      * intros r' t H. apply (Hin [download_failed r] _ _ H).
        intros e [<-|[]]. reflexivity.
      * intros q Hne _. unfold write. now rewrite lookup_insert_ne by congruence.
      * intros (data & Hd & _). discriminate.
      * eauto.
    + destruct (nonempty data) eqn:Hd; simpl.
      * split; [|split; [|split]].
        -- intros r' t H.
           apply (Hin (if notifier cfg
                       then [EvNotify r (dst_path directory r)] else []) _ _ H).
           intros e He. destruct (notifier cfg); [destruct He as [<-|[]]|destruct He].
           reflexivity.
        -- intros q Hne Hs. unfold write.
           rewrite lookup_insert_ne by (apply not_eq_sym; auto).
           now rewrite lookup_delete_ne, lookup_insert_ne by congruence.
        -- intros _. rewrite lookup_insert_eq. eauto.
        -- eauto.
      * split; [|split; [|split]].
        -- intros r' t H. apply (Hin [] _ _ H). intros e [].
        -- intros q Hne _. unfold write. now rewrite lookup_insert_ne by congruence.
        -- intros (data' & Heq & Hd'). injection Heq as <-. congruence.
        -- eauto.
Qed.

(** When every listed report is present, the loop changes nothing and
    fetches nothing (it may still stop on the disk guard). *)
Lemma rm_loop_all_present (now : Z) (steps : list step) (s : state) :
  Forall (fun st => is_Some (st_fs s !! dst_path directory (s_report st))) steps ->
  let '(s', ev, _) := download_loop cfg directory now steps s in
  s' = s /\ Forall (fun e => is_fetch e = false) ev.
Proof.
  induction 1 as [|st rest Hst Hrest IH]; simpl; [split; [auto|constructor]|].
  destruct (s_free st <? threshold cfg)%Z; [split; [auto|repeat constructor]|].
  rewrite rm_download_present by exact Hst.
  destruct (download_loop cfg directory now rest s) as [[s2 ev2] out]. exact IH.
Qed.

Lemma rm_loop_spec (now : Z) (steps : list step) (s : state) :
  distinct_names directory (map s_report steps) ->
  let '(s', ev, out) := download_loop cfg directory now steps s in
  (forall r t, In (EvFetch r t) ev ->
     t = tmp_path directory r /\ In r (map s_report steps)
     /\ st_fs s !! dst_path directory r = None)
  /\ (forall q, (forall r, In r (map s_report steps) -> q <> tmp_path directory r) ->
      is_Some (st_fs s !! q) -> st_fs s' !! q = st_fs s !! q)
  /\ (out = Done -> forall st, In st steps -> delivers (s_net st) ->
      is_Some (st_fs s' !! dst_path directory (s_report st))).
Proof.
  revert s. induction steps as [|st rest IH]; intros s Hd; simpl.
  { split; [|split]; try contradiction; auto. }
  destruct (s_free st <? threshold cfg)%Z.
  { split; [|split]; try discriminate; auto. intros r t [H|[]]. discriminate. }
  pose proof (rm_download_spec (s_report st) (s_net st) now s) as D.
  destruct (_download cfg (s_report st) directory (s_net st) now s) as [s1 ev1].
  destruct D as (Dev & Dkeep & Dok & _).
  assert (Hd' : distinct_names directory (map s_report rest)).
  { intros a b Ha Hb. apply Hd; simpl; auto. }
  specialize (IH s1 Hd').
  destruct (download_loop cfg directory now rest s1) as [[s2 ev2] out].
  destruct IH as (Iev & Ikeep & Iok).
  assert (Hpersist : forall r, In r (map s_report (st :: rest)) ->
            is_Some (st_fs s !! dst_path directory r) ->
            st_fs s1 !! dst_path directory r = st_fs s !! dst_path directory r).
  { intros r Hr Hs. apply Dkeep; [|exact Hs].
    apply not_eq_sym, Hd; simpl; auto. }
  split; [|split].
  - intros r t H. apply in_app_or in H. destruct H as [H|H].
    + apply Dev in H as (-> & -> & H). simpl; auto.
    + pose proof (Iev _ _ H) as (Ht & Hr & Hnone).
      split; [exact Ht|]. split; [simpl; auto|].
      destruct (st_fs s !! dst_path directory r) eqn:E; [|reflexivity].
      rewrite Hpersist in Hnone by (simpl; rewrite ?E; eauto). congruence.
  - intros q Hq Hs. rewrite Ikeep.
    + apply Dkeep; [apply Hq; simpl; auto|exact Hs].
    + intros r Hr. apply Hq. simpl; auto.
    + rewrite Dkeep; [exact Hs|apply Hq; simpl; auto|exact Hs].
  - intros Hout st' [<-|Hin] Hdel.
    + rewrite Ikeep.
      * now apply Dok.
      * intros r Hr. apply not_eq_sym, Hd; simpl; auto.
      * now apply Dok.
    + now apply Iok.
Qed.

(** A download touches the temporary and the final path only. *)
Lemma rm_download_frame (r : report) (o : fetch_outcome) (now : Z) (s : state)
    (q : string) :
  q <> tmp_path directory r -> q <> dst_path directory r ->
  st_fs (_download cfg r directory o now s).1 !! q = st_fs s !! q.
Proof.
  intros Ht Hd. destruct (st_fs s !! dst_path directory r) as [f|] eqn:E.
  - rewrite rm_download_present by (rewrite E; eauto). reflexivity.
  - rewrite (rm_download_absent r o now s E).
    destruct o as [|partial|data]; simpl; [reflexivity| |].
    + unfold write. now rewrite lookup_insert_ne by congruence.
    + destruct (nonempty data); simpl; unfold write.
      * rewrite lookup_insert_ne by congruence.
        now rewrite lookup_delete_ne, lookup_insert_ne by congruence.
      * now rewrite lookup_insert_ne by congruence.
Qed.

(** A pass that the disk guard lets through attempts a download to every
    listed final path that is free. *)
Lemma rm_loop_attempts (now : Z) (steps : list step) (s : state) (r : report) :
  Forall (fun st => (threshold cfg <= s_free st)%Z) steps ->
  In r (map s_report steps) ->
  st_fs s !! dst_path directory r = None ->
  (forall r', In r' (map s_report steps) ->
     tmp_path directory r' <> dst_path directory r) ->
  exists r' t, In (EvFetch r' t) (download_loop cfg directory now steps s).1.2
               /\ dst_path directory r' = dst_path directory r.
Proof.
  intros Hg. revert s. induction Hg as [|st rest Hst Hrest IH]; intros s Hin Hnone Hn;
    simpl in *; [contradiction|].
  rewrite (proj2 (Z.ltb_ge _ _) Hst).
  pose proof (rm_download_spec (s_report st) (s_net st) now s) as D.
  pose proof (rm_download_frame (s_report st) (s_net st) now s (dst_path directory r)) as F.
  destruct (_download cfg (s_report st) directory (s_net st) now s) as [s1 ev1].
  destruct D as (_ & _ & _ & Dfirst). simpl in F.
  destruct (decide (dst_path directory (s_report st) = dst_path directory r)) as [Heq|Hne].
  - rewrite Heq in Dfirst. destruct (Dfirst Hnone) as [rest' ->].
    destruct (download_loop cfg directory now rest s1) as [[s2 ev2] out]. simpl.
    exists (s_report st), (tmp_path directory (s_report st)). split; [now left|exact Heq].
  - destruct Hin as [Hin|Hin]; [subst r; contradiction|].
    destruct (IH s1 Hin) as (r' & t & Hev & Hr').
    + rewrite F; [exact Hnone| |congruence]. apply not_eq_sym, Hn. now left.
    + intros r' Hr'. apply Hn. now right.
    + destruct (download_loop cfg directory now rest s1) as [[s2 ev2] out]. simpl in *.
      exists r', t. split; [apply in_or_app; now right|exact Hr'].
Qed.

End Manager.

Section ManagerLoop.
Import ReportManager.
Context (cfg : config) (directory : string) (now : Z).

Lemma rm_loop_fetches (steps : list step) (s : state) (r : report) (t : string) :
  In (EvFetch r t) (download_loop cfg directory now steps s).1.2 ->
  In r (map s_report steps).
Proof.
  revert s. induction steps as [|st rest IH]; intros s; simpl; [contradiction|].
  destruct (s_free st <? threshold cfg)%Z; simpl.
  { intros [H|[]]. discriminate. }
  pose proof (rm_download_spec cfg directory (s_report st) (s_net st) now s) as D.
  destruct (_download cfg (s_report st) directory (s_net st) now s) as [s1 ev1].
  destruct D as (Dev & _).
  specialize (IH s1). destruct (download_loop cfg directory now rest s1) as [[s2 ev2] out].
  simpl in *. intros H. apply in_app_or in H. destruct H as [H|H].
  - apply Dev in H as (-> & _). now left.
  - right. now apply IH.
Qed.

(** The pass over a listing whose first failing free-space reading is that
    of [st]: what was done for the reports before [st], then the fatal
    exit. *)
Lemma rm_loop_guard (pre post : list step) (st : step) (s : state) :
  Forall (fun x => (threshold cfg <= s_free x)%Z) pre ->
  (s_free st < threshold cfg)%Z ->
  download_loop cfg directory now (pre ++ st :: post) s
  = let '(s_pre, ev_pre, _) := download_loop cfg directory now pre s in
    (s_pre, ev_pre ++ [EvSyslog insufficient], Fatal insufficient).
Proof.
  intros Hpre Hst. revert s. induction Hpre as [|x pre Hx Hpre IH]; intros s; simpl.
  - now rewrite (proj2 (Z.ltb_lt _ _) Hst).
  - rewrite (proj2 (Z.ltb_ge _ _) Hx).
    destruct (_download cfg (s_report x) directory (s_net x) now s) as [s1 ev1].
    rewrite IH. destruct (download_loop cfg directory now pre s1) as [[s2 ev2] out].
    now rewrite app_assoc.
Qed.

End ManagerLoop.

Section ManagerPasses.
Import ReportManager.
Context (cfg : config) (directory : string).

(** A listing splits at the first free-space reading below the threshold. *)
Lemma rm_split (steps : list step) :
  exists pre post,
    steps = pre ++ post
    /\ Forall (fun st => (threshold cfg <= s_free st)%Z) pre
    /\ (post = [] \/ exists st post', post = st :: post'
                                     /\ (s_free st < threshold cfg)%Z).
Proof.
  induction steps as [|st rest (pre & post & -> & Hpre & Hpost)].
  - exists [], []. repeat split; auto.
  - destruct (Z.ltb_spec (s_free st) (threshold cfg)) as [Hlt|Hge].
    + exists [], (st :: pre ++ post). split; [reflexivity|]. split; [constructor|].
      right. eauto.
    + exists (st :: pre), post. split; [reflexivity|]. split; [|exact Hpost].
      constructor; assumption.
Qed.

Lemma rm_guard_free (now : Z) (steps : list step) (s : state) :
  Forall (fun st => (threshold cfg <= s_free st)%Z) steps ->
  (download_loop cfg directory now steps s).2 = Done.
Proof.
  intros H. revert s. induction H as [|st rest Hst Hrest IH]; intros s; simpl;
    [reflexivity|].
  rewrite (proj2 (Z.ltb_ge _ _) Hst).
  destruct (_download cfg (s_report st) directory (s_net st) now s) as [s1 ev1].
  specialize (IH s1). destruct (download_loop cfg directory now rest s1) as [[s2 ev2] out].
  exact IH.
Qed.

(** The state a pass ends in is the state its guard-free part ends in. *)
Lemma rm_loop_state_prefix (now : Z) (pre post : list step) (s : state) :
  Forall (fun st => (threshold cfg <= s_free st)%Z) pre ->
  (post = [] \/ exists st post', post = st :: post'
                                 /\ (s_free st < threshold cfg)%Z) ->
  (download_loop cfg directory now (pre ++ post) s).1.1
  = (download_loop cfg directory now pre s).1.1.
Proof.
  intros Hpre [->|(st & post' & -> & Hst)].
  - now rewrite app_nil_r.
  - rewrite (rm_loop_guard cfg directory now pre post' st s Hpre Hst).
    now destruct (download_loop cfg directory now pre s) as [[s1 ev1] out1].
Qed.

(** A download that finds the file in place, or that delivers nothing,
    adds no file: it can only write the temporary file. *)
Lemma rm_download_adds_nothing (r : report) (o : fetch_outcome) (now : Z) (s : state) :
  is_Some (st_fs s !! dst_path directory r) \/ ~ delivers o ->
  let '(s', _) := _download cfg r directory o now s in
  st_count s' = st_count s
  /\ (forall q, q <> tmp_path directory r -> st_fs s' !! q = st_fs s !! q).
Proof.
  intros H. destruct (st_fs s !! dst_path directory r) as [f|] eqn:E.
  - rewrite rm_download_present by (rewrite E; eauto). auto.
  - destruct H as [[f Hf]|Hfail]; [discriminate|].
    rewrite (rm_download_absent cfg directory r o now s E).
    destruct o as [|partial|data]; simpl.
    + auto.
    + split; [reflexivity|]. intros q Hq. unfold write.
      now rewrite lookup_insert_ne by congruence.
    + destruct (nonempty data) eqn:Hd.
      * exfalso. apply Hfail. exists data. auto.
      * simpl. split; [reflexivity|]. intros q Hq. unfold write.
        now rewrite lookup_insert_ne by congruence.
Qed.

(** A pass over a listing whose delivering downloads all find their file
    in place adds no file. *)
Lemma rm_loop_settled (now : Z) (steps : list step) (s : state) :
  distinct_names directory (map s_report steps) ->
  (forall st, In st steps -> delivers (s_net st) ->
     is_Some (st_fs s !! dst_path directory (s_report st))) ->
  let '(s', _, _) := download_loop cfg directory now steps s in
  st_count s' = st_count s
  /\ (forall q, (forall r, In r (map s_report steps) -> q <> tmp_path directory r) ->
      st_fs s' !! q = st_fs s !! q).
Proof.
  revert s. induction steps as [|st rest IH]; intros s Hd Hin; simpl; [auto|].
  destruct (s_free st <? threshold cfg)%Z; [auto|].
  assert (Hst : is_Some (st_fs s !! dst_path directory (s_report st))
                \/ ~ delivers (s_net st)).
  { destruct (st_fs s !! dst_path directory (s_report st)) as [f|] eqn:E; [eauto|].
    right. intros Hdel. destruct (Hin st (or_introl eq_refl) Hdel) as [f Hf].
    congruence. }
  pose proof (rm_download_adds_nothing (s_report st) (s_net st) now s Hst) as D.
  destruct (_download cfg (s_report st) directory (s_net st) now s) as [s1 ev1].
  destruct D as [Dc Dkeep].
  assert (Hd' : distinct_names directory (map s_report rest)).
  { intros a b Ha Hb. apply Hd; simpl; auto. }
  assert (Hin' : forall st', In st' rest -> delivers (s_net st') ->
            is_Some (st_fs s1 !! dst_path directory (s_report st'))).
  { intros st' Hst' Hdel. rewrite Dkeep; [apply Hin; simpl; auto|].
    apply not_eq_sym, Hd; simpl; auto. right. now apply in_map. }
  specialize (IH s1 Hd' Hin').
  destruct (download_loop cfg directory now rest s1) as [[s2 ev2] out].
  destruct IH as [Ic Ikeep]. split; [congruence|].
  intros q Hq. rewrite Ikeep by (intros r Hr; apply Hq; simpl; auto).
  apply Dkeep, Hq. simpl. auto.
Qed.

(** Two passes over the same listing that meet the same downloads and the
    same free-space readings, the second with a counter of its own: the
    second adds no file. *)
Lemma rm_same_pass_twice (now1 now2 : Z) (steps : list step) (s0 : state)
    (count : nat) :
  distinct_names directory (map s_report steps) ->
  let s1 := (download_loop cfg directory now1 steps s0).1.1 in
  let s2 := (download_loop cfg directory now2 steps (State (st_fs s1) count)).1.1 in
  st_count s2 = count
  /\ (forall q, (forall r, In r (map s_report steps) -> q <> tmp_path directory r) ->
      st_fs s2 !! q = st_fs s1 !! q).
Proof.
  intros Hd. destruct (rm_split steps) as (pre & post & -> & Hpre & Hpost).
  cbv zeta. rewrite !(rm_loop_state_prefix _ pre post _ Hpre Hpost).
  assert (Hd' : distinct_names directory (map s_report pre)).
  { intros a b Ha Hb. apply Hd; rewrite map_app; apply in_or_app; auto. }
  pose proof (rm_loop_spec cfg directory now1 pre s0 Hd') as L.
  pose proof (rm_guard_free now1 pre s0 Hpre) as G.
  destruct (download_loop cfg directory now1 pre s0) as [[s1 ev1] out1].
  simpl in G. subst out1. destruct L as (_ & _ & Lok). simpl.
  pose proof (rm_loop_settled now2 pre (State (st_fs s1) count) Hd' (Lok eq_refl)) as S.
  destruct (download_loop cfg directory now2 pre (State (st_fs s1) count))
    as [[s2 ev2] out2].
  destruct S as [Sc Skeep]. simpl. split; [exact Sc|].
  intros q Hq. apply Skeep. intros r Hr. apply Hq.
  rewrite map_app. apply in_or_app. auto.
Qed.

End ManagerPasses.

(** C5, as amended.  The free space is read before each report is handled
    (also one that is already present).  At the first reading below the
    threshold the run ends as fatal: the state and the trace are those of
    the reports listed before that one, nothing is fetched for that report
    or any later one, and no later date is synchronised.  When the first
    reading of a pass is already below the threshold, the pass fetches
    nothing.  Without a [min_disk_free] setting the threshold is 512 MB. *)
Theorem C5_disk_guard_ends_the_run
    (cfg : ReportManager.config) (today now : Z) (env : Z -> ReportManager.listing)
    (i : Z) (later : list Z) (pre post : list ReportManager.step)
    (st : ReportManager.step) (s : ReportManager.state) :
  env i = ReportManager.Reports (pre ++ st :: post) ->
  Forall (fun x => (ReportManager.threshold cfg <= ReportManager.s_free x)%Z) pre ->
  (ReportManager.s_free st < ReportManager.threshold cfg)%Z ->
  let date := Dates.isoformat (today - i) in
  let directory := ReportManager.directory_of cfg date in
  let '(s_pre, ev_pre, _) := ReportManager.download_loop cfg directory now pre s in
  ReportManager.sync_days cfg today now env (i :: later) s
  = (s_pre,
     EvApiCall "reports/list" date None
       :: ev_pre ++ [EvSyslog ReportManager.insufficient],
     ReportManager.Fatal ReportManager.insufficient)
  /\ (forall days, ReportManager.offsets days = i :: later ->
      ReportManager.run cfg days today now env s
      = ReportManager.sync_days cfg today now env (i :: later) s)
  /\ (forall r t, In (EvFetch r t) ev_pre -> In r (map ReportManager.s_report pre))
  /\ (pre = [] -> s_pre = s /\ ev_pre = [])
  /\ ReportManager.threshold
       (ReportManager.Config (ReportManager.basedir cfg) None
          (ReportManager.notifier cfg))
     = (512 * 1024 * 1024)%Z.
Proof.
  intros Henv Hpre Hst date directory.
  pose proof (rm_loop_guard cfg directory now pre post st s Hpre Hst) as G.
  pose proof (fun r t => rm_loop_fetches cfg directory now pre s r t) as F.
  destruct (ReportManager.download_loop cfg directory now pre s) as [[s_pre ev_pre] out]
    eqn:E.
  assert (Hsync : ReportManager.sync_days cfg today now env (i :: later) s
                  = (s_pre,
                     EvApiCall "reports/list" date None
                       :: ev_pre ++ [EvSyslog ReportManager.insufficient],
                     ReportManager.Fatal ReportManager.insufficient)).
  { simpl. unfold ReportManager._sync. rewrite Henv. fold date. fold directory.
    now rewrite G. }
  split; [exact Hsync|]. split.
  { intros days Hd. unfold ReportManager.run. rewrite Hd, Hsync. reflexivity. }
  split; [exact F|]. split; [|reflexivity].
  intros ->. simpl in E. injection E as <- <- _. auto.
Qed.

Lemma C5_witness :
  ReportManager.run Examples.manager 2 Examples.today Examples.noon
    (fun _ => ReportManager.Reports Examples.full_disk) Examples.fresh_start
  = (Examples.fresh_start,
     [EvApiCall "reports/list" "2023-03-13" None;
      EvSyslog ReportManager.insufficient],
     ReportManager.Fatal ReportManager.insufficient).
Proof.
  pose proof (C5_disk_guard_ends_the_run Examples.manager Examples.today Examples.noon
                (fun _ => ReportManager.Reports Examples.full_disk) 2%Z [1%Z] []
                [ReportManager.Step Examples.blocklist (100 * Examples.MiB)%Z
                   (FetchOk Examples.two_rows)]
                (ReportManager.Step Examples.scan (100 * Examples.MiB)%Z
                   (FetchOk Examples.two_rows))
                Examples.fresh_start eq_refl (List.Forall_nil _) eq_refl)
    as (Hsync & Hrun & _).
  rewrite (Hrun 2%nat eq_refl). exact Hsync.
Defined.

(** C5 as stated fails: the second reading is below the threshold and the
    run ends as fatal, but the first report of that pass has been
    downloaded by then. *)
Lemma C5_counterexample :
  ReportManager._sync Examples.manager Examples.day Examples.noon
    (ReportManager.Reports Examples.disk_fills) Examples.fresh_start
  = (ReportManager.State
       {[ ReportManager.dst_path Examples.day_dir Examples.scan
          := File Examples.two_rows Examples.noon ]} 1,
     [EvApiCall "reports/list" "2023-03-14" None;
      EvFetch Examples.scan (ReportManager.tmp_path Examples.day_dir Examples.scan);
      EvSyslog ReportManager.insufficient],
     ReportManager.Fatal ReportManager.insufficient).
Proof. vm_compute. reflexivity. Qed.

(** C1, as amended.  In the report manager a download (one whose final path
    is free) fetches to the dot-prefixed temporary name in the destination
    directory, a different path, and renames that file to the final path
    exactly when the fetch returned and the file is not empty.  After a
    fetch that raised or delivered no byte nothing is at the final path, no
    other file has changed, the counter is what it was, and the next call
    for that report fetches again -- as does the next pass of the
    synchronisation that the disk guard lets through.  The two loggers
    have no temporary name: they fetch straight to the final path, and
    remove the file when the fetch raises after creating it. *)
Theorem C1_manager_downloads_through_a_temporary_name
    (cfg : ReportManager.config) (r : report) (directory : string)
    (o : fetch_outcome) (now : Z) (s : ReportManager.state) :
  ReportManager.st_fs s !! ReportManager.dst_path directory r = None ->
  let tmp := ReportManager.tmp_path directory r in
  let dst := ReportManager.dst_path directory r in
  let '(s', ev) := ReportManager._download cfg r directory o now s in
  tmp = path_join directory ("." +:+ r_file r)
  /\ tmp <> dst
  /\ (exists rest, ev = EvFetch r tmp :: rest)
  /\ ReportManager.st_fs s' !! dst =
       match o with
       | FetchOk data => if nonempty data then Some (File data now) else None
       | _ => None
       end
  /\ ReportManager.st_fs s' !! tmp =
       match o with
       | FetchOk data => if nonempty data then None else Some (File "" now)
       | FetchFailLate partial => Some (File partial now)
       | FetchFailEarly => ReportManager.st_fs s !! tmp
       end
  /\ (forall q, q <> tmp -> q <> dst ->
      ReportManager.st_fs s' !! q = ReportManager.st_fs s !! q)
  /\ ReportManager.st_count s' =
       match o with
       | FetchOk data =>
           if nonempty data then S (ReportManager.st_count s)
           else ReportManager.st_count s
       | _ => ReportManager.st_count s
       end
  /\ (ReportManager.st_fs s' !! dst = None ->
      (forall o' now', exists rest,
         (ReportManager._download cfg r directory o' now' s').2
         = EvFetch r tmp :: rest)
      /\ (forall now' steps,
          Forall (fun st => (ReportManager.threshold cfg <= ReportManager.s_free st)%Z)
                 steps ->
          In r (map ReportManager.s_report steps) ->
          (forall r', In r' (map ReportManager.s_report steps) ->
             ReportManager.tmp_path directory r' <> dst) ->
          exists r' t,
            In (EvFetch r' t)
               (ReportManager.download_loop cfg directory now' steps s').1.2
            /\ ReportManager.dst_path directory r' = dst))
  /\ (forall path fs data,
      Logger._download r path (FetchOk data) now fs
      = (write path data now fs, [EvFetch r path], Ret (nonempty data)))
  /\ (forall path fs partial,
      Logger._download r path (FetchFailLate partial) now fs
      = (delete path (write path partial now fs), [EvFetch r path; Logger.failed],
         Ret false)).
Proof.
  intros Hnone tmp dst.
  assert (Hne : tmp <> dst) by apply path_join_dot_ne.
  pose proof (rm_download_frame cfg directory r o now s) as F.
  pose proof (rm_download_absent cfg directory r o now s Hnone) as A.
  destruct (ReportManager._download cfg r directory o now s) as [s' ev].
  simpl in F. fold tmp in A. fold dst in A.
  split; [reflexivity|]. split; [exact Hne|].
  assert (Hretry : ReportManager.st_fs s' !! dst = None ->
            (forall o' now', exists rest,
               (ReportManager._download cfg r directory o' now' s').2
               = EvFetch r tmp :: rest)
            /\ (forall now' steps,
                Forall (fun st => (ReportManager.threshold cfg
                                   <= ReportManager.s_free st)%Z) steps ->
                In r (map ReportManager.s_report steps) ->
                (forall r', In r' (map ReportManager.s_report steps) ->
                   ReportManager.tmp_path directory r' <> dst) ->
                exists r' t,
                  In (EvFetch r' t)
                     (ReportManager.download_loop cfg directory now' steps s').1.2
                  /\ ReportManager.dst_path directory r' = dst)).
  { intros Hfree. split.
    - intros o' now'.
      pose proof (rm_download_spec cfg directory r o' now' s') as D.
      destruct (ReportManager._download cfg r directory o' now' s') as [s2 ev2].
      destruct D as (_ & _ & _ & D). exact (D Hfree).
    - intros now' steps Hg Hin Hn. now apply rm_loop_attempts. }
  assert (Hlog1 : forall path fs data,
            Logger._download r path (FetchOk data) now fs
            = (write path data now fs, [EvFetch r path], Ret (nonempty data))).
  { intros path fs data. unfold Logger._download. simpl.
    now rewrite getsize_write, size_positive. }
  assert (Hlog2 : forall path fs partial,
            Logger._download r path (FetchFailLate partial) now fs
            = (delete path (write path partial now fs),
               [EvFetch r path; Logger.failed], Ret false)).
  { intros path fs partial. unfold Logger._download, unlink. simpl.
    now rewrite (proj2 (exists_true _ _))
      by (unfold write; rewrite lookup_insert_eq; eauto). }
  destruct o as [|partial|data]; simpl in A.
  - injection A as -> ->. simpl in *.
    repeat (split; [solve [eauto]|]). auto.
  - injection A as -> ->. simpl in *. unfold write in *.
    split; [eauto|]. split; [now rewrite lookup_insert_ne by exact Hne|].
    split; [now rewrite lookup_insert_eq|].
    repeat (split; [solve [eauto]|]). auto.
  - destruct (nonempty data) eqn:Hd.
    + injection A as -> ->. simpl in *. unfold write in *.
      split; [eauto|]. split; [now rewrite lookup_insert_eq|].
      split; [now rewrite lookup_insert_ne, lookup_delete_eq by auto|].
      repeat (split; [solve [eauto]|]). auto.
    + injection A as -> ->. simpl in *. unfold write in *.
      destruct data; [|discriminate Hd].
      split; [eauto|]. split; [now rewrite lookup_insert_ne by exact Hne|].
      split; [now rewrite lookup_insert_eq|].
      repeat (split; [solve [eauto]|]). auto.
Qed.

Lemma C1_witness :
  let tmp := ReportManager.tmp_path Examples.day_dir Examples.scan in
  let dst := ReportManager.dst_path Examples.day_dir Examples.scan in
  let '(s', ev) :=
    ReportManager._download Examples.manager Examples.scan Examples.day_dir
      (FetchOk "") Examples.noon Examples.fresh_start in
  tmp = "/var/tmp/reports/2023/03/14/.2023-03-15-scan_http-example.csv"
  /\ ReportManager.st_fs s' !! dst = None
  /\ ReportManager.st_fs s' !! tmp = Some (File "" Examples.noon)
  /\ ReportManager.st_count s' = 0.
Proof.
  pose proof (C1_manager_downloads_through_a_temporary_name Examples.manager
                Examples.scan Examples.day_dir (FetchOk "") Examples.noon
                Examples.fresh_start eq_refl) as H.
  simpl in H.
  destruct (ReportManager._download Examples.manager Examples.scan Examples.day_dir
              (FetchOk "") Examples.noon Examples.fresh_start) as [s' ev].
  destruct H as (Ht & _ & _ & Hd & Htmp & _ & Hc & _).
  split; [rewrite Ht; reflexivity|]. split; [exact Hd|]. split; [exact Htmp|exact Hc].
Defined.

(** C1 as stated fails for the loggers: the CEF logger fetches to the
    final path itself, a fetch that delivers no byte leaves the empty file
    there, and the next run, in which the server would deliver the report,
    does not ask for it. *)
Lemma C1_counterexample :
  let path := Examples.feed_path Examples.scan in
  let first :=
    CEF.run Examples.ascii_digit Examples.plain_csv "/state" Examples.cef_table
      "run" Examples.today
      Examples.feed (Examples.serves Examples.scan (FetchOk "") Examples.noon) ∅ in
  let second :=
    CEF.run Examples.ascii_digit Examples.plain_csv "/state" Examples.cef_table
      "run" Examples.today
      Examples.feed
      (Examples.serves Examples.scan (FetchOk Examples.two_rows)
         (Examples.noon + 3600)%Z) first.1.1 in
  first.1.2 = [EvApiCall "reports/list" "2023-03-13:2023-03-16" None;
               EvFetch Examples.scan path]
  /\ first.1.1 !! path = Some (File "" Examples.noon)
  /\ second.1.2 = [EvApiCall "reports/list" "2023-03-13:2023-03-16" None]
  /\ second.1.1 !! path = Some (File "" Examples.noon).
Proof. vm_compute. repeat split; reflexivity. Qed.

(** C3, as amended.  The report manager skips a report whose final path
    exists, whatever the file holds.  Take two successive passes over the
    same date and listing, the second starting from the files the first
    left and with a counter of its own.  A report is fetched in the second
    pass only if nothing was at its final path when the first pass ended;
    so the second pass fetches nothing and changes nothing when every
    listed report is present by then, which is the case when the first
    pass ran to its end and each of its downloads delivered a non-empty
    file.  When the two passes meet the same downloads and the same
    free-space readings, the second adds no file: its counter stays and
    nothing changes but temporary files.  The loop of the CEF logger
    likewise leaves alone every file present when it starts. *)
Theorem C3_present_reports_are_not_downloaded_again
    (cfg : ReportManager.config) (date : string) (now1 now2 : Z)
    (steps1 steps2 : list ReportManager.step) (s0 : ReportManager.state)
    (count : nat) :
  map ReportManager.s_report steps2 = map ReportManager.s_report steps1 ->
  distinct_names (ReportManager.directory_of cfg date)
                 (map ReportManager.s_report steps1) ->
  let directory := ReportManager.directory_of cfg date in
  let '(s1, ev1, out1) :=
    ReportManager._sync cfg date now1 (ReportManager.Reports steps1) s0 in
  let restart := ReportManager.State (ReportManager.st_fs s1) count in
  let '(s2, ev2, out2) :=
    ReportManager._sync cfg date now2 (ReportManager.Reports steps2) restart in
  (forall r o now s,
     is_Some (ReportManager.st_fs s !! ReportManager.dst_path directory r) ->
     ReportManager._download cfg r directory o now s = (s, []))
  /\ (forall r t, In (EvFetch r t) ev2 ->
      ReportManager.st_fs s1 !! ReportManager.dst_path directory r = None)
  /\ (Forall (fun st => is_Some (ReportManager.st_fs s1
                                   !! ReportManager.dst_path directory
                                        (ReportManager.s_report st))) steps1 ->
      s2 = restart /\ Forall (fun e => is_fetch e = false) ev2)
  /\ (out1 = ReportManager.Done ->
      Forall (fun st => delivers (ReportManager.s_net st)) steps1 ->
      s2 = restart /\ Forall (fun e => is_fetch e = false) ev2)
  /\ (steps2 = steps1 ->
      ReportManager.st_count s2 = count
      /\ forall q,
           (forall r, In r (map ReportManager.s_report steps1) ->
              q <> ReportManager.tmp_path directory r) ->
           ReportManager.st_fs s2 !! q = ReportManager.st_fs s1 !! q)
  /\ (forall digit csv mapping types dst device_id now items
             (fs : gmap string file) p,
      is_Some (fs !! p) ->
      let '(fs1, ev, _) :=
        CEF.reports_loop digit csv mapping types dst device_id now items fs in
      fs1 !! p = fs !! p /\ Forall (fun e => touches p e = false) ev).
Proof.
  intros Hsame Hnames directory. unfold ReportManager._sync. fold directory.
  pose proof (rm_loop_spec cfg directory now1 steps1 s0 Hnames) as L1.
  pose proof (rm_same_pass_twice cfg directory now1 now2 steps1 s0 count Hnames) as T.
  destruct (ReportManager.download_loop cfg directory now1 steps1 s0)
    as [[s1 ev1] out1].
  destruct L1 as (_ & _ & L1ok). simpl in T.
  set (restart := ReportManager.State (ReportManager.st_fs s1) count) in *.
  assert (Hnames2 : distinct_names directory (map ReportManager.s_report steps2))
    by (rewrite Hsame; exact Hnames).
  pose proof (rm_loop_spec cfg directory now2 steps2 restart Hnames2) as L2.
  pose proof (rm_loop_all_present cfg directory now2 steps2 restart) as P2.
  destruct (ReportManager.download_loop cfg directory now2 steps2 restart)
    as [[s2 ev2] out2] eqn:E2.
  destruct L2 as (L2ev & _ & _).
  assert (Hpresent :
    Forall (fun st => is_Some (ReportManager.st_fs s1
                                 !! ReportManager.dst_path directory
                                      (ReportManager.s_report st))) steps1 ->
    s2 = restart /\ Forall (fun e => is_fetch e = false)
                           (EvApiCall "reports/list" date None :: ev2)).
  { intros Hall.
    assert (Hall2 : Forall (fun st => is_Some (ReportManager.st_fs restart
                                 !! ReportManager.dst_path directory
                                      (ReportManager.s_report st))) steps2).
    { apply List.Forall_forall. intros st Hst.
      assert (Hr : In (ReportManager.s_report st) (map ReportManager.s_report steps1))
        by (rewrite <- Hsame; now apply in_map).
      apply in_map_iff in Hr as (st' & Heq & Hst').
      rewrite <- Heq. rewrite List.Forall_forall in Hall. now apply Hall. }
    destruct (P2 Hall2) as [-> Hev]. split; [reflexivity|].
    constructor; [reflexivity|exact Hev]. }
  split; [intros r o now s; apply rm_download_present|].
  split.
  { intros r t [H|H]; [discriminate|]. now apply L2ev in H as (_ & _ & H). }
  split; [exact Hpresent|]. split.
  { intros Hout Hdel. apply Hpresent. apply List.Forall_forall. intros st Hst.
    apply L1ok; auto. rewrite List.Forall_forall in Hdel. now apply Hdel. }
  split.
  { intros Heq. subst steps2. rewrite E2 in T. exact T. }
  intros digit csv mapping types dst device_id now items fs p Hp.
  pose proof (cef_reports_loop_spec digit csv mapping types dst device_id now items fs)
    as L.
  destruct (CEF.reports_loop _ _ _ _ _ _ _ _ _) as [[fs1 ev] res].
  destruct L as [Lev Lkeep]. split; [now apply Lkeep|].
  eapply Forall_impl; [exact Lev|]. intros e He.
  eapply loop_event_untouched; eauto.
Qed.

Lemma C3_witness :
  let '(s1, ev1, out1) :=
    ReportManager._sync Examples.manager Examples.day Examples.noon
      (ReportManager.Reports Examples.server_up) Examples.fresh_start in
  let '(s2, ev2, out2) :=
    ReportManager._sync Examples.manager Examples.day (Examples.noon + 3600)%Z
      (ReportManager.Reports Examples.server_up)
      (ReportManager.State (ReportManager.st_fs s1) 0) in
  ReportManager.st_count s1 = 1
  /\ s2 = ReportManager.State (ReportManager.st_fs s1) 0
  /\ Forall (fun e => is_fetch e = false) ev2.
Proof.
  assert (Hnames : distinct_names (ReportManager.directory_of Examples.manager Examples.day)
                     (map ReportManager.s_report Examples.server_up)).
  { intros a b [<-|[]] [<-|[]]. vm_compute. discriminate. }
  assert (Hdel : Forall (fun st => delivers (ReportManager.s_net st)) Examples.server_up).
  { repeat constructor. exists Examples.two_rows. split; reflexivity. }
  pose proof (C3_present_reports_are_not_downloaded_again Examples.manager
                Examples.day Examples.noon (Examples.noon + 3600)%Z
                Examples.server_up Examples.server_up Examples.fresh_start 0
                eq_refl Hnames) as H.
  cbv zeta in H.
  destruct (ReportManager._sync Examples.manager Examples.day Examples.noon
              (ReportManager.Reports Examples.server_up) Examples.fresh_start)
    as [[s1 ev1] out1] eqn:E1.
  destruct (ReportManager._sync Examples.manager Examples.day (Examples.noon + 3600)%Z
              (ReportManager.Reports Examples.server_up)
              (ReportManager.State (ReportManager.st_fs s1) 0))
    as [[s2 ev2] out2].
  destruct H as (_ & _ & _ & H & _).
  assert (Hout : out1 = ReportManager.Done /\ ReportManager.st_count s1 = 1).
  { vm_compute in E1. injection E1 as <- _ <-. split; reflexivity. }
  destruct Hout as [Hout Hc]. destruct (H Hout Hdel) as [Hs Hev].
  split; [exact Hc|]. split; [exact Hs|exact Hev].
Defined.

(** C3 as stated fails.  First, when the first pass delivers nothing (the
    server is down), the second pass of the same listing downloads a new
    file.  Second, also with a server that answers both passes alike: when
    a listed report is named as the temporary file of another, the
    download of the second renames the file of the first away, and the
    second pass downloads the first report once more. *)
Lemma C3_counterexample :
  let first :=
    ReportManager._sync Examples.manager Examples.day Examples.noon
      (ReportManager.Reports Examples.server_down) Examples.fresh_start in
  let second :=
    ReportManager._sync Examples.manager Examples.day (Examples.noon + 3600)%Z
      (ReportManager.Reports Examples.server_up) first.1.1 in
  let once :=
    ReportManager._sync Examples.manager Examples.day Examples.noon
      (ReportManager.Reports Examples.clashing_names) Examples.fresh_start in
  let twice :=
    ReportManager._sync Examples.manager Examples.day (Examples.noon + 3600)%Z
      (ReportManager.Reports Examples.clashing_names) once.1.1 in
  map ReportManager.s_report Examples.server_up
  = map ReportManager.s_report Examples.server_down
  /\ ReportManager.st_count first.1.1 = 0
  /\ second.1.2
     = [EvApiCall "reports/list" "2023-03-14" None;
        EvFetch Examples.scan (ReportManager.tmp_path Examples.day_dir Examples.scan)]
  /\ ReportManager.st_count second.1.1 = 1
  /\ ReportManager.st_fs second.1.1
       !! ReportManager.dst_path Examples.day_dir Examples.scan
     = Some (File Examples.two_rows (Examples.noon + 3600)%Z)
  /\ ReportManager.st_count once.1.1 = 2
  /\ ReportManager.st_fs once.1.1
       !! ReportManager.dst_path Examples.day_dir Examples.dotted = None
  /\ twice.1.2
     = [EvApiCall "reports/list" "2023-03-14" None;
        EvFetch Examples.dotted
          (ReportManager.tmp_path Examples.day_dir Examples.dotted)]
  /\ ReportManager.st_count twice.1.1 = 3
  /\ ReportManager.st_fs twice.1.1
       !! ReportManager.dst_path Examples.day_dir Examples.dotted
     = Some (File Examples.two_rows (Examples.noon + 3600)%Z).
Proof. vm_compute. repeat split; reflexivity. Qed.

(** * Further properties of the code *)

(** ** The flat encoding *)

Lemma strip_prefix_spec (p s r : string) :
  strip_prefix p s = Some r <-> s = p +:+ r.
Proof.
  revert s. induction p as [|a p IH]; intros s; simpl.
  - split; [now intros [= ->]|now intros ->].
  - destruct s as [|b s]; [split; discriminate|].
    destruct (Ascii.eqb_spec a b) as [->|Hne].
    + rewrite IH. split; [now intros ->|now intros [= ->]].
    + split; [discriminate|]. intros [= -> _]. now contradiction Hne.
Qed.

Lemma chomp_spec (s r : string) :
  chomp s = Some r <-> s = r +:+ String "010" "".
Proof.
  revert r. induction s as [|c s IH]; intros r.
  - split; [discriminate|]. destruct r; discriminate.
  - destruct s as [|c' s].
    + simpl. destruct (Ascii.eqb_spec c "010"%char) as [->|Hne].
      * split; [now intros [= <-]|]. destruct r as [|x [|y r]]; try discriminate.
        reflexivity.
      * split; [discriminate|]. destruct r as [|x [|y r]]; try discriminate.
        intros [= ->]. now contradiction Hne.
    + change (chomp (String c (String c' s)))
        with (option_map (String c) (chomp (String c' s))).
      destruct (chomp (String c' s)) as [t|] eqn:E; simpl.
      * pose proof (proj1 (IH t) eq_refl) as Hs. split.
        -- intros [= <-]. simpl. now rewrite Hs.
        -- destruct r as [|x r]; [discriminate|]. simpl. intros [= -> H].
           apply IH in H. congruence.
      * split; [discriminate|]. destruct r as [|x r]; [discriminate|].
        simpl. intros [= -> H]. apply IH in H. discriminate.
Qed.

Lemma digit_then_end_spec (digit : string -> bool) (s : string) :
  CEF.digit_then_end digit s = true <->
  exists d, digit d = true /\ (s = d \/ s = d +:+ String "010" "").
Proof.
  unfold CEF.digit_then_end. rewrite orb_true_iff. split.
  - intros [H|H]; [eauto|].
    destruct (chomp s) as [d|] eqn:E; [|discriminate].
    apply chomp_spec in E. eauto.
  - intros (d & Hd & [-> | ->]); [now left|]. right.
    now rewrite (proj2 (chomp_spec _ d) eq_refl).
Qed.

Lemma is_custom_key_spec (digit : string -> bool) (cef : string) :
  CEF.is_custom_key digit cef = true <->
  exists p d, In p CEF.custom_prefixes /\ digit d = true
              /\ (cef = p +:+ d \/ cef = p +:+ d +:+ String "010" "").
Proof.
  unfold CEF.is_custom_key. rewrite existsb_exists. split.
  - intros (p & Hp & H). destruct (strip_prefix p cef) as [rest|] eqn:E; [|discriminate].
    apply strip_prefix_spec in E. apply digit_then_end_spec in H as (d & Hd & Hr).
    exists p, d. split; [exact Hp|]. split; [exact Hd|].
    destruct Hr as [-> | ->]; auto.
  - intros (p & d & Hp & Hd & Hc). exists p. split; [exact Hp|].
    destruct Hc as [-> | ->].
    + rewrite (proj2 (strip_prefix_spec p _ d) eq_refl).
      apply digit_then_end_spec. eauto.
    + rewrite (proj2 (strip_prefix_spec p _ (d +:+ String "010" "")) eq_refl).
      apply digit_then_end_spec. eauto.
Qed.

(** X1.  The severity code of a row is one of the five codes of the table;
    it is [0] when the row has no [severity] column, when the line ends
    before that column, and when the value of the column is none of [low],
    [medium], [high], [critical] (the comparison is exact: case
    matters). *)
Theorem X1_severity_codes (r : row) :
  In (CEF.cef_severity r) ["0"; "1"; "5"; "8"; "10"]
  /\ (Logger.row_get "severity" r = None -> CEF.cef_severity r = "0")
  /\ (Logger.row_get "severity" r = Some None -> CEF.cef_severity r = "0")
  /\ (forall v, Logger.row_get "severity" r = Some (Some v) ->
      ~ In v ["low"; "medium"; "high"; "critical"] ->
      CEF.cef_severity r = "0").
Proof.
  unfold CEF.cef_severity.
  destruct (Logger.row_get "severity" r) as [[v|]|]; [|simpl; auto 7..].
  assert (H : forall v,
             (In v ["low"; "medium"; "high"; "critical"]
              /\ In (default "0" (CEF.severity_code v)) ["1"; "5"; "8"; "10"])
             \/ (~ In v ["low"; "medium"; "high"; "critical"]
                 /\ default "0" (CEF.severity_code v) = "0")).
  { intros w. unfold CEF.severity_code, CEF.severities. cbn [find fst].
    destruct (String.eqb_spec "info" w) as [<-|H1];
      [right; split; [|reflexivity]; intros [|[|[|[|[]]]]]; discriminate|].
    destruct (String.eqb_spec "low" w) as [<-|H2]; [left; simpl; auto|].
    destruct (String.eqb_spec "medium" w) as [<-|H3]; [left; simpl; auto|].
    destruct (String.eqb_spec "high" w) as [<-|H4]; [left; simpl; auto 6|].
    destruct (String.eqb_spec "critical" w) as [<-|H5]; [left; simpl; auto 7|].
    right. split; [|reflexivity]. intros [|[|[|[|[]]]]]; congruence. }
  destruct (H v) as [[Hin Hc]|[Hn Hz]].
  - split; [now right|]. split; [discriminate|]. split; [discriminate|].
    intros w [= <-] Hw. contradiction.
  - split; [rewrite Hz; now left|]. split; [discriminate|]. split; [discriminate|].
    intros w [= <-] _. exact Hz.
Qed.

Lemma X1_witness :
  CEF.cef_severity [Column "ip" (Some "192.0.2.7"); Column "severity" (Some "High")]
  = "0".
Proof.
  refine (proj2 (proj2 (proj2 (X1_severity_codes
            [Column "ip" (Some "192.0.2.7"); Column "severity" (Some "High")])))
            "High" eq_refl _).
  intros [H|[H|[H|[H|[]]]]]; discriminate H.
Defined.

(** X2.  A column that is in the table and whose value is not the empty
    string adds [key=value] to the line, and after it the companion
    [<key>Label:<column>] exactly when the key is one of the seven prefixes
    [c6a], [cfp], [cn], [cs], [deviceCustomDate], [flexDate], [flexString]
    followed by one decimal digit and nothing else, or by one digit and a
    final newline.  What counts as a digit is for [\d] to say. *)
Theorem X2_custom_keys (digit : string -> bool) (mapping : gmap string string)
    (field cef : string) (value : option string) :
  not_blank value = true ->
  mapping !! field = Some cef ->
  let custom :=
    exists p d, In p CEF.custom_prefixes /\ digit d = true
                /\ (cef = p +:+ d \/ cef = p +:+ d +:+ String "010" "") in
  (custom ->
   CEF.field_parts digit mapping (Column field value)
   = [cef +:+ "=" +:+ CEF.cell_text value; cef +:+ "Label:" +:+ field])
  /\ (~ custom ->
      CEF.field_parts digit mapping (Column field value)
      = [cef +:+ "=" +:+ CEF.cell_text value])
  /\ CEF.custom_prefixes
     = ["c6a"; "cfp"; "cn"; "cs"; "deviceCustomDate"; "flexDate"; "flexString"].
Proof.
  intros Hv Hm custom. unfold CEF.field_parts. rewrite Hv, Hm.
  pose proof (is_custom_key_spec digit cef) as K. fold custom in K.
  split; [|split; [|reflexivity]].
  - intros Hc. now rewrite (proj2 K Hc).
  - intros Hc. destruct (CEF.is_custom_key digit cef); [|reflexivity].
    now contradiction Hc; apply K.
Qed.

Lemma X2_witness :
  CEF.field_parts Examples.ascii_digit Examples.cef_table_scan (Column "tag" (Some "x"))
  = ["cs1=x"; "cs1Label:tag"]
  /\ CEF.field_parts Examples.ascii_digit Examples.cef_table_scan
       (Column "ip" (Some "192.0.2.7"))
     = ["src=192.0.2.7"].
Proof.
  split.
  - apply (proj1 (X2_custom_keys Examples.ascii_digit Examples.cef_table_scan
                    "tag" "cs1" (Some "x") eq_refl eq_refl)).
    exists "cs", "1". split; [simpl; auto|]. split; [reflexivity|now left].
  - apply (proj1 (proj2 (X2_custom_keys Examples.ascii_digit Examples.cef_table_scan
                           "ip" "src" (Some "192.0.2.7") eq_refl eq_refl))).
    intros (p & d & Hp & _ & Hc). simpl in Hp.
    destruct Hp as [<-|[<-|[<-|[<-|[<-|[<-|[<-|[]]]]]]]];
      destruct Hc as [Hc|Hc]; discriminate Hc.
Defined.

(** X3.  In the CEF logger, when the header of the downloaded report has no
    [timestamp] column (no row has the key) and the report has a row, the
    step raises [KeyError] at the first row, after the download: nothing is
    logged and the file keeps its full content (it is not truncated).
    When the first line ends before the [timestamp] column, the step
    raises [AttributeError] in the same way. *)
Theorem X3_row_without_timestamp_aborts
    (digit : string -> bool) (csv : string -> list row * option string)
    (mapping : gmap string (gmap string string)) (types : option (list string))
    (dst device_id : string) (now : Z) (r : report) (data : string)
    (fs : gmap string file) :
  Logger.filtered_out types r = false ->
  fs !! path_join dst (r_file r) = None ->
  is_Some (mapping !! r_type r) ->
  nonempty data = true ->
  let path := path_join dst (r_file r) in
  let aborts (exn : string) :=
    CEF.report_step digit csv mapping types dst device_id now r (FetchOk data) fs
    = (write path data now fs, [EvFetch r path; EvTransform r path], Raise exn) in
  ((csv data).1 <> [] ->
   Forall (fun row => Logger.row_get "timestamp" row = None) (csv data).1 ->
   aborts "KeyError")
  /\ (forall row rest, (csv data).1 = row :: rest ->
      Logger.row_get "timestamp" row = Some None ->
      aborts "AttributeError").
Proof.
  intros Hf Hnone [m Hm] Hd path aborts.
  assert (Hstep : forall row rest exn,
            (csv data).1 = row :: rest ->
            CEF.row_line digit m device_id (r_type r) row = Raise exn ->
            aborts exn).
  { intros row rest exn Hrows Hline. unfold aborts, path, CEF.report_step.
    rewrite Hf, (proj2 (exists_false _ _) Hnone), Hm. simpl.
    unfold Logger._download. simpl. rewrite getsize_write, size_positive, Hd.
    unfold CEF._stream_events. unfold write at 1. rewrite lookup_insert_eq, Hm. simpl.
    rewrite Hrows. simpl. now rewrite Hline. }
  split.
  - intros Hrows Hall. destruct (csv data).1 as [|row rest] eqn:E; [congruence|].
    apply (Hstep row rest); [reflexivity|]. unfold CEF.row_line.
    inversion Hall as [|? ? Hrow _]; subst. now rewrite Hrow.
  - intros row rest Hrows Hrow. apply (Hstep row rest _ Hrows).
    unfold CEF.row_line. now rewrite Hrow.
Qed.

Lemma X3_witness :
  CEF.report_step Examples.ascii_digit Examples.plain_csv Examples.cef_table None
    "/state/feed" "100" Examples.noon Examples.scan
    (FetchOk MoreExamples.csv_without_timestamp) ∅
  = (write (path_join "/state/feed" (r_file Examples.scan))
       MoreExamples.csv_without_timestamp Examples.noon ∅,
     [EvFetch Examples.scan (path_join "/state/feed" (r_file Examples.scan));
      EvTransform Examples.scan (path_join "/state/feed" (r_file Examples.scan))],
     Raise "KeyError").
Proof.
  apply (proj1 (X3_row_without_timestamp_aborts Examples.ascii_digit Examples.plain_csv
                  Examples.cef_table None "/state/feed" "100" Examples.noon
                  Examples.scan MoreExamples.csv_without_timestamp ∅
                  eq_refl (lookup_empty _) (ltac:(vm_compute; eauto)) eq_refl)).
  - vm_compute. discriminate.
  - vm_compute. repeat constructor.
Defined.

(** ** The structured encoding *)

Lemma replace_char_length (a b : ascii) (s : string) :
  String.length (replace_char a b s) = String.length s.
Proof. induction s as [|c s IH]; simpl; [reflexivity|now rewrite IH]. Qed.

Lemma replace_char_removes (a b : ascii) (s : string) :
  a <> b -> count_char (is_char a) (replace_char a b s) = 0.
Proof.
  intros Hab. induction s as [|c s IH]; simpl; [reflexivity|].
  rewrite IH. unfold is_char.
  destruct (Ascii.eqb_spec c a) as [->|Hc].
  - now rewrite (proj2 (Ascii.eqb_neq a b) Hab).
  - rewrite (proj2 (Ascii.eqb_neq a c)); [reflexivity|congruence].
Qed.

Lemma replace_char_absent (a b : ascii) (s : string) :
  count_char (is_char a) s = 0 -> replace_char a b s = s.
Proof.
  induction s as [|c s IH]; simpl; [reflexivity|]. unfold is_char at 1.
  rewrite Ascii.eqb_sym. destruct (Ascii.eqb c a); [discriminate|].
  simpl. intros H. now rewrite IH.
Qed.

Lemma count_char_append (p : ascii -> bool) (s t : string) :
  count_char p (s +:+ t) = count_char p s + count_char p t.
Proof. induction s as [|c s IH]; simpl; [reflexivity|rewrite IH; lia]. Qed.

Lemma ends_with_char_append (c : ascii) (s : string) :
  ends_with_char c (s +:+ String c "") = true.
Proof.
  induction s as [|x s IH]; simpl; [apply Ascii.eqb_refl|].
  destruct (s +:+ String c "") eqn:E; [destruct s; discriminate E|exact IH].
Qed.

(** X4.  A field with a non-empty value whose target is [&timestamp] sets
    the key [timestamp], and nothing else, to the value with every space
    replaced by [T] and a [Z] appended: the stored text has no space, ends
    in [Z] and is one character longer than the value; a value without
    spaces is only suffixed.  Where the line ends before the column, the
    step raises [AttributeError]. *)
Theorem X4_timestamp_directive
    (mapping : gmap string string) (rtype field value : string)
    (event : gmap string val) :
  nonempty value = true ->
  ECS.resolve mapping rtype field = "&timestamp" ->
  (exists s,
     ECS.field_step mapping rtype event (Column field (Some value))
     = Ret (<["timestamp" := VStr s]> event)
     /\ s = replace_char " " "T" value +:+ "Z"
     /\ count_char (is_char " ") s = 0
     /\ String.length s = S (String.length value)
     /\ ends_with_char "Z" s = true
     /\ (count_char (is_char " ") value = 0 -> s = value +:+ "Z"))
  /\ ECS.field_step mapping rtype event (Column field None) = Raise "AttributeError".
Proof.
  intros Hv Hr. split.
  - exists (replace_char " " "T" value +:+ "Z").
    split; [unfold ECS.field_step; simpl; rewrite Hv, Hr; reflexivity|].
    split; [reflexivity|]. split.
    { rewrite count_char_append, replace_char_removes by discriminate. reflexivity. }
    split; [rewrite length_append, replace_char_length; simpl; lia|].
    split; [apply ends_with_char_append|].
    intros H. now rewrite replace_char_absent.
  - unfold ECS.field_step. simpl. rewrite Hr. reflexivity.
Qed.

Lemma X4_witness :
  exists s,
    ECS.field_step (list_to_map [("timestamp", "&timestamp")]) "scan_http" ∅
      (Column "timestamp" (Some "2023-03-15 00:00:01"))
    = Ret (<["timestamp" := VStr s]> ∅)
    /\ s = "2023-03-15T00:00:01Z".
Proof.
  assert (Hr : ECS.resolve (list_to_map [("timestamp", "&timestamp")]) "scan_http"
                 "timestamp" = "&timestamp") by (vm_compute; reflexivity).
  destruct (proj1 (X4_timestamp_directive (list_to_map [("timestamp", "&timestamp")])
                     "scan_http" "timestamp" "2023-03-15 00:00:01" ∅ eq_refl Hr))
    as (s & Hs & Heq & _).
  exists s. split; [exact Hs|]. rewrite Heq. reflexivity.
Defined.

Lemma field_step_empty (mapping : gmap string string) (rtype field : string)
    (event : gmap string val) :
  ECS.field_step mapping rtype event (Column field (Some "")) = Ret event.
Proof. reflexivity. Qed.

Lemma fields_loop_skips_empty (mapping : gmap string string) (rtype : string)
    (r : row) (event : gmap string val) :
  ECS.fields_loop mapping rtype r event
  = ECS.fields_loop mapping rtype (List.filter (fun e => negb (blank e)) r) event.
Proof.
  revert event. induction r as [|e r IH]; intros event; [reflexivity|].
  simpl. destruct (blank e) eqn:B; simpl.
  - destruct e as [field value|cells]; [|discriminate B]. simpl in B.
    unfold ECS.field_step. apply negb_true_iff in B. rewrite B. apply IH.
  - destruct (ECS.field_step mapping rtype event e); [apply IH|reflexivity].
Qed.

(** X5.  Cells with an empty value contribute nothing: the event made for
    a row is the event made for the row without its empty cells, so a row
    of empty cells only gives the dataset tag, whatever the table says.
    Every event that is made carries [data_stream.dataset] equal to the
    report type, also when a field of the row is mapped to that key. *)
Theorem X5_empty_cells_and_dataset_tag
    (mapping : gmap string string) (rtype : string) (r : row) :
  ECS.row_event mapping rtype r
  = ECS.row_event mapping rtype (List.filter (fun e => negb (blank e)) r)
  /\ (Forall (fun e => exists field, e = Column field (Some "")) r ->
      ECS.row_event mapping rtype r
      = Ret {["data_stream.dataset" := VStr rtype]})
  /\ (forall event, ECS.row_event mapping rtype r = Ret event ->
      event !! "data_stream.dataset" = Some (VStr rtype)).
Proof.
  split; [unfold ECS.row_event; now rewrite fields_loop_skips_empty|].
  split.
  - intros Hall. unfold ECS.row_event. rewrite fields_loop_skips_empty.
    replace (List.filter (fun e => negb (blank e)) r) with (@nil entry).
    + reflexivity.
    + induction Hall as [|e r [field ->] Hrow IH]; [reflexivity|exact IH].
  - intros event. unfold ECS.row_event.
    destruct (ECS.fields_loop mapping rtype r ∅); [|discriminate].
    intros [= <-]. apply lookup_insert_eq.
Qed.

Lemma X5_witness :
  ECS.row_event MoreExamples.tags_with_arguments "scan_http"
    [Column "tag" (Some ""); Column "ip" (Some "")]
  = Ret {["data_stream.dataset" := VStr "scan_http"]}.
Proof.
  apply (X5_empty_cells_and_dataset_tag MoreExamples.tags_with_arguments "scan_http"
           [Column "tag" (Some ""); Column "ip" (Some "")]).
  repeat constructor; eexists; reflexivity.
Defined.

Lemma call_with_args_raises (mapped : string) (f : ECS.func) (event : gmap string val)
    (field : string) (value : option string) (args : list string) (a : string * string)
    (exn : string) :
  ECS.match_call mapped = Some a ->
  ECS.call_with_args f event field value args = Raise exn <->
  misuse mapped f value = Some exn.
Proof.
  intros Hm. unfold misuse, wrong_form. rewrite Hm.
  destruct f; simpl; split; try discriminate; try (intros [= <-]; reflexivity).
Qed.

Lemma call_plain_raises (mapped : string) (f : ECS.func) (event : gmap string val)
    (field : string) (value : option string) (exn : string) :
  ECS.match_call mapped = None ->
  ECS.call_plain f event field value = Raise exn <->
  misuse mapped f value = Some exn.
Proof.
  intros Hm. unfold misuse, wrong_form. rewrite Hm.
  destruct f, value; simpl; split; try discriminate;
    try (intros [= <-]; reflexivity).
Qed.

(** X6.  When the step for one item of a row raises.  At the key [None] of
    a line with surplus cells it raises [TypeError].  For a column it
    raises exactly when the value is not the empty string, the target
    names a registered function, and either the target has the call form
    that does not fit the function ([timestamp] or [tags] written with an
    argument list, [labels] written without one: [TypeError]), or the line
    ends before the column and the target is [&timestamp]
    ([AttributeError]) or [&tags] ([TypeError]).  The loop over the row
    stops there, and the row is not logged. *)
Theorem X6_when_the_transformer_raises
    (reserved : string -> bool) (mapping : gmap string string) (rtype : string)
    (e : entry) (event : gmap string val) (exn : string) :
  (ECS.field_step mapping rtype event e = Raise exn <->
   match e with
   | Rest _ => exn = "TypeError"
   | Column field value =>
       not_blank value = true
       /\ exists name f,
            ECS.directive_name (ECS.resolve mapping rtype field) = Some name
            /\ ECS.functions !! name = Some f
            /\ misuse (ECS.resolve mapping rtype field) f value = Some exn
   end)
  /\ (ECS.field_step mapping rtype event e = Raise exn ->
      forall rest, ECS.fields_loop mapping rtype (e :: rest) event = Raise exn)
  /\ (ECS.field_step mapping rtype ∅ e = Raise exn ->
      forall rest rows stop,
        ECS.rows_loop reserved mapping rtype ((e :: rest) :: rows) stop
        = ([], Raise exn)).
Proof.
  split; [|split].
  - destruct e as [field value|cells]; simpl; [|split; [now intros [= <-]|now intros ->]].
    unfold ECS.directive_name.
    destruct (not_blank value); [|split; [discriminate|intros [? _]; discriminate]].
    destruct (ECS.match_call (ECS.resolve mapping rtype field)) as [[func args]|] eqn:Hm.
    + destruct (ECS.functions !! func) as [f|] eqn:Hf.
      * rewrite (call_with_args_raises _ f event field value _ _ exn Hm). split.
        -- intros H. split; [reflexivity|]. exists func, f. auto.
        -- intros (_ & name & f' & [= <-] & Hf' & H). congruence.
      * split; [discriminate|]. intros (_ & name & f' & [= <-] & Hf' & _). congruence.
    + destruct (ECS.match_bare (ECS.resolve mapping rtype field)) as [func|].
      * destruct (ECS.functions !! func) as [f|] eqn:Hf.
        -- rewrite (call_plain_raises _ f event field value exn Hm). split.
           ++ intros H. split; [reflexivity|]. exists func, f. auto.
           ++ intros (_ & name & f' & [= <-] & Hf' & H). congruence.
        -- split; [discriminate|].
           intros (_ & name & f' & [= <-] & Hf' & _). congruence.
      * split; [discriminate|]. intros (_ & name & f' & H & _). discriminate.
  - intros He rest. simpl. now rewrite He.
  - intros He rest rows stop. simpl. unfold ECS.row_event. simpl. now rewrite He.
Qed.

Lemma X6_witness :
  ECS.fields_loop MoreExamples.tags_with_arguments "scan_http"
    [Column "tag" (Some "a,b"); Column "ip" (Some "192.0.2.7")] ∅
  = Raise "TypeError"
  /\ ECS.fields_loop (list_to_map [("tag", "&tags")]) "scan_http"
       [Column "ip" (Some "192.0.2.7"); Column "tag" None] ∅
     = Raise "TypeError"
  /\ ECS.fields_loop ∅ "scan_http" [Rest ["x"]; Column "ip" (Some "192.0.2.7")] ∅
     = Raise "TypeError".
Proof.
  split; [|split].
  - apply (proj1 (proj2 (X6_when_the_transformer_raises Examples.reserved
                           MoreExamples.tags_with_arguments "scan_http"
                           (Column "tag" (Some "a,b")) ∅ "TypeError"))).
    vm_compute. reflexivity.
  - change (ECS.fields_loop (list_to_map [("tag", "&tags")]) "scan_http"
              [Column "tag" None] (<["extra.ip" := VStr "192.0.2.7"]> ∅)
            = Raise "TypeError").
    apply (proj1 (proj2 (X6_when_the_transformer_raises Examples.reserved
                           (list_to_map [("tag", "&tags")]) "scan_http"
                           (Column "tag" None) (<["extra.ip" := VStr "192.0.2.7"]> ∅)
                           "TypeError"))).
    apply (proj2 (proj1 (X6_when_the_transformer_raises Examples.reserved
                           (list_to_map [("tag", "&tags")]) "scan_http"
                           (Column "tag" None) (<["extra.ip" := VStr "192.0.2.7"]> ∅)
                           "TypeError"))).
    split; [reflexivity|]. exists "tags", ECS.FTags. repeat split; reflexivity.
  - apply (proj1 (proj2 (X6_when_the_transformer_raises Examples.reserved ∅ "scan_http"
                           (Rest ["x"]) ∅ "TypeError"))).
    reflexivity.
Defined.

(** X7.  [set_labels] changes no key other than [labels].  Labels add up:
    on an event without labels, two calls leave the dictionary holding
    both keys (only the first argument of each directive is the key, and
    for equal keys the later value stays).  When the event holds something
    else than a dictionary under [labels], or the argument list is empty,
    the call changes nothing and raises nothing. *)
Theorem X7_labels_accumulate
    (event : gmap string val) (field : string) (value : option string)
    (args : list string) :
  (forall k, k <> "labels" ->
     ECS.set_labels event field value args !! k = event !! k)
  /\ (forall s, event !! "labels" = Some (VStr s) ->
      ECS.set_labels event field value args = event)
  /\ (forall l, event !! "labels" = Some (VList l) ->
      ECS.set_labels event field value args = event)
  /\ (event !! "labels" = Some VNone ->
      ECS.set_labels event field value args = event)
  /\ (is_Some (event !! "labels") -> ECS.set_labels event field value [] = event)
  /\ (event !! "labels" = None ->
      forall key rest field' value' key' rest',
        args = key :: rest ->
        ECS.set_labels (ECS.set_labels event field value args) field' value'
                       (key' :: rest')
        = <["labels" := VDict (<[key' := value']> {[key := value]})]> event).
Proof.
  split.
  { intros k Hk. unfold ECS.set_labels.
    destruct (bool_decide (is_Some (event !! "labels"))); destruct args as [|key rest];
      rewrite ?lookup_insert_ne by congruence; try reflexivity.
    - destruct (event !! "labels") as [[s|l|d| ]|]; try reflexivity.
      now rewrite lookup_insert_ne by congruence.
    - rewrite lookup_insert_eq. now rewrite !lookup_insert_ne by congruence. }
  split; [intros s Hs; now apply (set_labels_other _ _ _ _ (VStr s))|].
  split; [intros l Hl; now apply (set_labels_other _ _ _ _ (VList l))|].
  split; [intros Hn; now apply (set_labels_other _ _ _ _ VNone)|].
  split.
  { intros Hs. unfold ECS.set_labels. now rewrite bool_decide_eq_true_2 by exact Hs. }
  intros Hnone key rest field' value' key' rest' ->.
  rewrite (set_labels_fresh event field value key rest Hnone).
  rewrite (set_labels_more _ field' value' key' rest' {[key := value]})
    by apply lookup_insert_eq.
  now rewrite insert_insert_eq.
Qed.

Lemma X7_witness :
  ECS.fields_loop
    (list_to_map [("family", "&labels(category)"); ("naics", "&labels(sector,x)")])
    "scan_http" [Column "family" (Some "malware"); Column "naics" (Some "541512")] ∅
  = Ret (<["labels" := VDict (<["sector" := Some "541512"]>
                               {["category" := Some "malware"]})]> ∅).
Proof.
  pose proof (proj2 (proj2 (proj2 (proj2 (proj2
                (X7_labels_accumulate ∅ "family" (Some "malware") ["category"])))))
                (lookup_empty _) "category" [] "naics" (Some "541512") "sector" ["x"]
                eq_refl)
    as H.
  vm_compute. vm_compute in H. exact (f_equal Ret H).
Defined.

(** ** Expiry and the life of a checkpoint file *)

Lemma sweep_lookup (dst : string) (now : Z) (fs : gmap string file) (p : string) :
  Logger.sweep dst now fs !! p =
    match fs !! p with
    | Some f => if in_dir dst p && Logger.expired now f then None else Some f
    | None => None
    end.
Proof.
  unfold Logger.sweep. destruct (fs !! p) as [f|] eqn:E.
  - destruct (in_dir dst p && Logger.expired now f) eqn:B.
    + apply map_lookup_filter_None_2. right. intros x Hx. simpl.
      assert (x = f) as -> by congruence. rewrite B. discriminate.
    + apply map_lookup_filter_Some_2; [exact E|exact B].
  - apply map_lookup_filter_None_2. now left.
Qed.

(** X8.  The expiry loop removes exactly the regular files directly in the
    section's directory whose age exceeds seven days; a file aged seven
    days to the second stays, files elsewhere stay, and running the loop
    again at the same time removes nothing more. *)
Theorem X8_expiry_loop (dst : string) (now : Z) (fs : gmap string file) (p : string) :
  Logger.sweep dst now fs !! p =
    match fs !! p with
    | Some f =>
        if in_dir dst p && (604800 <? now - mtime f)%Z then None else Some f
    | None => None
    end
  /\ Logger.sweep dst now (Logger.sweep dst now fs) = Logger.sweep dst now fs.
Proof.
  split; [apply sweep_lookup|].
  apply map_eq. intros q. rewrite (sweep_lookup dst now (Logger.sweep dst now fs)).
  rewrite (sweep_lookup dst now fs).
  destruct (fs !! q) as [f|]; [|reflexivity].
  destruct (in_dir dst q && Logger.expired now f) eqn:B; [reflexivity|].
  now rewrite B.
Qed.

Lemma append_assoc (a b c : string) : (a +:+ b) +:+ c = a +:+ (b +:+ c).
Proof.
  induction a as [|x a IH]; [reflexivity|].
  change (String x ((a +:+ b) +:+ c) = String x (a +:+ (b +:+ c))). now f_equal.
Qed.

(** The path of a report with a plain file name is a directory entry of
    the section's directory. *)
Lemma in_dir_join (dst name : string) :
  nonempty name = true ->
  existsb (Ascii.eqb "/") (list_ascii_of_string name) = false ->
  in_dir dst (path_join dst name) = true.
Proof.
  intros Hn Hs. unfold in_dir, path_join.
  assert (Hstart : starts_with_char "/" name = false).
  { destruct name as [|c name]; [reflexivity|]. simpl in *.
    apply orb_false_iff in Hs as [Hc _]. now rewrite Ascii.eqb_sym. }
  rewrite Hstart.
  destruct (negb (nonempty dst) || ends_with_char "/" dst).
  - rewrite (proj2 (strip_prefix_spec dst _ name) eq_refl). now rewrite Hn, Hs.
  - rewrite (proj2 (strip_prefix_spec (dst +:+ "/") _ name))
      by (now rewrite append_assoc).
    now rewrite Hn, Hs.
Qed.

Lemma ecs_step_success reserved csv mapping (types : option (list string)) (dst : string)
    (now : Z) (r : report) (data : string) (fs : gmap string file) :
  Logger.filtered_out types r = false ->
  fs !! path_join dst (r_file r) = None ->
  nonempty data = true ->
  ECS.report_step reserved csv mapping types dst now r (FetchOk data) fs
  = let path := path_join dst (r_file r) in
    let '(ev, res) :=
      ECS.rows_loop reserved mapping (r_type r) (csv data).1 (csv data).2 in
    match res with
    | Ret _ => (truncate path now (write path data now fs),
                EvFetch r path :: EvTransform r path :: ev ++ [EvPrint "INFO: Processed"],
                Ret ())
    | Raise e => (write path data now fs,
                  EvFetch r path :: EvTransform r path :: ev, Raise e)
    end.
Proof.
  intros Hf Hnone Hd. unfold ECS.report_step.
  rewrite Hf, (proj2 (exists_false _ _) Hnone).
  unfold Logger._download. simpl. rewrite getsize_write, size_positive, Hd.
  unfold ECS._stream_events. unfold write at 1. rewrite lookup_insert_eq. simpl.
  destruct (ECS.rows_loop reserved mapping (r_type r) (csv data).1 (csv data).2)
    as [ev [u|e]]; reflexivity.
Qed.

Lemma cef_step_success digit csv mapping (types : option (list string))
    (dst device_id : string) (now : Z) (r : report) (data : string)
    (fs : gmap string file) (m : gmap string string) :
  Logger.filtered_out types r = false ->
  fs !! path_join dst (r_file r) = None ->
  mapping !! r_type r = Some m ->
  nonempty data = true ->
  CEF.report_step digit csv mapping types dst device_id now r (FetchOk data) fs
  = let path := path_join dst (r_file r) in
    let '(ev, res) :=
      CEF.rows_loop digit m device_id (r_type r) (csv data).1 (csv data).2 in
    match res with
    | Ret _ => (truncate path now (write path data now fs),
                EvFetch r path :: EvTransform r path :: ev ++ [EvPrint "INFO: Processed"],
                Ret ())
    | Raise e => (write path data now fs,
                  EvFetch r path :: EvTransform r path :: ev, Raise e)
    end.
Proof.
  intros Hf Hnone Hm Hd. unfold CEF.report_step.
  rewrite Hf, (proj2 (exists_false _ _) Hnone), Hm. simpl.
  unfold Logger._download. simpl. rewrite getsize_write, size_positive, Hd.
  unfold CEF._stream_events. unfold write at 1. rewrite lookup_insert_eq, Hm. simpl.
  destruct (CEF.rows_loop digit m device_id (r_type r) (csv data).1 (csv data).2)
    as [ev [u|e]]; reflexivity.
Qed.

(** X9.  The life of a checkpoint file, in both loggers.  After a report
    is downloaded (non-empty) and all its rows are transformed, its file
    is there with size zero and the time of the step, and no other file
    has changed.  For a plain file name, an expiry loop of the section
    that runs up to seven days later keeps the file; one that runs later
    than that removes it, after which the path is free again. *)
Theorem X9_checkpoint_life
    (digit reserved : string -> bool)
    (csv : string -> list row * option string)
    (cef_mapping : gmap string (gmap string string))
    (ecs_mapping : gmap string string) (types : option (list string))
    (dst device_id : string) (now later : Z) (r : report) (data : string)
    (fs : gmap string file) (m : gmap string string) :
  Logger.filtered_out types r = false ->
  fs !! path_join dst (r_file r) = None ->
  nonempty data = true ->
  nonempty (r_file r) = true ->
  existsb (Ascii.eqb "/") (list_ascii_of_string (r_file r)) = false ->
  let path := path_join dst (r_file r) in
  let after (fs' : gmap string file) :=
    fs' !! path = Some (File "" now)
    /\ (forall q, q <> path -> fs' !! q = fs !! q)
    /\ ((later - now <= 604800)%Z ->
        Logger.sweep dst later fs' !! path = Some (File "" now))
    /\ ((604800 < later - now)%Z -> Logger.sweep dst later fs' !! path = None) in
  ((ECS.rows_loop reserved ecs_mapping (r_type r) (csv data).1 (csv data).2).2 = Ret () ->
   exists ev,
     ECS.report_step reserved csv ecs_mapping types dst now r (FetchOk data) fs
     = (truncate path now (write path data now fs), ev, Ret ())
     /\ after (truncate path now (write path data now fs)))
  /\ (cef_mapping !! r_type r = Some m ->
      (CEF.rows_loop digit m device_id (r_type r) (csv data).1 (csv data).2).2 = Ret () ->
      exists ev,
        CEF.report_step digit csv cef_mapping types dst device_id now r (FetchOk data) fs
        = (truncate path now (write path data now fs), ev, Ret ())
        /\ after (truncate path now (write path data now fs))).
Proof.
  intros Hf Hnone Hd Hname Hslash path after.
  assert (Hafter : after (truncate path now (write path data now fs))).
  { unfold after, truncate, write. split; [apply lookup_insert_eq|].
    split; [intros q Hq; now rewrite !lookup_insert_ne by congruence|].
    split; intros Hage; rewrite sweep_lookup, lookup_insert_eq;
      unfold path; rewrite (in_dir_join dst (r_file r) Hname Hslash);
      unfold Logger.expired, Logger.MAX_AGE; simpl.
    - now rewrite (proj2 (Z.ltb_ge _ _)) by lia.
    - now rewrite (proj2 (Z.ltb_lt _ _)) by lia. }
  split.
  - intros Hrows.
    rewrite (ecs_step_success reserved csv ecs_mapping types dst now r data fs
               Hf Hnone Hd).
    fold path.
    destruct (ECS.rows_loop reserved ecs_mapping (r_type r) (csv data).1 (csv data).2)
      as [ev res].
    simpl in Hrows. subst res. eauto.
  - intros Hm Hrows.
    rewrite (cef_step_success digit csv cef_mapping types dst device_id now r data fs m
               Hf Hnone Hm Hd).
    fold path.
    destruct (CEF.rows_loop digit m device_id (r_type r) (csv data).1 (csv data).2)
      as [ev res].
    simpl in Hrows. subst res. eauto.
Qed.

Lemma X9_witness :
  let path := Examples.feed_path Examples.scan in
  exists ev fs',
    ECS.report_step Examples.reserved Examples.plain_csv ∅ None "/state/feed" Examples.noon
      Examples.scan (FetchOk Examples.two_rows) ∅ = (fs', ev, Ret ())
    /\ fs' !! path = Some (File "" Examples.noon)
    /\ Logger.sweep "/state/feed" (Examples.noon + 8 * 86400)%Z fs' !! path = None.
Proof.
  intros path.
  assert (Hrows : (ECS.rows_loop Examples.reserved ∅ (r_type Examples.scan)
                     (Examples.plain_csv Examples.two_rows).1
                     (Examples.plain_csv Examples.two_rows).2).2 = Ret ())
    by (vm_compute; reflexivity).
  destruct (proj1 (X9_checkpoint_life Examples.ascii_digit Examples.reserved
                     Examples.plain_csv Examples.cef_table ∅ None
                     "/state/feed" "100" Examples.noon (Examples.noon + 8 * 86400)%Z
                     Examples.scan Examples.two_rows ∅ ∅
                     eq_refl (lookup_empty _) eq_refl eq_refl eq_refl) Hrows)
    as (ev & Hstep & Hhere & _ & _ & Hgone).
  exists ev, (truncate (path_join "/state/feed" (r_file Examples.scan)) Examples.noon
                (write (path_join "/state/feed" (r_file Examples.scan))
                   Examples.two_rows Examples.noon ∅)).
  split; [exact Hstep|]. split; [exact Hhere|]. apply Hgone. vm_compute. reflexivity.
Defined.

(** ** How a logger run goes on, and when it stops *)

Lemma ecs_loop_app reserved csv mapping (types : option (list string)) (dst : string)
    (now : Z) (pre post : list (report * fetch_outcome)) (fs : gmap string file) :
  ECS.reports_loop reserved csv mapping types dst now (pre ++ post) fs
  = match ECS.reports_loop reserved csv mapping types dst now pre fs with
    | (fs1, ev1, Ret _) =>
        let '(fs2, ev2, res) := ECS.reports_loop reserved csv mapping types dst now post fs1 in
        (fs2, ev1 ++ ev2, res)
    | (fs1, ev1, Raise e) => (fs1, ev1, Raise e)
    end.
Proof.
  revert fs. induction pre as [|[r o] pre IH]; intros fs; simpl.
  - now destruct (ECS.reports_loop reserved csv mapping types dst now post fs) as [[fs2 ev2] res].
  - destruct (ECS.report_step reserved csv mapping types dst now r o fs) as [[fs1 ev1] [u|e]];
      [|reflexivity].
    rewrite IH.
    destruct (ECS.reports_loop reserved csv mapping types dst now pre fs1) as [[fs2 ev2] [u2|e2]];
      [|reflexivity].
    destruct (ECS.reports_loop reserved csv mapping types dst now post fs2) as [[fs3 ev3] res].
    now rewrite app_assoc.
Qed.

Lemma cef_loop_app digit csv mapping (types : option (list string)) (dst device_id : string)
    (now : Z) (pre post : list (report * fetch_outcome)) (fs : gmap string file) :
  CEF.reports_loop digit csv mapping types dst device_id now (pre ++ post) fs
  = match CEF.reports_loop digit csv mapping types dst device_id now pre fs with
    | (fs1, ev1, Ret _) =>
        let '(fs2, ev2, res) :=
          CEF.reports_loop digit csv mapping types dst device_id now post fs1 in
        (fs2, ev1 ++ ev2, res)
    | (fs1, ev1, Raise e) => (fs1, ev1, Raise e)
    end.
Proof.
  revert fs. induction pre as [|[r o] pre IH]; intros fs; simpl.
  - now destruct (CEF.reports_loop digit csv mapping types dst device_id now post fs)
      as [[fs2 ev2] res].
  - destruct (CEF.report_step digit csv mapping types dst device_id now r o fs)
      as [[fs1 ev1] [u|e]]; [|reflexivity].
    rewrite IH.
    destruct (CEF.reports_loop digit csv mapping types dst device_id now pre fs1)
      as [[fs2 ev2] [u2|e2]]; [|reflexivity].
    destruct (CEF.reports_loop digit csv mapping types dst device_id now post fs2)
      as [[fs3 ev3] res].
    now rewrite app_assoc.
Qed.

Lemma download_fails_early (r : report) (path : string) (now : Z)
    (fs : gmap string file) :
  fs !! path = None ->
  Logger._download r path FetchFailEarly now fs
  = (fs, [EvFetch r path; Logger.failed], Raise "FileNotFoundError").
Proof.
  intros H. unfold Logger._download, unlink. simpl.
  now rewrite (proj2 (exists_false _ _) H).
Qed.

(** X10.  In both loggers, a fetch that raises before the target file is
    created makes the handler's [os.unlink] raise in turn, and nothing
    catches that: the loop stops at that report with the filesystem as the
    reports before it left it, the reports after it are not handled, and
    the section ends raising, without its expiry loop. *)
Theorem X10_failed_fetch_stops_the_run
    (digit reserved : string -> bool)
    (csv : string -> list row * option string) (state_directory : string)
    (cef_mapping : gmap string (gmap string string))
    (ecs_mapping : gmap string string) (today : Z) (input_name : string)
    (input_item : gmap string string) (now : Z)
    (pre post : list (report * fetch_outcome)) (r : report)
    (fs : gmap string file) :
  let types := split_on (is_char ",") <$> input_item !! "types" in
  let dst := path_join state_directory (basename input_name) in
  let device_id := default "100" (input_item !! "device_event_class_id") in
  let env := Logger.SectionEnv (Logger.ApiReports (pre ++ (r, FetchFailEarly) :: post)) now in
  let failure := [EvFetch r (path_join dst (r_file r)); Logger.failed] in
  Logger.filtered_out types r = false ->
  (forall fs1 ev1,
     ECS.reports_loop reserved csv ecs_mapping types dst now pre fs = (fs1, ev1, Ret ()) ->
     fs1 !! path_join dst (r_file r) = None ->
     is_Some (input_item !! "log") ->
     exists call,
       ECS.section_run reserved csv state_directory ecs_mapping today input_name input_item env fs
       = (fs1, call :: ev1 ++ failure, Raise "FileNotFoundError"))
  /\ (forall fs1 ev1 facility,
      CEF.reports_loop digit csv cef_mapping types dst device_id now pre fs = (fs1, ev1, Ret ()) ->
      fs1 !! path_join dst (r_file r) = None ->
      is_Some (cef_mapping !! r_type r) ->
      input_item !! "facility" = Some facility -> facility ∈ CEF.facilities ->
      exists call,
        CEF.section_run digit csv state_directory cef_mapping today input_name input_item env fs
        = (fs1, call :: ev1 ++ failure, Raise "FileNotFoundError")).
Proof.
  intros types dst device_id env failure Hf. split.
  - intros fs1 ev1 Hpre Hnone [log Hlog]. unfold ECS.section_run. rewrite Hlog. simpl.
    fold types. fold dst. rewrite ecs_loop_app, Hpre. simpl.
    unfold ECS.report_step. rewrite Hf, (proj2 (exists_false _ _) Hnone).
    rewrite (download_fails_early r _ now fs1 Hnone). eauto.
  - intros fs1 ev1 facility Hpre Hnone Hm Hfac Hin. unfold CEF.section_run.
    rewrite Hfac, (bool_decide_eq_true_2 _ Hin). simpl.
    fold types. fold dst. fold device_id. rewrite cef_loop_app, Hpre. simpl.
    unfold CEF.report_step.
    rewrite Hf, (proj2 (exists_false _ _) Hnone), (bool_decide_eq_true_2 _ Hm). simpl.
    rewrite (download_fails_early r _ now fs1 Hnone). eauto.
Qed.

Lemma X10_witness :
  exists call,
    ECS.section_run Examples.reserved Examples.plain_csv "/state" ∅ Examples.today "feed"
      (list_to_map [("log", "/var/log/feed.json")])
      (Logger.SectionEnv
         (Logger.ApiReports [(Examples.scan, FetchFailEarly);
                             (Examples.blocklist, FetchOk Examples.two_rows)])
         Examples.noon) ∅
    = (∅, [call; EvFetch Examples.scan (Examples.feed_path Examples.scan);
           Logger.failed], Raise "FileNotFoundError").
Proof.
  refine (proj1 (X10_failed_fetch_stops_the_run Examples.ascii_digit
                   Examples.reserved Examples.plain_csv "/state"
                   Examples.cef_table ∅ Examples.today "feed"
                   (list_to_map [("log", "/var/log/feed.json")]) Examples.noon []
                   [(Examples.blocklist, FetchOk Examples.two_rows)] Examples.scan ∅
                   eq_refl) ∅ [] eq_refl (lookup_empty _) _).
  vm_compute. eauto.
Defined.

Lemma allowed_weaken (types : option (list string))
    (items : list (report * fetch_outcome)) (x : report * fetch_outcome) (e : event) :
  allowed types items e -> allowed types (x :: items) e.
Proof. destruct e; simpl; tauto. Qed.

Lemma allowed_own (types : option (list string))
    (items : list (report * fetch_outcome)) (r : report) (o : fetch_outcome)
    (path : string) (ev : list event) :
  Logger.filtered_out types r = false ->
  Forall (fun e => (e = EvFetch r path \/ e = EvTransform r path) \/ passive e) ev ->
  Forall (allowed types ((r, o) :: items)) ev.
Proof.
  intros Hf H. eapply Forall_impl; [exact H|].
  intros e [[-> | ->] | Hp]; simpl; auto. destruct e; simpl in *; tauto.
Qed.

Lemma ecs_loop_allowed reserved csv mapping (types : option (list string)) (dst : string)
    (now : Z) (items : list (report * fetch_outcome)) (fs : gmap string file) :
  Forall (allowed types items) (ECS.reports_loop reserved csv mapping types dst now items fs).1.2.
Proof.
  revert fs. induction items as [|[r o] rest IH]; intros fs; simpl; [constructor|].
  assert (Hstep : Forall (allowed types ((r, o) :: rest))
                         (ECS.report_step reserved csv mapping types dst now r o fs).1.2).
  { unfold ECS.report_step.
    destruct (Logger.filtered_out types r) eqn:Hf; [constructor|].
    destruct (exists_ fs (path_join dst (r_file r))); [constructor|].
    pose proof (download_spec r (path_join dst (r_file r)) o now fs) as D.
    destruct (Logger._download r (path_join dst (r_file r)) o now fs) as [[fs1 ev1] res].
    destruct D as (Dev & _).
    assert (H1 : Forall (allowed types ((r, o) :: rest)) ev1).
    { apply (allowed_own _ _ _ _ (path_join dst (r_file r))); auto. widen Dev. }
    destruct res as [[|]|e]; simpl; auto.
    pose proof (ecs_stream_spec reserved csv mapping r (path_join dst (r_file r)) fs1) as S.
    destruct (ECS._stream_events reserved csv mapping r (path_join dst (r_file r)) fs1)
      as [ev2 res2]. simpl in S.
    assert (H2 : Forall (allowed types ((r, o) :: rest)) ev2).
    { apply (allowed_own _ _ _ _ (path_join dst (r_file r))); auto. widen S. }
    destruct res2; simpl; apply Forall_app; auto. }
  destruct (ECS.report_step reserved csv mapping types dst now r o fs) as [[fs1 ev1] [u|e]];
    simpl in *; [|exact Hstep].
  specialize (IH fs1).
  destruct (ECS.reports_loop reserved csv mapping types dst now rest fs1) as [[fs2 ev2] res].
  simpl in *. apply Forall_app. split; [exact Hstep|].
  eapply Forall_impl; [exact IH|]. intros e. apply allowed_weaken.
Qed.

Lemma cef_loop_allowed digit csv mapping (types : option (list string))
    (dst device_id : string) (now : Z) (items : list (report * fetch_outcome))
    (fs : gmap string file) :
  Forall (allowed types items)
         (CEF.reports_loop digit csv mapping types dst device_id now items fs).1.2.
Proof.
  revert fs. induction items as [|[r o] rest IH]; intros fs; simpl; [constructor|].
  assert (Hstep : Forall (allowed types ((r, o) :: rest))
                    (CEF.report_step digit csv mapping types dst device_id now r o fs).1.2).
  { unfold CEF.report_step.
    destruct (Logger.filtered_out types r) eqn:Hf; [constructor|].
    destruct (exists_ fs (path_join dst (r_file r))); [constructor|].
    destruct (negb (bool_decide (is_Some (mapping !! r_type r)))).
    { constructor; [simpl; auto|constructor]. }
    pose proof (download_spec r (path_join dst (r_file r)) o now fs) as D.
    destruct (Logger._download r (path_join dst (r_file r)) o now fs) as [[fs1 ev1] res].
    destruct D as (Dev & _).
    assert (H1 : Forall (allowed types ((r, o) :: rest)) ev1).
    { apply (allowed_own _ _ _ _ (path_join dst (r_file r))); auto. widen Dev. }
    destruct res as [[|]|e]; simpl; auto.
    pose proof (cef_stream_spec digit csv mapping r (path_join dst (r_file r)) device_id fs1) as S.
    destruct (CEF._stream_events digit csv mapping r (path_join dst (r_file r)) device_id fs1)
      as [ev2 res2]. simpl in S.
    assert (H2 : Forall (allowed types ((r, o) :: rest)) ev2).
    { apply (allowed_own _ _ _ _ (path_join dst (r_file r))); auto. widen S. }
    destruct res2; simpl; apply Forall_app; auto. }
  destruct (CEF.report_step digit csv mapping types dst device_id now r o fs)
    as [[fs1 ev1] [u|e]]; simpl in *; [|exact Hstep].
  specialize (IH fs1).
  destruct (CEF.reports_loop digit csv mapping types dst device_id now rest fs1)
    as [[fs2 ev2] res].
  simpl in *. apply Forall_app. split; [exact Hstep|].
  eapply Forall_impl; [exact IH|]. intros e. apply allowed_weaken.
Qed.

(** X11.  The type filter is an allowlist applied before anything else: in
    both loggers every download, transformation and mapping warning of a
    report loop is for a report that is in the listing and, when [types]
    is configured, whose type is one of them; with no [types] option every
    listed type passes. *)
Theorem X11_type_filter_is_respected
    (digit reserved : string -> bool)
    (csv : string -> list row * option string)
    (cef_mapping : gmap string (gmap string string))
    (ecs_mapping : gmap string string) (types : option (list string))
    (dst device_id : string) (now : Z) (items : list (report * fetch_outcome))
    (fs : gmap string file) :
  Forall (allowed types items)
         (ECS.reports_loop reserved csv ecs_mapping types dst now items fs).1.2
  /\ Forall (allowed types items)
       (CEF.reports_loop digit csv cef_mapping types dst device_id now items fs).1.2
  /\ (forall r ts, Logger.filtered_out (Some ts) r = false <-> r_type r ∈ ts)
  /\ (forall r, Logger.filtered_out None r = false).
Proof.
  split; [apply ecs_loop_allowed|]. split; [apply cef_loop_allowed|].
  split; [|reflexivity].
  intros r ts. unfold Logger.filtered_out.
  rewrite negb_false_iff. apply bool_decide_eq_true.
Qed.

Lemma sections_without_option_ecs reserved csv (state_directory : string) mapping (today : Z)
    (config : list (string * gmap string string))
    (env : string -> Logger.section_env) (fs : gmap string file) :
  ECS.sections_loop reserved csv state_directory mapping today config env fs
  = ECS.sections_loop reserved csv state_directory mapping today
      (List.filter (has_option "log") config) env fs.
Proof.
  revert fs. induction config as [|[name item] rest IH]; intros fs; [reflexivity|].
  simpl. unfold has_option at 1. simpl.
  destruct (item !! "log") as [log|] eqn:E.
  - rewrite bool_decide_eq_true_2 by eauto. simpl.
    destruct (ECS.section_run _ _ _ _ _ _ _ _ _) as [[fs1 ev1] [u|e]]; [|reflexivity].
    now rewrite IH.
  - rewrite bool_decide_eq_false_2 by (intros [? ?]; discriminate).
    unfold ECS.section_run at 1. rewrite E. rewrite IH.
    now destruct (ECS.sections_loop _ _ _ _ _ _ _ _) as [[fs2 ev2] res].
Qed.

Lemma sections_without_option_cef digit csv (state_directory : string) mapping (today : Z)
    (config : list (string * gmap string string))
    (env : string -> Logger.section_env) (fs : gmap string file) :
  CEF.sections_loop digit csv state_directory mapping today config env fs
  = CEF.sections_loop digit csv state_directory mapping today
      (List.filter (has_option "facility") config) env fs.
Proof.
  revert fs. induction config as [|[name item] rest IH]; intros fs; [reflexivity|].
  simpl. unfold has_option at 1. simpl.
  destruct (item !! "facility") as [facility|] eqn:E.
  - rewrite bool_decide_eq_true_2 by eauto. simpl.
    destruct (CEF.section_run _ _ _ _ _ _ _ _ _) as [[fs1 ev1] [u|e]]; [|reflexivity].
    now rewrite IH.
  - rewrite bool_decide_eq_false_2 by (intros [? ?]; discriminate).
    unfold CEF.section_run at 1. rewrite E. rewrite IH.
    now destruct (CEF.sections_loop _ _ _ _ _ _ _ _) as [[fs2 ev2] res].
Qed.

(** X12.  Only the sections that configure an output are inputs: a run of
    the ECS logger is the run over the sections that have a [log] option,
    a run of the CEF logger the run over those that have a [facility]
    option; the other sections ([general], the defaults) cause no request
    and no file operation.  In a mode other than [run] nothing is done at
    all. *)
Theorem X12_only_configured_sections_run
    (digit reserved : string -> bool)
    (csv : string -> list row * option string) (state_directory : string)
    (cef_mapping : gmap string (gmap string string))
    (ecs_mapping : gmap string string) (mode : string) (today : Z)
    (config : list (string * gmap string string))
    (env : string -> Logger.section_env) (fs : gmap string file) :
  ECS.run reserved csv state_directory ecs_mapping mode today config env fs
  = ECS.run reserved csv state_directory ecs_mapping mode today
      (List.filter (has_option "log") config) env fs
  /\ CEF.run digit csv state_directory cef_mapping mode today config env fs
     = CEF.run digit csv state_directory cef_mapping mode today
         (List.filter (has_option "facility") config) env fs
  /\ (mode <> "run" ->
      ECS.run reserved csv state_directory ecs_mapping mode today config env fs = (fs, [], Ret ())
      /\ CEF.run digit csv state_directory cef_mapping mode today config env fs
         = (fs, [], Ret ())).
Proof.
  unfold ECS.run, CEF.run. split; [|split].
  - destruct (String.eqb mode "run"); [apply sections_without_option_ecs|reflexivity].
  - destruct (String.eqb mode "run"); [apply sections_without_option_cef|reflexivity].
  - intros Hm. now rewrite (proj2 (String.eqb_neq _ _) Hm).
Qed.

Lemma X12_witness :
  ECS.run Examples.reserved Examples.plain_csv "/state" ∅ "update" Examples.today Examples.feed
    (Examples.serves Examples.scan (FetchOk Examples.two_rows) Examples.noon) ∅
  = (∅, [], Ret ()).
Proof.
  apply (X12_only_configured_sections_run Examples.ascii_digit Examples.reserved
           Examples.plain_csv "/state"
           Examples.cef_table ∅ "update" Examples.today Examples.feed
           (Examples.serves Examples.scan (FetchOk Examples.two_rows) Examples.noon) ∅).
  discriminate.
Defined.

(** X13.  In the ECS logger, when the transformation of a downloaded
    report raises, the step raises with the report's file left at its full
    size.  The file then counts as seen: for as long as the expiry loops
    find it within the retention window, no later run fetches to its path
    or transforms it, and when every input section keeps its checkpoints
    in the directory of the file, no later run fetches or transforms the
    report at all, so the rows that were not logged are lost. *)
Theorem X13_failed_transformation_is_not_retried
    (reserved : string -> bool)
    (csv : string -> list row * option string) (state_directory : string)
    (mapping : gmap string string) (mode : string)
    (config : list (string * gmap string string))
    (schedule : list (Z * (string -> Logger.section_env)))
    (types : option (list string)) (dst : string) (now : Z) (r : report)
    (data exn : string) (fs : gmap string file) :
  Logger.filtered_out types r = false ->
  fs !! path_join dst (r_file r) = None ->
  nonempty data = true ->
  (ECS.rows_loop reserved mapping (r_type r) (csv data).1 (csv data).2).2
  = Raise exn ->
  fresh_throughout (File data now) schedule ->
  let path := path_join dst (r_file r) in
  exists logged,
    ECS.report_step reserved csv mapping types dst now r (FetchOk data) fs
    = (write path data now fs, EvFetch r path :: EvTransform r path :: logged,
       Raise exn)
    /\ Forall passive logged
    /\ (let '(fs1, ev) :=
          ECS.runs reserved csv state_directory mapping mode config schedule
            (write path data now fs) in
        fs1 !! path = Some (File data now)
        /\ Forall (fun e => touches path e = false) ev
        /\ (single_directory "log" state_directory dst config ->
            Forall (fun e => concerns r e = false) ev)).
Proof.
  intros Hf Hnone Hd Hrows Hfresh path.
  rewrite (ecs_step_success reserved csv mapping types dst now r data fs Hf Hnone Hd).
  fold path.
  pose proof (ecs_rows_passive reserved mapping (r_type r) (csv data).1 (csv data).2)
    as P.
  destruct (ECS.rows_loop reserved mapping (r_type r) (csv data).1 (csv data).2)
    as [ev res].
  simpl in Hrows, P. subst res. exists ev. split; [reflexivity|]. split; [exact P|].
  assert (H0 : write path data now fs !! path = Some (File data now))
    by apply lookup_insert_eq.
  pose proof (ecs_runs_keep reserved csv state_directory mapping mode config schedule
                _ path _ H0 Hfresh) as K.
  pose proof (fun Hone => ecs_runs_skip reserved csv state_directory mapping mode
                config schedule _ dst r _ Hone H0 Hfresh) as S.
  destruct (ECS.runs _ _ _ _ _ _ _ _) as [fs1 ev1]. destruct K as [Kp Kev].
  split; [exact Kp|]. split; [exact Kev|exact S].
Qed.

Lemma X13_witness :
  let path := Examples.feed_path Examples.scan in
  exists logged,
    ECS.report_step Examples.reserved Examples.plain_csv
      MoreExamples.tags_with_arguments None
      "/state/feed" Examples.noon Examples.scan (FetchOk Examples.two_rows) ∅
    = (write path Examples.two_rows Examples.noon ∅,
       EvFetch Examples.scan path :: EvTransform Examples.scan path :: logged,
       Raise "TypeError")
    /\ Forall passive logged
    /\ (let '(fs1, ev) :=
          ECS.runs Examples.reserved Examples.plain_csv "/state"
            MoreExamples.tags_with_arguments
            "run" Examples.feed Examples.retries
            (write path Examples.two_rows Examples.noon ∅) in
        fs1 !! path = Some (File Examples.two_rows Examples.noon)
        /\ Forall (fun e => touches path e = false) ev
        /\ Forall (fun e => concerns Examples.scan e = false) ev).
Proof.
  assert (Hrows : (ECS.rows_loop Examples.reserved MoreExamples.tags_with_arguments
                     (r_type Examples.scan) (Examples.plain_csv Examples.two_rows).1
                     (Examples.plain_csv Examples.two_rows).2).2
                  = Raise "TypeError") by (vm_compute; reflexivity).
  assert (Hfresh : fresh_throughout (File Examples.two_rows Examples.noon)
                     Examples.retries).
  { repeat constructor; intros name; vm_compute; reflexivity. }
  destruct (X13_failed_transformation_is_not_retried Examples.reserved
              Examples.plain_csv "/state" MoreExamples.tags_with_arguments "run"
              Examples.feed Examples.retries None "/state/feed" Examples.noon
              Examples.scan Examples.two_rows "TypeError" ∅
              eq_refl (lookup_empty _) eq_refl Hrows Hfresh)
    as (logged & Hstep & Hpassive & Hlater).
  exists logged. split; [exact Hstep|]. split; [exact Hpassive|].
  destruct (ECS.runs Examples.reserved Examples.plain_csv "/state"
              MoreExamples.tags_with_arguments "run" Examples.feed Examples.retries _)
    as [fs1 ev].
  destruct Hlater as (Hp & Ht & Hc).
  split; [exact Hp|]. split; [exact Ht|]. apply Hc, feed_single_directory.
Defined.

(** ** More on the report manager *)

Section ManagerRun.
Import ReportManager.
Context (cfg : config).

Lemma api_dates_app (a b : list event) : api_dates (a ++ b) = api_dates a ++ api_dates b.
Proof.
  induction a as [|e a IH]; [reflexivity|]. destruct e; simpl; now rewrite ?IH.
Qed.

Lemma rm_download_counts (r : report) (directory : string) (o : fetch_outcome)
    (now : Z) (s : state) :
  let '(s', ev) := _download cfg r directory o now s in
  api_dates ev = []
  /\ exists n, (n <= 1)%nat
       /\ st_count s' = st_count s + n
       /\ (n <= length (List.filter is_fetch ev))%nat
       /\ (length (List.filter is_fetch ev) <= 1)%nat
       /\ length (List.filter is_notify ev) = (if notifier cfg then n else 0).
Proof.
  destruct (st_fs s !! dst_path directory r) as [f|] eqn:E.
  - rewrite rm_download_present by (rewrite E; eauto).
    split; [reflexivity|]. exists 0. simpl. destruct (notifier cfg); repeat split; lia.
  - rewrite (rm_download_absent cfg directory r o now s E).
    destruct o as [|partial|data]; simpl.
    + split; [reflexivity|]. exists 0. simpl. destruct (notifier cfg); repeat split; lia.
    + split; [reflexivity|]. exists 0. simpl. destruct (notifier cfg); repeat split; lia.
    + destruct (nonempty data).
      * split; [now destruct (notifier cfg)|]. exists 1.
        destruct (notifier cfg); simpl; repeat split; lia.
      * split; [reflexivity|]. exists 0. simpl. destruct (notifier cfg); repeat split; lia.
Qed.

Lemma rm_loop_counts (directory : string) (now : Z) (steps : list step) (s : state) :
  let '(s', ev, _) := download_loop cfg directory now steps s in
  api_dates ev = []
  /\ exists n, st_count s' = st_count s + n
       /\ (n <= length (List.filter is_fetch ev))%nat
       /\ (length (List.filter is_fetch ev) <= length steps)%nat
       /\ length (List.filter is_notify ev) = (if notifier cfg then n else 0).
Proof.
  revert s. induction steps as [|st rest IH]; intros s; simpl.
  { split; [reflexivity|]. exists 0. simpl. destruct (notifier cfg); repeat split; lia. }
  destruct (s_free st <? threshold cfg)%Z.
  { split; [reflexivity|]. exists 0. simpl. destruct (notifier cfg); repeat split; lia. }
  pose proof (rm_download_counts (s_report st) directory (s_net st) now s) as D.
  destruct (_download cfg (s_report st) directory (s_net st) now s) as [s1 ev1].
  destruct D as (Dd & n1 & Hn1 & Hc1 & Hf1 & Hf1' & Hy1).
  specialize (IH s1). destruct (download_loop cfg directory now rest s1) as [[s2 ev2] out].
  destruct IH as (Id & n2 & Hc2 & Hf2 & Hf2' & Hy2).
  split; [now rewrite api_dates_app, Dd, Id|].
  exists (n1 + n2). rewrite !List.filter_app, !length_app.
  destruct (notifier cfg); repeat split; lia.
Qed.

Lemma sync_days_app (today now : Z) (env : Z -> listing) (pre post : list Z) (s : state) :
  sync_days cfg today now env (pre ++ post) s
  = match sync_days cfg today now env pre s with
    | (s1, ev1, Done) =>
        let '(s2, ev2, out) := sync_days cfg today now env post s1 in
        (s2, ev1 ++ ev2, out)
    | (s1, ev1, Fatal msg) => (s1, ev1, Fatal msg)
    end.
Proof.
  revert s. induction pre as [|i pre IH]; intros s; simpl.
  - now destruct (sync_days cfg today now env post s) as [[s2 ev2] out].
  - destruct (_sync cfg (Dates.isoformat (today - i)) now (env i) s)
      as [[s1 ev1] [|msg]]; [|reflexivity].
    rewrite IH.
    destruct (sync_days cfg today now env pre s1) as [[s2 ev2] [|msg]]; [|reflexivity].
    destruct (sync_days cfg today now env post s2) as [[s3 ev3] out].
    now rewrite app_assoc.
Qed.



End ManagerRun.

(** X14.  In the report manager a failed listing is fatal for the whole
    run, not only for its date: when the listing call for a date raises or
    its reply does not parse, the run ends there with what the earlier
    dates left, and no later date is requested. *)
Theorem X14_listing_failure_ends_the_run
    (cfg : ReportManager.config) (days : nat) (today now : Z)
    (env : Z -> ReportManager.listing) (pre later : list Z) (i : Z)
    (s s1 : ReportManager.state) (ev1 : list event) :
  ReportManager.offsets days = pre ++ i :: later ->
  env i = ReportManager.ApiRaises \/ env i = ReportManager.ParseFails ->
  ReportManager.sync_days cfg today now env pre s = (s1, ev1, ReportManager.Done) ->
  exists msg,
    ReportManager.run cfg days today now env s
    = (s1,
       ev1 ++ [EvApiCall "reports/list" (Dates.isoformat (today - i)) None;
               EvSyslog msg],
       ReportManager.Fatal msg).
Proof.
  intros Hoffs Henv Hpre. unfold ReportManager.run.
  rewrite Hoffs, sync_days_app, Hpre. simpl. unfold ReportManager._sync.
  destruct Henv as [-> | ->]; eexists; reflexivity.
Qed.

Lemma X14_witness :
  exists msg,
    ReportManager.run Examples.manager 2 Examples.today Examples.noon
      (fun _ => ReportManager.ApiRaises) Examples.fresh_start
    = (Examples.fresh_start,
       [EvApiCall "reports/list" "2023-03-13" None; EvSyslog msg],
       ReportManager.Fatal msg).
Proof.
  exact (X14_listing_failure_ends_the_run Examples.manager 2 Examples.today
           Examples.noon (fun _ => ReportManager.ApiRaises) [] [1%Z] 2%Z
           Examples.fresh_start Examples.fresh_start [] eq_refl (or_introl eq_refl)
           eq_refl).
Defined.



(** X16.  The counter of the report manager and its notifications follow
    the downloads: over one pass the counter never decreases, it grows by
    at most one per fetch and there is at most one fetch per listed
    report; with a notifier configured exactly one notification is sent
    per counted download, and without one none is sent. *)
Theorem X16_counter_and_notifications
    (cfg : ReportManager.config) (directory : string) (now : Z)
    (steps : list ReportManager.step) (s : ReportManager.state) :
  let '(s', ev, _) := ReportManager.download_loop cfg directory now steps s in
  exists n,
    ReportManager.st_count s' = ReportManager.st_count s + n
    /\ (n <= length (List.filter is_fetch ev))%nat
    /\ (length (List.filter is_fetch ev) <= length steps)%nat
    /\ length (List.filter is_notify ev)
       = (if ReportManager.notifier cfg then n else 0).
Proof.
  pose proof (rm_loop_counts cfg directory now steps s) as L.
  destruct (ReportManager.download_loop cfg directory now steps s) as [[s' ev] out].
  exact (proj2 L).
Qed.

(** X17.  In the report manager a failed download leaves nothing that a
    later one has to clean up.  After a fetch that raised or delivered no
    byte, a download of the same report that delivers a non-empty file
    ends exactly as if the failed attempt had not happened: the file is at
    the final path, no temporary file is left (also one left by an earlier
    attempt), and the counter has grown by one. *)
Theorem X17_retry_after_failure
    (cfg : ReportManager.config) (r : report) (directory : string)
    (o1 : fetch_outcome) (now1 now2 : Z) (data : string)
    (s : ReportManager.state) :
  ReportManager.st_fs s !! ReportManager.dst_path directory r = None ->
  ~ delivers o1 ->
  nonempty data = true ->
  let tmp := ReportManager.tmp_path directory r in
  let dst := ReportManager.dst_path directory r in
  let s1 := (ReportManager._download cfg r directory o1 now1 s).1 in
  ReportManager._download cfg r directory (FetchOk data) now2 s1
  = ReportManager._download cfg r directory (FetchOk data) now2 s
  /\ (ReportManager._download cfg r directory (FetchOk data) now2 s1).1
     = ReportManager.State
         (<[dst := File data now2]> (delete tmp (ReportManager.st_fs s)))
         (S (ReportManager.st_count s)).
Proof.
  intros Hnone Hfail Hd tmp dst s1.
  assert (Hne : tmp <> dst) by apply path_join_dot_ne.
  assert (Hdirect : ReportManager._download cfg r directory (FetchOk data) now2 s
            = (ReportManager.State
                 (<[dst := File data now2]> (delete tmp (ReportManager.st_fs s)))
                 (S (ReportManager.st_count s)),
               EvFetch r tmp
                 :: (if ReportManager.notifier cfg then [EvNotify r dst] else []))).
  { rewrite (rm_download_absent cfg directory r (FetchOk data) now2 s Hnone).
    simpl. rewrite Hd. unfold write. fold tmp. fold dst.
    now rewrite delete_insert_eq. }
  assert (Hs1 : exists fs1, s1 = ReportManager.State fs1 (ReportManager.st_count s)
                  /\ fs1 !! dst = None /\ delete tmp fs1 = delete tmp (ReportManager.st_fs s)).
  { unfold s1. rewrite (rm_download_absent cfg directory r o1 now1 s Hnone).
    fold tmp. fold dst. destruct o1 as [|partial|data1]; simpl.
    - exists (ReportManager.st_fs s). auto.
    - exists (write tmp partial now1 (ReportManager.st_fs s)). unfold write.
      split; [reflexivity|]. split; [now rewrite lookup_insert_ne by exact Hne|].
      apply delete_insert_eq.
    - destruct (nonempty data1) eqn:Hd1.
      + exfalso. apply Hfail. exists data1. auto.
      + exists (write tmp data1 now1 (ReportManager.st_fs s)). unfold write.
        split; [reflexivity|]. split; [now rewrite lookup_insert_ne by exact Hne|].
        apply delete_insert_eq. }
  destruct Hs1 as (fs1 & -> & Hfree & Hdel).
  assert (Hagain : ReportManager._download cfg r directory (FetchOk data) now2
                     (ReportManager.State fs1 (ReportManager.st_count s))
                   = ReportManager._download cfg r directory (FetchOk data) now2 s).
  { rewrite Hdirect.
    rewrite (rm_download_absent cfg directory r (FetchOk data) now2
               (ReportManager.State fs1 (ReportManager.st_count s)) Hfree).
    simpl. rewrite Hd. unfold write. fold tmp. fold dst.
    now rewrite delete_insert_eq, Hdel. }
  split; [exact Hagain|]. now rewrite Hagain, Hdirect.
Qed.

Lemma X17_witness :
  (ReportManager._download Examples.manager Examples.scan Examples.day_dir
     (FetchOk Examples.two_rows) (Examples.noon + 3600)%Z
     (ReportManager._download Examples.manager Examples.scan Examples.day_dir
        (FetchFailLate "ip,ta") Examples.noon Examples.fresh_start).1).1
  = ReportManager.State
      {[ ReportManager.dst_path Examples.day_dir Examples.scan
         := File Examples.two_rows (Examples.noon + 3600)%Z ]} 1.
Proof.
  assert (Hfail : ~ delivers (FetchFailLate "ip,ta")).
  { intros (data & H & _). discriminate H. }
  rewrite (proj2 (X17_retry_after_failure Examples.manager Examples.scan
                    Examples.day_dir (FetchFailLate "ip,ta") Examples.noon
                    (Examples.noon + 3600)%Z Examples.two_rows Examples.fresh_start
                    (lookup_empty _) Hfail eq_refl)).
  vm_compute. reflexivity.
Defined.

(** X18.  For a date written as four, two and two characters separated by
    single characters (the form [YYYY-MM-DD] that the run passes), the
    reports of the date are stored in the directory year/month/day below
    the base directory. *)
Theorem X18_directory_tree
    (cfg : ReportManager.config) (y m d : string) (sep1 sep2 : ascii) :
  String.length y = 4 -> String.length m = 2 -> String.length d = 2 ->
  ReportManager.directory_of cfg (y +:+ String sep1 (m +:+ String sep2 d))
  = path_join (path_join (path_join (ReportManager.basedir cfg) y) m) d.
Proof.
  intros Hy Hm Hd.
  destruct y as [|y1 [|y2 [|y3 [|y4 [|? ?]]]]]; try discriminate Hy.
  destruct m as [|m1 [|m2 [|? ?]]]; try discriminate Hm.
  destruct d as [|d1 [|d2 [|? ?]]]; try discriminate Hd.
  reflexivity.
Qed.

Lemma X18_witness :
  ReportManager.directory_of Examples.manager "2023-03-14"
  = "/var/tmp/reports/2023/03/14".
Proof.
  exact (X18_directory_tree Examples.manager "2023" "03" "14" "-" "-"
           eq_refl eq_refl eq_refl).
Defined.

(** ** Start-up of the loggers *)

Section StartupFacts.
Import Startup.
Context {M : Type} (json_load : string -> option M).

Lemma update_cases (ok : string -> bool) (state_directory : string)
    (o : fetch_outcome) (now : Z) (fs : gmap string file) :
  let map_tmp := path_join state_directory ("." +:+ Logger.map_filename) in
  let map_path := path_join state_directory Logger.map_filename in
  exists fs' ev,
    match o with
    | FetchOk data =>
        if nonempty data && ok data
        then Logger.update ok state_directory o now fs = (fs', ev, Ret true)
             /\ fs' !! map_path = Some (File data now)
        else Logger.update ok state_directory o now fs = (fs', ev, Ret false)
             /\ fs' !! map_path = fs !! map_path
    | _ => Logger.update ok state_directory o now fs = (fs', ev, Ret false)
           /\ fs' !! map_path = fs !! map_path
    end.
Proof.
  intros map_tmp map_path.
  assert (Hne : map_tmp <> map_path) by apply path_join_dot_ne.
  unfold Logger.update. fold map_tmp. fold map_path.
  destruct o as [|partial|data]; simpl.
  - do 2 eexists. split; [reflexivity|].
    destruct (exists_ fs map_tmp); [now rewrite lookup_delete_ne by exact Hne|reflexivity].
  - do 2 eexists. split; [reflexivity|].
    rewrite (proj2 (exists_true _ _)) by (unfold write; rewrite lookup_insert_eq; eauto).
    unfold write. now rewrite lookup_delete_ne, lookup_insert_ne by exact Hne.
  - rewrite getsize_write, size_positive.
    destruct (nonempty data) eqn:Hd; simpl.
    + replace (write map_tmp data now fs !! map_tmp) with (Some (File data now))
        by (unfold write; now rewrite lookup_insert_eq).
      simpl. destruct (ok data) eqn:Hj.
      * unfold rename, write. rewrite lookup_insert_eq.
        do 2 eexists. split; [reflexivity|]. apply lookup_insert_eq.
      * do 2 eexists. split; [reflexivity|].
        rewrite (proj2 (exists_true _ _))
          by (unfold write; rewrite lookup_insert_eq; eauto).
        unfold write. now rewrite lookup_delete_ne, lookup_insert_ne by exact Hne.
    + do 2 eexists. split; [reflexivity|].
      rewrite (proj2 (exists_true _ _))
        by (unfold write; rewrite lookup_insert_eq; eauto).
      unfold write. now rewrite lookup_delete_ne, lookup_insert_ne by exact Hne.
Qed.

End StartupFacts.

(** X19.  Which mapping a logger starts with when [auto_update] is on.
    When the refresh is accepted (a non-empty document that parses), the
    logger uses the fetched document, now the mapping file.  When it is
    not, start-up goes on with the mapping file as it was: the logger
    starts with the old mapping if that file parses, and start-up raises
    only if the file is missing or does not parse. *)
Theorem X19_mapping_at_startup
    {M : Type} (json_load : string -> option M)
    (mode state_directory apikey secret auto_update : string)
    (o : fetch_outcome) (now : Z) (fs : gmap string file) :
  Startup.convert_to_boolean auto_update = Ret true ->
  let map_path := path_join state_directory Logger.map_filename in
  let make := Startup.Logger_ mode state_directory apikey secret in
  let '(fs', _, res) :=
    Startup.finish json_load mode state_directory apikey secret auto_update o now fs in
  (forall data m, o = FetchOk data -> nonempty data = true ->
     json_load data = Some m ->
     fs' !! map_path = Some (File data now) /\ res = Ret (make m))
  /\ ((forall data, o = FetchOk data ->
        nonempty data = false \/ json_load data = None) ->
      fs' !! map_path = fs !! map_path
      /\ res = result_map make (Startup.load_mapping json_load state_directory fs)).
Proof.
  intros Hb map_path make. unfold Startup.finish. rewrite Hb.
  destruct (update_cases (Startup.json_ok json_load) state_directory o now fs)
    as (fs' & ev & H).
  fold map_path in H.
  assert (Hload : forall g : gmap string file, g !! map_path = fs !! map_path ->
            Startup.load_mapping json_load state_directory g
            = Startup.load_mapping json_load state_directory fs).
  { intros g Hg. unfold Startup.load_mapping. fold map_path. now rewrite Hg. }
  assert (Hold : Logger.update (Startup.json_ok json_load) state_directory o now fs
                 = (fs', ev, Ret false) ->
                 fs' !! map_path = fs !! map_path ->
                 let '(fs2, _, res) :=
                   let '(fs1, ev0, res0) :=
                     Logger.update (Startup.json_ok json_load) state_directory o now fs in
                   match res0 with
                   | Ret _ =>
                       match Startup.load_mapping json_load state_directory fs1 with
                       | Ret m => (fs1, ev0, Ret (make m))
                       | Raise e => (fs1, ev0, Raise e)
                       end
                   | Raise e => (fs1, ev0, Raise e)
                   end in
                 fs2 !! map_path = fs !! map_path
                 /\ res = result_map make
                            (Startup.load_mapping json_load state_directory fs)).
  { intros Hu Hsame. rewrite Hu, (Hload fs' Hsame).
    destruct (Startup.load_mapping json_load state_directory fs); simpl; auto. }
  destruct o as [|partial|data].
  - destruct H as [Hu Hsame]. specialize (Hold Hu Hsame). revert Hold.
    destruct (Logger.update _ _ _ _ _) as [[fs1 ev1] res1].
    destruct res1 as [b|e];
      [destruct (Startup.load_mapping json_load state_directory fs1)|];
      intros Hold; (split; [discriminate|intros _; exact Hold]).
  - destruct H as [Hu Hsame]. specialize (Hold Hu Hsame). revert Hold.
    destruct (Logger.update _ _ _ _ _) as [[fs1 ev1] res1].
    destruct res1 as [b|e];
      [destruct (Startup.load_mapping json_load state_directory fs1)|];
      intros Hold; (split; [discriminate|intros _; exact Hold]).
  - unfold Startup.json_ok in H at 1.
    destruct (nonempty data) eqn:Hd; destruct (json_load data) as [m|] eqn:Hj;
      simpl in H; destruct H as [Hu Hsame].
    + rewrite Hu. unfold Startup.load_mapping. fold map_path. rewrite Hsame. simpl.
      rewrite Hj. split.
      * intros data' m' [= <-] _ Hm'. split; [exact Hsame|].
        rewrite Hj in Hm'. injection Hm' as <-. reflexivity.
      * intros Hno. destruct (Hno data eq_refl); congruence.
    + specialize (Hold Hu Hsame). revert Hold.
      destruct (Logger.update _ _ _ _ _) as [[fs1 ev1] res1].
      destruct res1 as [b|e];
        [destruct (Startup.load_mapping json_load state_directory fs1)|];
        intros Hold; (split; [intros data' m' [= <-] _ Hm'; congruence
                             |intros _; exact Hold]).
    + specialize (Hold Hu Hsame). revert Hold.
      destruct (Logger.update _ _ _ _ _) as [[fs1 ev1] res1].
      destruct res1 as [b|e];
        [destruct (Startup.load_mapping json_load state_directory fs1)|];
        intros Hold; (split; [intros data' m' [= <-] Hd' _; congruence
                             |intros _; exact Hold]).
    + specialize (Hold Hu Hsame). revert Hold.
      destruct (Logger.update _ _ _ _ _) as [[fs1 ev1] res1].
      destruct res1 as [b|e];
        [destruct (Startup.load_mapping json_load state_directory fs1)|];
        intros Hold; (split; [intros data' m' [= <-] Hd' _; congruence
                             |intros _; exact Hold]).
Qed.

Lemma X19_witness :
  let fs := write "/state/map.json" "{}" 0 ∅ in
  let '(fs', _, res) :=
    Startup.finish MoreExamples.only_empty_object "run" "/state" "k" "s" "Yes"
      FetchFailEarly Examples.noon fs in
  fs' !! "/state/map.json" = Some (File "{}" 0)
  /\ res = Ret (Startup.Logger_ "run" "/state" "k" "s" tt).
Proof.
  intros fs.
  pose proof (X19_mapping_at_startup MoreExamples.only_empty_object "run" "/state"
                "k" "s" "Yes" FetchFailEarly Examples.noon fs eq_refl) as H.
  cbv zeta in H.
  destruct (Startup.finish MoreExamples.only_empty_object "run" "/state" "k" "s" "Yes"
              FetchFailEarly Examples.noon fs) as [[fs' ev] res].
  destruct H as [_ H]. destruct H as [Hfs Hres]; [intros data Hd; discriminate Hd|].
  split; [refine (eq_trans Hfs _)|refine (eq_trans Hres _)];
    vm_compute; reflexivity.
Defined.

(** X20.  The third command-line argument only names the mode; it never
    triggers a refresh.  With [auto_update] off, start-up fetches nothing
    and changes no file whatever the mode is, so starting a logger with
    the argument [update] reads the mapping file, and the run that follows
    does nothing; without a third argument the mode is [run].  Fewer than
    two arguments raise before the configuration is looked at. *)
Theorem X20_update_mode_fetches_nothing
    {M : Type} (json_load : string -> option M) (prog config_file : string)
    (rest : list string) (config : list (string * gmap string string))
    (state_directory apikey secret auto_update : string)
    (o : fetch_outcome) (now : Z) (fs : gmap string file) :
  Startup.config_get config "general" "state_directory" = Ret state_directory ->
  Startup.config_get config "general" "apikey" = Ret apikey ->
  Startup.config_get config "general" "secret" = Ret secret ->
  Startup.config_get config "general" "auto_update" = Ret auto_update ->
  Startup.convert_to_boolean auto_update = Ret false ->
  let mode := hd "run" rest in
  let started :=
    (fs, @nil event,
     result_map (Startup.Logger_ mode state_directory apikey secret)
       (Startup.load_mapping json_load state_directory fs)) in
  Startup.cef_init json_load (prog :: config_file :: rest) config o now fs = started
  /\ Startup.ecs_init json_load true (prog :: config_file :: rest) config o now fs = started
  /\ Startup.cef_init json_load [prog] config o now fs = (fs, [], Raise "ValueError")
  /\ Startup.ecs_init json_load true [prog] config o now fs = (fs, [], Raise "ValueError").
Proof.
  intros Hsd Hk Hs Ha Hb mode started.
  assert (Hmode : match rest with m :: _ => m | [] => "run" end = mode)
    by (now destruct rest).
  assert (Hfin : Startup.finish json_load mode state_directory apikey secret
                   auto_update o now fs = started).
  { unfold Startup.finish. rewrite Hb. unfold started.
    destruct (Startup.load_mapping json_load state_directory fs); reflexivity. }
  split; [|split; [|split; reflexivity]].
  - unfold Startup.cef_init. now rewrite Hsd, Hk, Hs, Ha, Hmode.
  - unfold Startup.ecs_init. now rewrite Hsd, Hk, Hs, Ha, Hmode.
Qed.

Lemma X20_witness :
  let fs := write "/state/map.json" "{}" 0 ∅ in
  Startup.cef_init MoreExamples.only_empty_object
    ["shadowserver_cef_logger.py"; "/etc/cef.ini"; "update"]
    (MoreExamples.general "no") (FetchOk "{}") Examples.noon fs
  = (fs, [], Ret (Startup.Logger_ "update" "/state" "k" "s" tt)).
Proof.
  intros fs.
  exact (proj1 (X20_update_mode_fetches_nothing MoreExamples.only_empty_object
                  "shadowserver_cef_logger.py" "/etc/cef.ini" ["update"]
                  (MoreExamples.general "no") "/state" "k" "s" "no" (FetchOk "{}")
                  Examples.noon fs eq_refl eq_refl eq_refl eq_refl eq_refl)).
Defined.

(** ** The command-line clients *)

Section Clients.
Import CallApi.
Context {J : Type} (json_loads : string -> option J) (is_dict : J -> bool)
        (json_dumps : J -> string).

Lemma api_call_sends (api : option (gmap string string)) (method : string)
    (request : J) (reply : option string) (url : string) :
  In url (api_call is_dict api method request reply).1 ->
  exists options uri,
    api = Some options /\ options !! "uri" = Some uri
    /\ is_Some (options !! "key") /\ is_Some (options !! "secret")
    /\ is_dict request = true /\ url = uri +:+ method
    /\ (api_call is_dict api method request reply).1 = [url].
Proof.
  unfold api_call. destruct api as [options|]; [|intros []].
  destruct (options !! "uri") as [uri|] eqn:Hu; [|intros []].
  destruct (options !! "key") as [key|] eqn:Hk; [|intros []].
  destruct (is_dict request) eqn:Hd; [|intros []]. simpl.
  destruct (options !! "secret") as [secret|] eqn:Hs; [|intros []].
  destruct reply; simpl; (intros [<-|[]]); exists options, uri; rewrite Hu, Hk, Hs;
    repeat split; eauto.
Qed.

End Clients.

(** X21.  [call-api.py] sends at most one request, and only when there are
    at least a method and a request on the command line, the request text
    parses to a JSON object, and the [api] section has the options [uri],
    [key] and [secret]; the request then goes to the configured URI
    followed by the method.  In every other case the command ends without
    contacting the server. *)
Theorem X21_when_a_request_is_sent
    {J : Type} (json_loads : string -> option J) (is_dict : J -> bool)
    (json_dumps : J -> string) (argv : list string)
    (api : option (gmap string string)) (reply : option string) :
  (forall url,
     In url (CallApi.main json_loads is_dict json_dumps argv api reply).1 ->
     exists prog method request rest j options uri,
       argv = prog :: method :: request :: rest
       /\ json_loads request = Some j /\ is_dict j = true
       /\ api = Some options /\ options !! "uri" = Some uri
       /\ is_Some (options !! "key") /\ is_Some (options !! "secret")
       /\ (CallApi.main json_loads is_dict json_dumps argv api reply).1
          = [uri +:+ method])
  /\ (forall prog method request rest j options uri,
      argv = prog :: method :: request :: rest ->
      json_loads request = Some j -> is_dict j = true ->
      api = Some options -> options !! "uri" = Some uri ->
      is_Some (options !! "key") -> is_Some (options !! "secret") ->
      (CallApi.main json_loads is_dict json_dumps argv api reply).1
      = [uri +:+ method]).
Proof.
  split.
  - intros url. unfold CallApi.main.
    destruct argv as [|prog [|method [|request rest]]]; try (intros []).
    destruct (json_loads request) as [j|] eqn:Hj; [|intros []].
    destruct api as [options|] eqn:Ha; [|intros []].
    destruct (options !! "key") as [key|] eqn:Hk; [|intros []].
    pose proof (api_call_sends is_dict (Some options) method j reply url) as S.
    destruct (CallApi.api_call is_dict (Some options) method j reply) as [sent res].
    simpl in S.
    assert (Hsent : In url sent ->
              exists prog0 method0 request0 rest0 j0 options0 uri,
                prog :: method :: request :: rest
                = prog0 :: method0 :: request0 :: rest0
                /\ json_loads request0 = Some j0 /\ is_dict j0 = true
                /\ Some options = Some options0 /\ options0 !! "uri" = Some uri
                /\ is_Some (options0 !! "key") /\ is_Some (options0 !! "secret")
                /\ sent = [uri +:+ method0]).
    { intros Hin. destruct (S Hin) as (o' & uri & [= <-] & Hu & Hk' & Hs & Hd & -> & ->).
      exists prog, method, request, rest, j, options, uri. repeat split; auto. }
    destruct res as [body|e]; [|exact Hsent].
    destruct rest as [|option rest']; [exact Hsent|].
    destruct (String.eqb option "pretty"); [exact Hsent|].
    destruct (String.eqb option "binary"); exact Hsent.
  - intros prog method request rest j options uri -> Hj Hd -> Hu [key Hk] [secret Hs].
    unfold CallApi.main. rewrite Hj, Hk. unfold CallApi.api_call.
    rewrite Hu, Hk, Hd, Hs. simpl.
    destruct reply as [body|]; [|reflexivity].
    destruct rest as [|option rest']; [reflexivity|].
    destruct (String.eqb option "pretty"); [reflexivity|].
    destruct (String.eqb option "binary"); reflexivity.
Qed.

Lemma X21_witness :
  (CallApi.main MoreExamples.only_empty_object (fun _ => true) (fun _ => "{}")
     ["call-api.py"; "test/ping"; "{}"] (Some MoreExamples.api_section)
     (Some "pong")).1
  = ["https://transform.shadowserver.org/api2/test/ping"].
Proof.
  apply (proj2 (X21_when_a_request_is_sent MoreExamples.only_empty_object
                  (fun _ => true) (fun _ => "{}") ["call-api.py"; "test/ping"; "{}"]
                  (Some MoreExamples.api_section) (Some "pong"))
           "call-api.py" "test/ping" "{}" [] tt MoreExamples.api_section
           "https://transform.shadowserver.org/api2/");
    try reflexivity; vm_compute; eauto.
Defined.



(** ** Section names and option lists *)

Lemma basename_step (c : ascii) (rest : string) :
  basename (String c rest)
  = if Ascii.eqb c "/" then basename rest
    else if existsb (Ascii.eqb "/") (list_ascii_of_string rest) then basename rest
         else String c rest.
Proof. reflexivity. Qed.

Lemma basename_plain (name : string) :
  existsb (Ascii.eqb "/") (list_ascii_of_string name) = false ->
  basename name = name.
Proof.
  destruct name as [|c name]; [reflexivity|]. intros H.
  change (Ascii.eqb "/" c || existsb (Ascii.eqb "/") (list_ascii_of_string name) = false)
    in H.
  apply orb_false_iff in H as [Hc Hrest].
  rewrite Ascii.eqb_sym in Hc. now rewrite basename_step, Hc, Hrest.
Qed.

Lemma slash_in_append (a b : string) :
  existsb (Ascii.eqb "/") (list_ascii_of_string (a +:+ String "/" b)) = true.
Proof.
  induction a as [|c a IH]; [reflexivity|].
  change (Ascii.eqb "/" c
          || existsb (Ascii.eqb "/") (list_ascii_of_string (a +:+ String "/" b)) = true).
  rewrite IH. apply orb_true_r.
Qed.

Lemma basename_last (dir name : string) :
  existsb (Ascii.eqb "/") (list_ascii_of_string name) = false ->
  basename (dir +:+ String "/" name) = name.
Proof.
  intros H. induction dir as [|c dir IH].
  - change (basename (String "/" name) = name). rewrite basename_step.
    change (Ascii.eqb "/" "/") with true. now apply basename_plain.
  - change (basename (String c (dir +:+ String "/" name)) = name).
    rewrite basename_step, slash_in_append. destruct (Ascii.eqb c "/"); exact IH.
Qed.

(** X23.  A section's checkpoint directory is the state directory joined
    with the last path component of the section name.  Sections whose
    names end in the same component therefore share one directory, and a
    report that one of them has downloaded is skipped by the other. *)
Theorem X23_checkpoint_directory_of_a_section
    (reserved : string -> bool)
    (csv : string -> list row * option string) (state_directory : string)
    (mapping : gmap string string) (today : Z) (dir name : string)
    (input_item : gmap string string) (env : Logger.section_env)
    (fs : gmap string file) :
  existsb (Ascii.eqb "/") (list_ascii_of_string name) = false ->
  basename name = name
  /\ basename (dir +:+ String "/" name) = name
  /\ ECS.section_run reserved csv state_directory mapping today (dir +:+ String "/" name)
       input_item env fs
     = ECS.section_run reserved csv state_directory mapping today name input_item env fs
  /\ (forall types now r o,
      is_Some (fs !! path_join (path_join state_directory name) (r_file r)) ->
      ECS.report_step reserved csv mapping types
        (path_join state_directory (basename (dir +:+ String "/" name))) now r o fs
      = (fs, [], Ret ())).
Proof.
  intros H. pose proof (basename_plain name H) as Hp.
  pose proof (basename_last dir name H) as Hl.
  split; [exact Hp|]. split; [exact Hl|]. split.
  - unfold ECS.section_run. now rewrite Hl, Hp.
  - intros types now r o Hs. rewrite Hl. unfold ECS.report_step.
    destruct (Logger.filtered_out types r); [reflexivity|].
    now rewrite (proj2 (exists_true _ _) Hs).
Qed.

Lemma X23_witness :
  basename "inputs/feed" = "feed"
  /\ ECS.section_run Examples.reserved Examples.plain_csv "/state" ∅ Examples.today "inputs/feed"
       (list_to_map [("log", "/var/log/feed.json")])
       (Examples.serves Examples.scan (FetchOk Examples.two_rows) Examples.noon "feed") ∅
     = ECS.section_run Examples.reserved Examples.plain_csv "/state" ∅ Examples.today "feed"
         (list_to_map [("log", "/var/log/feed.json")])
         (Examples.serves Examples.scan (FetchOk Examples.two_rows) Examples.noon "feed") ∅.
Proof.
  pose proof (X23_checkpoint_directory_of_a_section Examples.reserved
                Examples.plain_csv "/state" ∅
                Examples.today "inputs" "feed" (list_to_map [("log", "/var/log/feed.json")])
                (Examples.serves Examples.scan (FetchOk Examples.two_rows)
                   Examples.noon "feed") ∅ eq_refl) as (_ & H1 & H2 & _).
  split; [exact H1|exact H2].
Defined.

(** X24.  Splitting an option value on commas loses nothing: joining the
    pieces with the separator gives the value back, there is one piece
    more than there are separators, and no piece contains one. *)
Theorem X24_split_and_join (c : ascii) (s : string) :
  String.concat (String c "") (split_on (is_char c) s) = s
  /\ length (split_on (is_char c) s) = S (count_char (is_char c) s)
  /\ Forall (fun piece => count_char (is_char c) piece = 0) (split_on (is_char c) s).
Proof.
  split; [|split; [apply split_on_length|apply split_on_pieces]].
  induction s as [|x s IH]; [reflexivity|].
  simpl. unfold is_char at 1. destruct (Ascii.eqb_spec c x) as [<-|Hne].
  - pose proof (split_on_length (is_char c) s) as Hl.
    destruct (split_on (is_char c) s) as [|w ws] eqn:E; [discriminate Hl|].
    change (String.concat (String c "") ("" :: w :: ws))
      with (String c (String.concat (String c "") (w :: ws))).
    now rewrite IH.
  - pose proof (split_on_length (is_char c) s) as Hl.
    destruct (split_on (is_char c) s) as [|w ws] eqn:E; [discriminate Hl|].
    destruct ws as [|w' ws].
    + simpl in *. now rewrite IH.
    + change (String.concat (String c "") (String x w :: w' :: ws))
        with (String x (w +:+ String c (String.concat (String c "") (w' :: ws)))).
      change (String.concat (String c "") (w :: w' :: ws))
        with (w +:+ String c (String.concat (String c "") (w' :: ws))) in IH.
      now rewrite IH.
Qed.
